(** * Backup platform: the schedule store, the backup executor and the
      registration and deletion handlers

    A shallow embedding of [worker/worker.py] (the polling executor) and of
    the handlers of [backend/app.py] that create and destroy the entries of
    the schedule store, followed by the properties of the backup core.

    Layout: the Python library functions the program calls (string
    splitting, [datetime], the file system) are modelled first, then the
    store, then the two programs, then the theorems. *)

From Stdlib Require Import ZArith Lia Bool List Ascii String.
From stdpp Require Import base option list strings gmap.

Local Open Scope string_scope.
Local Open Scope Z_scope.

(* ===================================================================== *)
(** ** Python strings: the [os.path] helpers the program uses *)
(* ===================================================================== *)

Module PyStr.

Definition chars (s : string) : list ascii := list_ascii_of_string s.
Definition str (l : list ascii) : string := string_of_list_ascii l.

(** [s.rfind(c)]: index of the last occurrence of [c], [-1] when absent. *)
Fixpoint rfind_from (c : ascii) (l : list ascii) (i acc : Z) : Z :=
  match l with
  | [] => acc
  | x :: l' => rfind_from c l' (i + 1) (if Ascii.eqb x c then i else acc)
  end.

Definition rfind (c : ascii) (s : string) : Z := rfind_from c (chars s) 0 (-1).

(** [s[:i]] and [s[i:]] for [0 <= i]. *)
Definition upto (i : Z) (s : string) : string := str (take (Z.to_nat i) (chars s)).
Definition from (i : Z) (s : string) : string := str (drop (Z.to_nat i) (chars s)).

(** [posixpath.splitext], that is [genericpath._splitext(p, '/', None, '.')]:
    the extension starts at the last dot of the last path component,
    unless that component has nothing but dots before it. *)
Definition splitext (p : string) : string * string :=
  let sepIndex := rfind "/" p in
  let dotIndex := rfind "." p in
  if Z.ltb sepIndex dotIndex then
    let filenameIndex := sepIndex + 1 in
    let between := take (Z.to_nat (dotIndex - filenameIndex))
                        (drop (Z.to_nat filenameIndex) (chars p)) in
    if existsb (fun c => negb (Ascii.eqb c ".")) between
    then (upto dotIndex p, from dotIndex p)
    else (p, "")
  else (p, "").

(** [posixpath.dirname]: the head up to the last slash, without its
    trailing slashes unless it consists of slashes only. *)
Fixpoint rstrip_slash_rev (l : list ascii) : list ascii :=
  match l with
  | c :: l' => if Ascii.eqb c "/" then rstrip_slash_rev l' else l
  | [] => []
  end.

Definition dirname (p : string) : string :=
  let i := rfind "/" p + 1 in
  let head := take (Z.to_nat i) (chars p) in
  if forallb (fun c => Ascii.eqb c "/") head then str head
  else str (rev (rstrip_slash_rev (rev head))).

(** [posixpath.basename]: what follows the last slash. *)
Definition basename (p : string) : string := from (rfind "/" p + 1) p.

(** [posixpath.join(a, b)] for two components. *)
Definition ends_with_slash (a : string) : bool :=
  match rev (chars a) with
  | c :: _ => Ascii.eqb c "/"
  | [] => false
  end.

Definition starts_with_slash (b : string) : bool :=
  match chars b with
  | c :: _ => Ascii.eqb c "/"
  | [] => false
  end.

Definition join (a b : string) : string :=
  if starts_with_slash b then b
  else if (String.eqb a "" || ends_with_slash a)%bool then a +:+ b
  else a +:+ "/" +:+ b.

(** Fixed-width decimal, as [%02d], [%04d] and [%06d] print a number that
    fits the width. *)
Definition digit (n : Z) : ascii := ascii_of_nat (48 + Z.to_nat (n mod 10)).

Fixpoint zpad_chars (w : nat) (n : Z) : list ascii :=
  match w with
  | O => []
  | S w' => zpad_chars w' (n / 10) ++ [digit n]
  end.

Definition zpad (w : nat) (n : Z) : string := str (zpad_chars w n).

(** Reading back exactly [w] decimal digits. *)
Definition digit_val (c : ascii) : option Z :=
  let n := Z.of_nat (nat_of_ascii c) in
  if (Z.leb 48 n && Z.leb n 57)%bool then Some (n - 48) else None.

Fixpoint read_digits (w : nat) (acc : Z) (l : list ascii) : option (Z * list ascii) :=
  match w with
  | O => Some (acc, l)
  | S w' =>
      match l with
      | c :: l' =>
          match digit_val c with
          | Some d => read_digits w' (10 * acc + d) l'
          | None => None
          end
      | [] => None
      end
  end.

Global Arguments splitext : simpl never.
Global Arguments dirname : simpl never.
Global Arguments basename : simpl never.
Global Arguments join : simpl never.

End PyStr.

(* ===================================================================== *)
(** ** Exceptions and results *)
(* ===================================================================== *)

(** The exceptions the modelled statements raise. *)
Inductive exn : Type :=
  | JSONDecodeError
  | ValueError
  | KeyError (key : string)
  | OverflowError
  | FileNotFoundError (path : string)
  | IsADirectoryError (path : string)
  | NotADirectoryError (path : string)
  | FileExistsError (path : string)
  | SameFileError (path : string).

Inductive res (A : Type) : Type :=
  | Ok (a : A)
  | Raise (e : exn).
Arguments Ok {A} a.
Arguments Raise {A} e.

Definition res_bind {A B} (r : res A) (k : A -> res B) : res B :=
  match r with
  | Ok a => k a
  | Raise e => Raise e
  end.

(* ===================================================================== *)
(** ** [datetime]: the clock, its arithmetic and its text forms *)
(* ===================================================================== *)

Module PyTime.
Import PyStr.

(** A [datetime] in the zone of the program, [Europe/Moscow]. The zone is
    taken at its fixed offset of three hours east of UTC, which it has had
    since 26 October 2014; earlier instants, for which the zone database
    has other offsets, are outside the model. *)
Record datetime : Type := mkdt {
  year : Z; month : Z; day : Z;
  hour : Z; minute : Z; second : Z; microsecond : Z
}.

Definition MOSCOW_UTCOFFSET : Z := 3 * 3600 * 1000000.

Definition is_leap (y : Z) : bool :=
  ((y mod 4 =? 0) && (negb (y mod 100 =? 0) || (y mod 400 =? 0)))%bool.

Definition days_before_year (y : Z) : Z :=
  let y1 := y - 1 in y1 * 365 + y1 / 4 - y1 / 100 + y1 / 400.

Definition days_in_month (y m : Z) : Z :=
  if m =? 2 then (if is_leap y then 29 else 28)
  else if (m =? 4) || (m =? 6) || (m =? 9) || (m =? 11) then 30
  else 31.

(** [_DAYS_BEFORE_MONTH], for a common year. *)
Definition DAYS_BEFORE_MONTH (m : Z) : Z :=
  match m with
  | 1 => 0 | 2 => 31 | 3 => 59 | 4 => 90 | 5 => 120 | 6 => 151
  | 7 => 181 | 8 => 212 | 9 => 243 | 10 => 273 | 11 => 304 | 12 => 334
  | _ => 0
  end.

Definition days_before_month (y m : Z) : Z :=
  DAYS_BEFORE_MONTH m + (if (2 <? m) && is_leap y then 1 else 0).

Definition ymd2ord (y m d : Z) : Z :=
  days_before_year y + days_before_month y m + d.

Definition DI400Y : Z := 146097.
Definition DI100Y : Z := 36524.
Definition DI4Y : Z := 1461.
Definition MAXORDINAL : Z := 3652059.

(** The end of [_ord2ymd]: month and day of the [n]-th day (from 0) of a
    year. The month is first estimated, then lowered by one when the
    estimate is too large. *)
Definition month_and_day (leapyear : bool) (n : Z) : Z * Z :=
  let m := Z.shiftr (n + 50) 5 in
  let preceding := DAYS_BEFORE_MONTH m + (if (2 <? m) && leapyear then 1 else 0) in
  if n <? preceding then
    let m' := m - 1 in
    let preceding' :=
      preceding - (days_in_month 1 m' + (if (m' =? 2) && leapyear then 1 else 0)) in
    (m', n - preceding' + 1)
  else (m, n - preceding + 1).

(** [_ord2ymd]: the date of a proleptic Gregorian ordinal. *)
Definition ord2ymd (n0 : Z) : Z * Z * Z :=
  let n := n0 - 1 in
  let n400 := n / DI400Y in let n := n mod DI400Y in
  let y := n400 * 400 + 1 in
  let n100 := n / DI100Y in let n := n mod DI100Y in
  let n4 := n / DI4Y in let n := n mod DI4Y in
  let n1 := n / 365 in let n := n mod 365 in
  let y := y + n100 * 100 + n4 * 4 + n1 in
  if (n1 =? 4) || (n100 =? 4) then (y - 1, 12, 31)
  else
    let leapyear := ((n1 =? 3) && (negb (n4 =? 24) || (n100 =? 3)))%bool in
    let '(m, d) := month_and_day leapyear n in
    (y, m, d).

Definition US_PER_SECOND : Z := 1000000.
Definition US_PER_DAY : Z := 86400 * US_PER_SECOND.

(** Microseconds on the wall clock since the start of ordinal day 0. *)
Definition to_us (d : datetime) : Z :=
  (((ymd2ord (year d) (month d) (day d) * 24 + hour d) * 60 + minute d) * 60
     + second d) * US_PER_SECOND + microsecond d.

Definition of_us (t : Z) : datetime :=
  let '(y, m, d) := ord2ymd (t / US_PER_DAY) in
  let r := t mod US_PER_DAY in
  let s := r / US_PER_SECOND in
  mkdt y m d (s / 3600) ((s mod 3600) / 60) (s mod 60) (r mod US_PER_SECOND).

(** The ordinal days a [datetime] can hold: years 1 to 9999. *)
Definition in_range (t : Z) : bool :=
  (0 <? t / US_PER_DAY) && (t / US_PER_DAY <=? MAXORDINAL).

(** The checks of the [datetime] constructor. *)
Definition valid (d : datetime) : bool :=
  (1 <=? year d) && (year d <=? 9999) && (1 <=? month d) && (month d <=? 12)
  && (1 <=? day d) && (day d <=? days_in_month (year d) (month d))
  && (0 <=? hour d) && (hour d <=? 23) && (0 <=? minute d) && (minute d <=? 59)
  && (0 <=? second d) && (second d <=? 59)
  && (0 <=? microsecond d) && (microsecond d <=? 999999).

(** [a >= b] on two datetimes of the same zone. *)
Definition ge (a b : datetime) : bool := to_us b <=? to_us a.

(** [timedelta(days=, hours=, minutes=, seconds=)] on integers, in
    microseconds; the constructor refuses more than 999999999 days. *)
Definition timedelta (days hours minutes seconds : Z) : res Z :=
  let s := days * 86400 + hours * 3600 + minutes * 60 + seconds in
  if Z.abs (s / 86400) >? 999999999 then Raise OverflowError
  else Ok (s * US_PER_SECOND).

(** [d + delta]: the zone is kept, the result must be a representable date. *)
Definition add (d : datetime) (delta : Z) : res datetime :=
  let t := to_us d + delta in
  if in_range t then Ok (of_us t) else Raise OverflowError.

(** [strftime("%Y-%m-%d")] and [strftime("%H-%M-%S")]. *)
Definition strftime_date (d : datetime) : string :=
  zpad 4 (year d) +:+ "-" +:+ zpad 2 (month d) +:+ "-" +:+ zpad 2 (day d).

Definition strftime_time (d : datetime) : string :=
  zpad 2 (hour d) +:+ "-" +:+ zpad 2 (minute d) +:+ "-" +:+ zpad 2 (second d).

(** [isoformat()] of a datetime of the program's zone: the fraction is
    written only when it is not zero. *)
Definition isoformat (d : datetime) : string :=
  zpad 4 (year d) +:+ "-" +:+ zpad 2 (month d) +:+ "-" +:+ zpad 2 (day d)
  +:+ "T" +:+ zpad 2 (hour d) +:+ ":" +:+ zpad 2 (minute d) +:+ ":" +:+ zpad 2 (second d)
  +:+ (if microsecond d =? 0 then "" else "." +:+ zpad 6 (microsecond d))
  +:+ "+03:00".

(** *** [datetime.fromisoformat]

    The grammar is the one documented for Python 3.7 to 3.10:
    [YYYY-MM-DD[*HH[:MM[:SS[.fff[fff]]]][+HH:MM[:SS[.ffffff]]]]]. Later
    versions read further spellings; here they raise [ValueError] like
    any other unreadable text. *)

Definition expect (c : ascii) (l : list ascii) : option (list ascii) :=
  match l with
  | x :: l' => if Ascii.eqb x c then Some l' else None
  | [] => None
  end.

Definition parse_date (l : list ascii) : option (Z * Z * Z * list ascii) :=
  '(y, l) ← read_digits 4 0 l;
  l ← expect "-" l;
  '(m, l) ← read_digits 2 0 l;
  l ← expect "-" l;
  '(d, l) ← read_digits 2 0 l;
  Some (y, m, d, l).

(** The fraction: three or six digits and nothing after them. *)
Definition parse_fraction (l : list ascii) : option Z :=
  match length l with
  | 3%nat => '(f, _) ← read_digits 3 0 l; Some (f * 1000)
  | 6%nat => '(f, _) ← read_digits 6 0 l; Some f
  | _ => None
  end.

(** [HH[:MM[:SS[.fff[fff]]]]], the whole of [l]. *)
Definition parse_hh_mm_ss_ff (l : list ascii) : option (Z * Z * Z * Z) :=
  '(h, l) ← read_digits 2 0 l;
  match l with
  | [] => Some (h, 0, 0, 0)
  | c :: l =>
      if negb (Ascii.eqb c ":") then None else
      '(m, l) ← read_digits 2 0 l;
      match l with
      | [] => Some (h, m, 0, 0)
      | c :: l =>
          if negb (Ascii.eqb c ":") then None else
          '(s, l) ← read_digits 2 0 l;
          match l with
          | [] => Some (h, m, s, 0)
          | c :: l =>
              if negb (Ascii.eqb c ".") then None else
              f ← parse_fraction l; Some (h, m, s, f)
          end
      end
  end.

(** The time text is cut at its first sign. *)
Fixpoint split_sign (l : list ascii) : list ascii * option (bool * list ascii) :=
  match l with
  | [] => ([], None)
  | c :: l' =>
      if Ascii.eqb c "+" then ([], Some (false, l'))
      else if Ascii.eqb c "-" then ([], Some (true, l'))
      else let '(t, z) := split_sign l' in (c :: t, z)
  end.

(** The offset, in microseconds: [HH:MM], [HH:MM:SS] or
    [HH:MM:SS.ffffff], strictly inside one day. *)
Definition parse_offset (negative : bool) (l : list ascii) : option Z :=
  match length l with
  | 5%nat | 8%nat | 15%nat =>
      '(h, m, s, f) ← parse_hh_mm_ss_ff l;
      let off := (h * 3600 + m * 60 + s) * US_PER_SECOND + f in
      if off <? US_PER_DAY then Some (if negative then - off else off) else None
  | _ => None
  end.

(** The fields and, for an aware text, the offset from UTC. *)
Definition parse_iso (s : string) : option (datetime * option Z) :=
  '(y, m, d, l) ← parse_date (chars s);
  match l with
  | [] => Some (mkdt y m d 0 0 0 0, None)
  | _sep :: l =>
      let '(t, z) := split_sign l in
      '(hh, mm, ss, ff) ← parse_hh_mm_ss_ff t;
      match z with
      | None => Some (mkdt y m d hh mm ss ff, None)
      | Some (neg, zl) => off ← parse_offset neg zl; Some (mkdt y m d hh mm ss ff, Some off)
      end
  end.

(** [datetime.fromisoformat(s).astimezone(MOSCOW_TZ)]. A text without an
    offset is read on the host's own clock, [host_utcoffset] microseconds
    east of UTC. Both the instant in UTC and the instant on the Moscow
    clock must be representable. *)
Definition fromisoformat_moscow (host_utcoffset : Z) (s : string) : res datetime :=
  match parse_iso s with
  | None => Raise ValueError
  | Some (d, z) =>
      if negb (valid d) then Raise ValueError else
      let off := match z with Some o => o | None => host_utcoffset end in
      let utc := to_us d - off in
      if negb (in_range utc) then Raise OverflowError else
      let t := utc + MOSCOW_UTCOFFSET in
      if negb (in_range t) then Raise OverflowError else Ok (of_us t)
  end.

Global Arguments strftime_date : simpl never.
Global Arguments strftime_time : simpl never.
Global Arguments isoformat : simpl never.
Global Arguments fromisoformat_moscow : simpl never.
Global Arguments ge : simpl never.
Global Arguments add : simpl never.
Global Arguments timedelta : simpl never.

End PyTime.

(* ===================================================================== *)
(** ** The schedule store: tracked files and their backup records *)
(* ===================================================================== *)

Module Store.

(** One element of [backups_history]: the keys [time], [filename] (the
    archive name) and [date] (the bucket). *)
Record backup_record : Type := mkrec {
  time : string;
  archive_name : string;
  date : string
}.

(** One element of the collection in [data/files.json], with the keys of
    the [file_data] dictionary that [upload_file] builds and values of the
    types it writes there. The four keys the executor reads through
    [.get(key, default)] or tests with [in] may be absent; [next_backup]
    and [last_backup] are [None] for a null (or absent) value. A store
    edited to hold values of other JSON types under these keys is outside
    the model. *)
Record entry : Type := mkentry {
  file_id : Z;
  filename : string;
  path : string;
  upload_date : string;
  period_value : option Z;
  period_unit : option string;
  next_backup : option string;
  last_backup : option string;
  backup_count : option Z;
  backups_history : option (list backup_record)
}.

Definition set_last_backup (v : string) (e : entry) : entry :=
  mkentry (file_id e) (filename e) (path e) (upload_date e) (period_value e)
          (period_unit e) (next_backup e) (Some v) (backup_count e) (backups_history e).

Definition set_backup_count (v : Z) (e : entry) : entry :=
  mkentry (file_id e) (filename e) (path e) (upload_date e) (period_value e)
          (period_unit e) (next_backup e) (last_backup e) (Some v) (backups_history e).

Definition set_backups_history (v : list backup_record) (e : entry) : entry :=
  mkentry (file_id e) (filename e) (path e) (upload_date e) (period_value e)
          (period_unit e) (next_backup e) (last_backup e) (backup_count e) (Some v).

Definition set_next_backup (v : string) (e : entry) : entry :=
  mkentry (file_id e) (filename e) (path e) (upload_date e) (period_value e)
          (period_unit e) (Some v) (last_backup e) (backup_count e) (backups_history e).

(** [file.get("backup_count", 0)] and the history as a reader sees it. *)
Definition count_of (e : entry) : Z := default 0 (backup_count e).
Definition history_of (e : entry) : list backup_record := default [] (backups_history e).

End Store.

(* ===================================================================== *)
(** ** The file system *)
(* ===================================================================== *)

Module FS.
Import PyStr Store.

(** What a regular file holds. A file that [json.load] reads as a
    collection of tracked files is kept as that collection: [json.dump]
    followed by [json.load] is the identity on it. [Text] is any other
    content, which [json.load] refuses; a well-formed JSON document of
    another shape is outside the model. *)
Inductive content : Type :=
  | Text (s : string)
  | Collection (files : list entry).

Inductive node : Type :=
  | File (c : content)
  | Dir.

(** Paths are identified with their spelling: no [.], [..], doubled
    slashes or links are resolved. The working directory is the empty
    path, always present. *)
Abbreviation fs := (gmap string node).

Definition exists_ (t : fs) (p : string) : bool :=
  match t !! p with Some _ => true | None => false end.

Definition isdir (t : fs) (p : string) : bool :=
  match t !! p with Some Dir => true | _ => false end.

(** Creating a new name needs its parent directory. *)
Definition parent_check (t : fs) (p : string) : res unit :=
  let d := dirname p in
  if String.eqb d "" then Ok tt
  else match t !! d with
       | Some Dir => Ok tt
       | Some (File _) => Raise (NotADirectoryError p)
       | None => Raise (FileNotFoundError p)
       end.

(** [os.mkdir]. *)
Definition mkdir (t : fs) (p : string) : res fs :=
  match t !! p with
  | Some _ => Raise (FileExistsError p)
  | None => res_bind (parent_check t p) (fun _ => Ok (<[p := Dir]> t))
  end.

(** [os.makedirs(name, exist_ok=True)]: the missing ancestors first, then
    the leaf; an error of the leaf's [mkdir] is dropped when the leaf is
    a directory. The recursion is on the length of the name. *)
Fixpoint makedirs_fuel (fuel : nat) (t : fs) (name : string) : res fs :=
  match fuel with
  | O => Raise (FileNotFoundError name)
  | S fuel' =>
      let head := dirname name in
      let tail := basename name in
      let '(head, tail) :=
        if String.eqb tail "" then (dirname head, basename head) else (head, tail) in
      let ancestors :=
        if negb (String.eqb head "") && negb (String.eqb tail "") && negb (exists_ t head)
        then match makedirs_fuel fuel' t head with
             | Ok t' => Ok t'
             | Raise (FileExistsError _) => Ok t
             | Raise e => Raise e
             end
        else Ok t in
      match ancestors with
      | Raise e => Raise e
      | Ok t1 =>
          if negb (String.eqb head "") && negb (String.eqb tail "") && negb (exists_ t head)
             && String.eqb tail "."
          then Ok t1
          else match mkdir t1 name with
               | Ok t2 => Ok t2
               | Raise e => if isdir t1 name then Ok t1 else Raise e
               end
      end
  end.

Definition makedirs (t : fs) (name : string) : res fs :=
  makedirs_fuel (S (String.length name)) t name.

(** [open(p, "w")] creates the file or truncates it to nothing. *)
Definition open_w (t : fs) (p : string) : res fs :=
  match t !! p with
  | Some Dir => Raise (IsADirectoryError p)
  | Some (File _) => Ok (<[p := File (Text "")]> t)
  | None => res_bind (parent_check t p) (fun _ => Ok (<[p := File (Text "")]> t))
  end.

(** Writing through the open handle and closing it. *)
Definition put (t : fs) (p : string) (c : content) : fs := <[p := File c]> t.

(** [with open(p, "w") as f: write c]. *)
Definition write_file (t : fs) (p : string) (c : content) : res fs :=
  res_bind (open_w t p) (fun t' => Ok (put t' p c)).

(** [open(p, "rb")] and reading everything. *)
Definition read_file (t : fs) (p : string) : res content :=
  match t !! p with
  | Some (File c) => Ok c
  | Some Dir => Raise (IsADirectoryError p)
  | None => Raise (FileNotFoundError p)
  end.

(** [with open(p) as f: json.load(f)]. *)
Definition json_load (t : fs) (p : string) : res (list entry) :=
  res_bind (read_file t p) (fun c =>
    match c with
    | Collection files => Ok files
    | Text _ => Raise JSONDecodeError
    end).

(** [shutil.copy2(src, dst)]: a destination that is a directory receives
    the file under the source's base name; source and destination must
    differ; the metadata that [copystat] carries over is not modelled.
    The path written is returned, as [copy2] does. *)
Definition copy2 (t : fs) (src dst : string) : res (fs * string) :=
  let dst := if isdir t dst then join dst (basename src) else dst in
  if String.eqb src dst then Raise (SameFileError src) else
  res_bind (read_file t src) (fun c =>
  res_bind (write_file t dst c) (fun t' => Ok (t', dst))).

(** [os.remove]. *)
Definition remove (t : fs) (p : string) : res fs :=
  match t !! p with
  | Some (File _) => Ok (delete p t)
  | Some Dir => Raise (IsADirectoryError p)
  | None => Raise (FileNotFoundError p)
  end.

Global Arguments makedirs : simpl never.
Global Arguments copy2 : simpl never.
Global Arguments write_file : simpl never.
Global Arguments json_load : simpl never.
Global Arguments remove : simpl never.
Global Arguments exists_ : simpl never.
Global Arguments isdir : simpl never.

End FS.

(* ===================================================================== *)
(** ** The world the two programs run in *)
(* ===================================================================== *)

Module World.
Import Store FS.

(** The lines of [logs/worker.log] and [logs/app.log], without the clock
    reading that prefixes each. *)
Inductive logline : Type :=
  | WorkerStarted
  | BackupCreated (filename : string)
  | SourceNotFound (filename : string)
  | EntryError (filename : string) (e : exn)
  | TickError (e : exn)
  | Uploaded (filename : string) (period_value : Z) (period_unit : string)
  | UploadError (e : exn)
  | Deleted (filename : string)
  | DeleteError (e : exn).

(** The changes made to regular files, in the order they were made. *)
Inductive fs_event : Type :=
  | Written (path : string) (c : content)
  | Removed (path : string).

(** The file table, the journal of the writes and removals the programs
    have issued, the log sink, and the offset from UTC (in microseconds)
    of the host's own zone. The log files are kept apart from the file
    table, and appending a line to them always succeeds. *)
Record world : Type := mkworld {
  files_on_disk : fs;
  journal : list fs_event;
  log : list logline;
  host_utcoffset : Z
}.

Definition with_fs (t : fs) (w : world) : world :=
  mkworld t (journal w) (log w) (host_utcoffset w).

Definition with_write (t : fs) (ev : fs_event) (w : world) : world :=
  mkworld t (journal w ++ [ev]) (log w) (host_utcoffset w).

Definition log_message (l : logline) (w : world) : world :=
  mkworld (files_on_disk w) (journal w) (log w ++ [l]) (host_utcoffset w).

(** The saves of the store that the journal records. *)
Definition writes_to (p : string) (j : list fs_event) : list content :=
  omap (fun ev => match ev with
                  | Written q c => if String.eqb q p then Some c else None
                  | Removed _ => None
                  end) j.

End World.

(* ===================================================================== *)
(** ** [worker/worker.py]: the backup executor *)
(* ===================================================================== *)

Module Worker.
Import PyStr PyTime Store FS World.

Definition FILES_JSON : string := "data/files.json".

(** *** The statements of one loop iteration

    An iteration runs on the dictionary [file] of the entry (which it
    changes in place), on the world, and on the flag [updated] of
    [check_backups]. A statement either finishes or raises; what it has
    changed before raising stays changed. *)
Record frame : Type := mkframe {
  file : entry;
  env : world;
  updated : bool
}.

Definition M (A : Type) : Type := frame -> res A * frame.

Definition ret {A} (a : A) : M A := fun s => (Ok a, s).

Definition bind {A B} (m : M A) (k : A -> M B) : M B :=
  fun s => match m s with
           | (Ok a, s') => k a s'
           | (Raise e, s') => (Raise e, s')
           end.

Definition lift {A} (r : res A) : M A := fun s => (r, s).

Definition get_file : M entry := fun s => (Ok (file s), s).
Definition get_env : M world := fun s => (Ok (env s), s).

Definition modify_file (f : entry -> entry) : M unit :=
  fun s => (Ok tt, mkframe (f (file s)) (env s) (updated s)).

Definition modify_env (f : world -> world) : M unit :=
  fun s => (Ok tt, mkframe (file s) (f (env s)) (updated s)).

Definition set_updated : M unit :=
  fun s => (Ok tt, mkframe (file s) (env s) true).

(** [try: body except Exception as e: handler e]. *)
Definition try_except (body : M unit) (handler : exn -> M unit) : M unit :=
  fun s => match body s with
           | (Ok tt, s') => (Ok tt, s')
           | (Raise e, s') => handler e s'
           end.

(** The statements are sequenced with stdpp's notations, [x ← m; k] and
    [m ;; k]. *)
#[global] Instance M_bind : MBind M := fun A B k m => bind m k.
#[global] Instance M_ret : MRet M := fun A a => ret a.

Definition log_line (l : logline) : M unit := modify_env (log_message l).

(** [os.makedirs(d, exist_ok=True)] on the world. *)
Definition os_makedirs (d : string) : M unit :=
  w ← get_env;
  t ← lift (makedirs (files_on_disk w) d);
  modify_env (with_fs t).

(** [shutil.copy2(src, dst)] on the world; the journal notes the file
    written. *)
Definition shutil_copy2 (src dst : string) : M unit :=
  w ← get_env;
  r ← lift (copy2 (files_on_disk w) src dst);
  let '(t, written) := r in
  modify_env (fun w => match t !! written with
                       | Some (File c) => with_write t (Written written c) w
                       | _ => with_fs t w
                       end).

(** Lines 82 to 94: the time of the next backup. *)
Definition next_time (current_time : datetime) (e : entry) : res datetime :=
  let period_value := default 1 (period_value e) in
  let period_unit := default "hours" (period_unit e) in
  if String.eqb period_unit "seconds" then
    res_bind (timedelta 0 0 0 period_value) (add current_time)
  else if String.eqb period_unit "minutes" then
    res_bind (timedelta 0 0 period_value 0) (add current_time)
  else if String.eqb period_unit "hours" then
    res_bind (timedelta 0 period_value 0 0) (add current_time)
  else if String.eqb period_unit "days" then
    res_bind (timedelta period_value 0 0 0) (add current_time)
  else
    res_bind (timedelta 0 1 0 0) (add current_time).

Global Arguments next_time : simpl never.

(** Lines 46 to 101: the body of the inner [try]. *)
Definition backup_if_due (current_time : datetime) (next_backup_text : string) : M unit :=
  w ← get_env;
  next_backup ← lift (fromisoformat_moscow (host_utcoffset w) next_backup_text);
  if ge current_time next_backup then
    f ← get_file;
    let file_path := path f in
    let filename := filename f in
    w ← get_env;
    if exists_ (files_on_disk w) file_path then
      let backup_date := strftime_date current_time in
      let backup_dir := "backups/" +:+ backup_date in
      os_makedirs backup_dir ;;
      let timestamp := strftime_time current_time in
      let original_name := fst (splitext filename) in
      let extension := snd (splitext filename) in
      let backup_name := original_name +:+ "_" +:+ timestamp +:+ extension in
      let dst := backup_dir +:+ "/" +:+ backup_name in
      shutil_copy2 file_path dst ;;
      modify_file (set_last_backup (isoformat current_time)) ;;
      f ← get_file;
      modify_file (set_backup_count (default 0 (backup_count f) + 1)) ;;
      f ← get_file;
      (match backups_history f with
       | None => modify_file (set_backups_history [])
       | Some _ => ret tt
       end) ;;
      f ← get_file;
      modify_file (set_backups_history
                     (history_of f ++ [mkrec (isoformat current_time) backup_name backup_date])) ;;
      f ← get_file;
      next ← lift (next_time current_time f);
      modify_file (set_next_backup (isoformat next)) ;;
      log_line (BackupCreated filename) ;;
      set_updated
    else
      log_line (SourceNotFound filename)
  else ret tt.

(** [not file.get("next_backup")]: a null, absent or empty value. *)
Definition scheduled (e : entry) : option string :=
  match next_backup e with
  | Some s => if String.eqb s "" then None else Some s
  | None => None
  end.

(** Lines 41 to 105: one iteration of [for file in files]. *)
Definition iteration (current_time : datetime) : M unit :=
  f ← get_file;
  match scheduled f with
  | None => ret tt
  | Some text =>
      try_except (backup_if_due current_time text)
                 (fun e => f ← get_file; log_line (EntryError (filename f) e))
  end.

(** The loop: the dictionaries are changed in place, so the list holds
    the changed entries when the loop ends. *)
Fixpoint for_file_in (current_time : datetime) (files : list entry)
         (w : world) (upd : bool) : res (list entry) * world * bool :=
  match files with
  | [] => (Ok [], w, upd)
  | f :: rest =>
      match iteration current_time (mkframe f w upd) with
      | (Raise e, s) => (Raise e, env s, updated s)
      | (Ok tt, s) =>
          match for_file_in current_time rest (env s) (updated s) with
          | (Ok rest', w', upd') => (Ok (file s :: rest'), w', upd')
          | (Raise e, w', upd') => (Raise e, w', upd')
          end
      end
  end.

(** [with open(FILES_JSON, "w") as f: json.dump(files, f)]. *)
Definition save (files : list entry) (w : world) : res unit * world :=
  match write_file (files_on_disk w) FILES_JSON (Collection files) with
  | Ok t => (Ok tt, with_write t (Written FILES_JSON (Collection files)) w)
  | Raise e => (Raise e, w)
  end.

(** Lines 31 to 109: the body of the outer [try]. *)
Definition check_backups_body (current_time : datetime) (w : world) : res unit * world :=
  if negb (exists_ (files_on_disk w) FILES_JSON) then (Ok tt, w)
  else
    match json_load (files_on_disk w) FILES_JSON with
    | Raise e => (Raise e, w)
    | Ok files =>
        match for_file_in current_time files w false with
        | (Raise e, w', _) => (Raise e, w')
        | (Ok files', w', upd) =>
            if upd then save files' w' else (Ok tt, w')
        end
    end.

(** [check_backups()], run at the clock reading [current_time]. *)
Definition check_backups (current_time : datetime) (w : world) : world :=
  match check_backups_body current_time w with
  | (Ok tt, w') => w'
  | (Raise e, w') => log_message (TickError e) w'
  end.

(** [main()]: the start-up line, then one [check_backups] per firing of
    the ten-second job, at the clock readings [ticks]. No exception
    leaves [check_backups], so the handler of the loop is never entered. *)
Definition run_pending (ticks : list datetime) (w : world) : world :=
  fold_left (fun w t => check_backups t w) ticks w.

Definition main (ticks : list datetime) (w : world) : world :=
  run_pending ticks (log_message WorkerStarted w).

(** *** Observations on a tick *)

(** The world and the flag with which the loop reaches each entry. *)
Fixpoint reached (current_time : datetime) (files : list entry)
         (w : world) (upd : bool) : list (world * bool) :=
  match files with
  | [] => []
  | f :: rest =>
      (w, upd) ::
      match iteration current_time (mkframe f w upd) with
      | (Ok tt, s) => reached current_time rest (env s) (updated s)
      | (Raise _, _) => []
      end
  end.

(** The frame in which the iteration on [f] ends. *)
Definition after (current_time : datetime) (f : entry) (w : world) (upd : bool) : frame :=
  snd (iteration current_time (mkframe f w upd)).

(** The iteration on [f] in the world [w] runs to line 99,
    [updated = True]. *)
Definition backed_up (current_time : datetime) (f : entry) (w : world) : bool :=
  updated (after current_time f w false).

(** Some iteration of the tick does. *)
Definition backed_up_in_tick (current_time : datetime) (files : list entry) (w : world)
  : bool :=
  existsb (fun fw => backed_up current_time (fst fw) (fst (snd fw)))
          (zip files (reached current_time files w false)).

(** The entry is scheduled, its time is readable and has come. *)
Definition is_due (current_time : datetime) (host : Z) (f : entry) : bool :=
  match scheduled f with
  | None => false
  | Some text =>
      match fromisoformat_moscow host text with
      | Ok next_backup => ge current_time next_backup
      | Raise _ => false
      end
  end.

End Worker.

(* ===================================================================== *)
(** ** [backend/app.py]: registration, listing and deletion *)
(* ===================================================================== *)

Module Backend.
Import PyStr PyTime Store FS World.

Definition FILES_JSON : string := "data/files.json".

(** The bodies of the responses. *)
Inductive response : Type :=
  | SecondsMinimumError          (* {"error": "Минимальный период для секунд: 30"} *)
  | PeriodMinimumError           (* {"error": "Период должен быть не менее 1"} *)
  | ErrorOf (e : exn)            (* {"error": str(e)} *)
  | FileUploaded (id : Z) (filename : string)
  | FileNotFound                 (* {"error": "File not found"} *)
  | FileDeleted.

(** The module body, lines 51 to 58: the directories and an empty store
    when there is none. *)
Definition startup (w : world) : res world :=
  res_bind (makedirs (files_on_disk w) "logs") (fun t =>
  res_bind (makedirs t "uploads") (fun t =>
  res_bind (makedirs t "backups") (fun t =>
  res_bind (makedirs t "data") (fun t =>
  if negb (exists_ t FILES_JSON) then
    res_bind (write_file t FILES_JSON (Collection []))
             (fun t => Ok (with_write t (Written FILES_JSON (Collection [])) w))
  else Ok (with_fs t w))))).

(** Lines 95 to 104. *)
Definition first_backup (now : datetime) (period_value : Z) (period_unit : string)
  : res datetime :=
  if String.eqb period_unit "seconds" then
    res_bind (timedelta 0 0 0 period_value) (add now)
  else if String.eqb period_unit "minutes" then
    res_bind (timedelta 0 0 period_value 0) (add now)
  else if String.eqb period_unit "hours" then
    res_bind (timedelta 0 period_value 0 0) (add now)
  else if String.eqb period_unit "days" then
    res_bind (timedelta period_value 0 0 0) (add now)
  else
    res_bind (timedelta 0 1 0 0) (add now).

(** Lines 81 to 132: the body of [upload_file] after the validation. It
    returns the world as it is when the body ends or raises. *)
Definition upload_body (filename : string) (data : content)
           (period_value : Z) (period_unit : string) (now : datetime) (w : world)
  : res response * world :=
  let file_path := "uploads/" +:+ filename in
  match write_file (files_on_disk w) file_path data with
  | Raise e => (Raise e, w)
  | Ok t =>
      let w := with_write t (Written file_path data) w in
      match json_load (files_on_disk w) FILES_JSON with
      | Raise e => (Raise e, w)
      | Ok files =>
          let file_id := Z.of_nat (length files) + 1 in
          match first_backup now period_value period_unit with
          | Raise e => (Raise e, w)
          | Ok next_backup =>
              let file_data :=
                mkentry file_id filename file_path (isoformat now)
                        (Some period_value) (Some period_unit)
                        (Some (isoformat next_backup)) None (Some 0) (Some []) in
              let files := (files ++ [file_data])%list in
              match write_file (files_on_disk w) FILES_JSON (Collection files) with
              | Raise e => (Raise e, w)
              | Ok t =>
                  let w := with_write t (Written FILES_JSON (Collection files)) w in
                  let w := log_message (Uploaded filename period_value period_unit) w in
                  (Ok (FileUploaded file_id filename), w)
              end
          end
      end
  end.

(** [upload_file(file, period_value, period_unit)], at the clock reading
    [now]. *)
Definition upload_file (filename : string) (data : content)
           (period_value : Z) (period_unit : string) (now : datetime) (w : world)
  : response * world :=
  if String.eqb period_unit "seconds" && (period_value <? 30) then
    (SecondsMinimumError, w)
  else if period_value <? 1 then
    (PeriodMinimumError, w)
  else
    match upload_body filename data period_value period_unit now w with
    | (Ok r, w') => (r, w')
    | (Raise e, w') => (ErrorOf e, log_message (UploadError e) w')
    end.

(** [get_files()]: the collection, or the empty list when the store
    cannot be read. *)
Definition get_files (w : world) : list entry :=
  match json_load (files_on_disk w) FILES_JSON with
  | Ok files => files
  | Raise _ => []
  end.

(** Lines 155 to 159: the first entry with the id. *)
Fixpoint find_by_id (id : Z) (files : list entry) : option entry :=
  match files with
  | [] => None
  | f :: rest => if file_id f =? id then Some f else find_by_id id rest
  end.

(** Lines 151 to 176: the body of [delete_file]. *)
Definition delete_body (id : Z) (w : world) : res response * world :=
  match json_load (files_on_disk w) FILES_JSON with
  | Raise e => (Raise e, w)
  | Ok files =>
      match find_by_id id files with
      | None => (Ok FileNotFound, w)
      | Some file_to_delete =>
          let removed :=
            if exists_ (files_on_disk w) (path file_to_delete) then
              match remove (files_on_disk w) (path file_to_delete) with
              | Ok t => Ok (with_write t (Removed (path file_to_delete)) w)
              | Raise e => Raise e
              end
            else Ok w in
          match removed with
          | Raise e => (Raise e, w)
          | Ok w =>
              let files := filter (fun f => file_id f ≠ id) files in
              match write_file (files_on_disk w) FILES_JSON (Collection files) with
              | Raise e => (Raise e, w)
              | Ok t =>
                  let w := with_write t (Written FILES_JSON (Collection files)) w in
                  let w := log_message (Deleted (filename file_to_delete)) w in
                  (Ok FileDeleted, w)
              end
          end
      end
  end.

(** [delete_file(file_id)]. *)
Definition delete_file (id : Z) (w : world) : response * world :=
  match delete_body id w with
  | (Ok r, w') => (r, w')
  | (Raise e, w') => (ErrorOf e, log_message (DeleteError e) w')
  end.

(** *** Histories of requests *)

Inductive request : Type :=
  | Upload (filename : string) (data : content)
           (period_value : Z) (period_unit : string) (now : datetime)
  | Delete (id : Z).

Definition handle (w : world) (r : request) : world :=
  match r with
  | Upload filename data pv pu now => snd (upload_file filename data pv pu now w)
  | Delete id => snd (delete_file id w)
  end.

(** The world after the requests [rs], served one after the other. *)
Definition serve (rs : list request) (w : world) : world := fold_left handle rs w.

(** The ids of the stored collection. *)
Definition ids (w : world) : list Z := map file_id (get_files w).

End Backend.

(* ===================================================================== *)
(** ** A save of the store as other processes see it *)
(* ===================================================================== *)

Module SaveView.
Import Store FS World.

(** The file tables that exist, one after the other, while
    [with open(FILES_JSON, "w") as f: json.dump(files, f)] runs on a
    store that is there: before the statement, after [open] (which
    truncates the file), and after the text is written and the file
    closed. A text longer than the stream's buffer reaches the file in
    several pieces; those further truncated states are not listed. *)
Definition save_points (t : fs) (files : list entry) : list fs :=
  match open_w t Worker.FILES_JSON with
  | Ok t1 => [t; t1; put t1 Worker.FILES_JSON (Collection files)]
  | Raise _ => [t]
  end.

(** What a process that loads the store at such a point gets. *)
Definition load_at (t : fs) : res (list entry) := json_load t Worker.FILES_JSON.

End SaveView.

(* ===================================================================== *)
(** ** The specification's own words, for comparison with the code *)
(* ===================================================================== *)

Module Spec.

(** "[period] maps unit to duration ([seconds]/[minutes]/[hours]/[days]);
    an unrecognized unit defaults to one hour": the duration in seconds. *)
Definition period (period_value : Z) (period_unit : string) : Z :=
  if String.eqb period_unit "seconds" then period_value
  else if String.eqb period_unit "minutes" then 60 * period_value
  else if String.eqb period_unit "hours" then 3600 * period_value
  else if String.eqb period_unit "days" then 86400 * period_value
  else 3600.

(** "[{backup_root}/{date_bucket}/{archive_name}]" with the archive name
    "[{stem}_{HH-MM-SS}{ext}]". *)
Definition archive_name (stem hms ext : string) : string :=
  stem +:+ "_" +:+ hms +:+ ext.


End Spec.

(* ===================================================================== *)
(** ** The ways one iteration can end *)
(* ===================================================================== *)

Module Outcome.
Import PyStr PyTime Store FS World Worker.

(** The entry after lines 68 to 79: the statistics and the history. *)
Definition recorded (now : datetime) (f : entry) : entry :=
  set_backups_history
    (history_of f ++
       [mkrec (isoformat now)
              (fst (splitext (filename f)) +:+ "_" +:+ strftime_time now
                 +:+ snd (splitext (filename f)))
              (strftime_date now)])
    (set_backup_count (count_of f + 1) (set_last_backup (isoformat now) f)).

Definition bucket_dir (now : datetime) : string := "backups/" +:+ strftime_date now.

Definition destination (now : datetime) (f : entry) : string :=
  bucket_dir now +:+ "/" +:+
    (fst (splitext (filename f)) +:+ "_" +:+ strftime_time now
       +:+ snd (splitext (filename f))).

(** The frame in which the iteration on [f], started in the world [w]
    with the flag [u], ends. *)
Inductive ends_in (now : datetime) (f : entry) (w : world) (u : bool) : frame -> Prop :=
  | unscheduled :
      scheduled f = None ->
      ends_in now f w u (mkframe f w u)
  | unreadable text e :
      scheduled f = Some text ->
      fromisoformat_moscow (host_utcoffset w) text = Raise e ->
      ends_in now f w u (mkframe f (log_message (EntryError (filename f) e) w) u)
  | not_due text next :
      scheduled f = Some text ->
      fromisoformat_moscow (host_utcoffset w) text = Ok next ->
      ge now next = false ->
      ends_in now f w u (mkframe f w u)
  | source_missing text next :
      scheduled f = Some text ->
      fromisoformat_moscow (host_utcoffset w) text = Ok next ->
      ge now next = true ->
      exists_ (files_on_disk w) (path f) = false ->
      ends_in now f w u (mkframe f (log_message (SourceNotFound (filename f)) w) u)
  | bucket_failed text next e :
      scheduled f = Some text ->
      fromisoformat_moscow (host_utcoffset w) text = Ok next ->
      ge now next = true ->
      exists_ (files_on_disk w) (path f) = true ->
      makedirs (files_on_disk w) (bucket_dir now) = Raise e ->
      ends_in now f w u (mkframe f (log_message (EntryError (filename f) e) w) u)
  | copy_failed text next t1 e :
      scheduled f = Some text ->
      fromisoformat_moscow (host_utcoffset w) text = Ok next ->
      ge now next = true ->
      exists_ (files_on_disk w) (path f) = true ->
      makedirs (files_on_disk w) (bucket_dir now) = Ok t1 ->
      copy2 t1 (path f) (destination now f) = Raise e ->
      ends_in now f w u
              (mkframe f (log_message (EntryError (filename f) e) (with_fs t1 w)) u)
  | not_rescheduled text next t1 t2 written c e :
      scheduled f = Some text ->
      fromisoformat_moscow (host_utcoffset w) text = Ok next ->
      ge now next = true ->
      exists_ (files_on_disk w) (path f) = true ->
      makedirs (files_on_disk w) (bucket_dir now) = Ok t1 ->
      copy2 t1 (path f) (destination now f) = Ok (t2, written) ->
      t2 !! written = Some (File c) ->
      next_time now f = Raise e ->
      ends_in now f w u
              (mkframe (recorded now f)
                       (log_message (EntryError (filename f) e)
                          (with_write t2 (Written written c) (with_fs t1 w)))
                       u)
  | completed text next t1 t2 written c next' :
      scheduled f = Some text ->
      fromisoformat_moscow (host_utcoffset w) text = Ok next ->
      ge now next = true ->
      exists_ (files_on_disk w) (path f) = true ->
      makedirs (files_on_disk w) (bucket_dir now) = Ok t1 ->
      copy2 t1 (path f) (destination now f) = Ok (t2, written) ->
      t2 !! written = Some (File c) ->
      next_time now f = Ok next' ->
      ends_in now f w u
              (mkframe (set_next_backup (isoformat next') (recorded now f))
                       (log_message (BackupCreated (filename f))
                          (with_write t2 (Written written c) (with_fs t1 w)))
                       true).

(** The count of backups is the length of the history. *)
Definition counts_agree (f : entry) : Prop :=
  count_of f = Z.of_nat (length (history_of f)).

(** From [f] to [f'], the count and the history are as they were, or one
    record was appended and the count raised by one. *)
Definition at_most_one_backup (f f' : entry) : Prop :=
  (count_of f' = count_of f /\ history_of f' = history_of f) \/
  (exists r, count_of f' = count_of f + 1 /\ history_of f' = (history_of f ++ [r])%list).

(** A path that starts with the [b] of [backups/], as every archive
    does. *)
Definition under_backups (p : string) : Prop := exists r, p = String "b" r.

End Outcome.

(* ===================================================================== *)
(** ** Two sentences of the specification, as they are written *)
(* ===================================================================== *)

Module AsStated.
Import PyTime Store FS World Worker.

(** "A failure while executing one entry leaves that entry's fields
    unchanged", for the ticks run at [now] in the world [w]: a due entry
    whose iteration does not run to its end is stored with its four
    fields as they were. *)
Definition failure_keeps_fields (now : datetime) (w : world) : Prop :=
  forall (files : list entry) (i : nat) (f : entry) (wi : world) (ui : bool),
    json_load (files_on_disk w) FILES_JSON = Ok files ->
    files !! i = Some f ->
    reached now files w false !! i = Some (wi, ui) ->
    is_due now (host_utcoffset wi) f = true ->
    backed_up now f wi = false ->
    exists stored f',
      json_load (files_on_disk (check_backups now w)) FILES_JSON = Ok stored /\
      stored !! i = Some f' /\
      next_backup f' = next_backup f /\
      last_backup f' = last_backup f /\
      backup_count f' = backup_count f /\
      backups_history f' = backups_history f.

(** "A concurrent reader of the store observes either the full pre-save
    collection or the full post-save collection", for the save of
    [files] over the file table [t]. *)
Definition save_is_atomic (t : fs) (files : list entry) : Prop :=
  forall p : fs,
    In p (SaveView.save_points t files) ->
    SaveView.load_at p = SaveView.load_at t \/ SaveView.load_at p = Ok files.

End AsStated.

(* ===================================================================== *)
(** ** Sample worlds *)
(* ===================================================================== *)

Module Samples.
Import PyTime Store FS World.

(** 1 May 2024, 10:00:35 on the Moscow clock. *)
Definition morning : datetime := mkdt 2024 5 1 10 0 35 0.

(** Due since the first day of 2020, every thirty seconds. *)
Definition report : entry :=
  mkentry 1 "report.txt" "uploads/report.txt" "2019-12-31T23:59:30+03:00"
          (Some 30) (Some "seconds") (Some "2020-01-01T00:00:00+03:00")
          None (Some 0) (Some []).

(** Due, but its source is gone. *)
Definition photo : entry :=
  mkentry 2 "photo.png" "uploads/photo.png" "2024-05-01T09:00:30+03:00"
          (Some 1) (Some "hours") (Some "2024-05-01T10:00:30+03:00")
          None (Some 0) (Some []).

(** Due, with a period that no [timedelta] can hold. *)
Definition notes : entry :=
  mkentry 3 "notes.md" "uploads/notes.md" "2024-05-01T09:00:30+03:00"
          (Some 1000000000) (Some "days") (Some "2024-05-01T10:00:30+03:00")
          None (Some 0) (Some []).

(** Due at 10:00:30, five seconds before [morning], every thirty
    seconds. *)
Definition memo : entry :=
  mkentry 5 "memo.tar.gz" "uploads/ledger.csv" "2024-05-01T10:00:00+03:00"
          (Some 30) (Some "seconds") (Some "2024-05-01T10:00:30+03:00")
          None (Some 0) (Some []).

(** Not due before the evening. *)
Definition ledger : entry :=
  mkentry 4 "ledger.csv" "uploads/ledger.csv" "2024-05-01T09:00:30+03:00"
          (Some 12) (Some "hours") (Some "2024-05-01T21:00:30+03:00")
          None (Some 0) (Some []).

(** The directories of a running installation and three uploads. *)
Definition disk (files : list entry) : fs :=
  <["data/files.json" := File (Collection files)]>
    (<["uploads/report.txt" := File (Text "quarterly figures")]>
       (<["uploads/notes.md" := File (Text "to do")]>
          (<["uploads/ledger.csv" := File (Text "a,b")]>
             (<["data" := Dir]> (<["uploads" := Dir]> (<["backups" := Dir]>
                (<["logs" := Dir]> ∅))))))).

Definition world_of (files : list entry) : world := mkworld (disk files) [] [] 0.

(** An empty disk, and the installation the backend's start-up makes of
    it. *)
Definition blank : world := mkworld ∅ [] [] 0.

Definition installed : world :=
  match Backend.startup blank with
  | Ok w => w
  | Raise _ => blank
  end.

(** Three uploads with a deletion before the last. *)
Definition three_uploads : list Backend.request :=
  [Backend.Upload "a.txt" (Text "A") 1 "hours" morning;
   Backend.Upload "b.txt" (Text "B") 30 "seconds" morning;
   Backend.Delete 1;
   Backend.Upload "c.txt" (Text "C") 2 "days" morning].

(** The same installation with a store that is no JSON. *)
Definition corrupt : world :=
  mkworld (<["data/files.json" := File (Text "[{")]> (disk [])) [] [] 0.

End Samples.

(* ===================================================================== *)
(** ** [backend/app.py]: serving an archive *)
(* ===================================================================== *)

Module Download.
Import PyStr Store FS World.

(** What the client gets: the file response that names the path to send,
    or the status of an [HTTPException]; the detail text of the exception
    is left out. *)
Inductive answer : Type :=
  | FileResponse (path filename : string)
  | HTTPError (status : Z).

(** Lines 185 to 194: the body of the [try]. [inl status] stands for
    [raise HTTPException(status_code=status, ...)]. *)
Definition download_body (date filename : string) (w : world) : Z + answer :=
  let backup_path := "backups/" +:+ date +:+ "/" +:+ filename in
  if exists_ (files_on_disk w) backup_path
  then inr (FileResponse backup_path filename)
  else inl 404.

(** [download_backup(date, filename)]: [HTTPException] is an
    [Exception], so the handler of line 195 catches the one of line 194
    and raises its own. *)
Definition download_backup (date filename : string) (w : world) : answer :=
  match download_body date filename w with
  | inr r => r
  | inl _ => HTTPError 500
  end.

End Download.

(* ===================================================================== *)
(** ** [stats/app.py]: the figures computed from the collection *)
(* ===================================================================== *)

Module Stats.
Import Store.

(** [get_total_backup_count(files)]. *)
Definition get_total_backup_count (files : list entry) : Z :=
  fold_left (fun total file => total + count_of file) files 0.

(** [sorted(files, key=lambda x: x.get("backup_count", 0), reverse=True)]:
    the sort is stable, entries of equal count keep their order. *)
Fixpoint insert_by_count (x : entry) (sorted : list entry) : list entry :=
  match sorted with
  | [] => [x]
  | y :: rest =>
      if count_of x <? count_of y then y :: insert_by_count x rest
      else x :: y :: rest
  end.

Definition sorted_by_count (files : list entry) : list entry :=
  fold_right insert_by_count [] files.

(** [l[:limit]] for any integer [limit]. *)
Definition slice_to {A} (limit : Z) (l : list A) : list A :=
  if limit <? 0 then take (Z.to_nat (Z.of_nat (length l) + limit)) l
  else take (Z.to_nat limit) l.

(** One row of the table of [get_top_files]. *)
Record top_file : Type := mktop {
  top_filename : string;
  backups : Z;
  top_last_backup : option string
}.

(** [get_top_files(files, limit)]; every entry of the model has a
    [filename], so the default [file_{i+1}] is never taken. *)
Definition get_top_files (files : list entry) (limit : Z) : list top_file :=
  map (fun file => mktop (filename file) (count_of file) (last_backup file))
      (slice_to limit (sorted_by_count files)).

(** No number of the list is above one that stands before it. *)
Fixpoint descending (l : list Z) : Prop :=
  match l with
  | [] => True
  | x :: rest => Forall (fun y => y <= x) rest /\ descending rest
  end.

End Stats.

(* ===================================================================== *)
(** ** [logger/app.py]: the tail of a log file *)
(* ===================================================================== *)

Module Logger.

(** A line of the answer: a line of the file, or the one line that
    stands for a missing file. *)
Inductive line : Type :=
  | Raw (text : string)
  | LogFileNotFound.

(** [l[i:]] for any integer [i]. *)
Definition slice_from {A} (i : Z) (l : list A) : list A :=
  if i <? 0 then drop (Z.to_nat (Z.of_nat (length l) + i)) l
  else drop (Z.to_nat i) l.

(** [read_log_file(filepath, lines)] on the lines of the file at
    [filepath], [None] when there is no such file; a file that cannot be
    read or decoded is outside the model. *)
Definition read_log_file (file : option (list string)) (lines : Z) : list line :=
  match file with
  | None => [LogFileNotFound]
  | Some all_lines =>
      map Raw (if Z.of_nat (length all_lines) >? lines
               then slice_from (- lines) all_lines
               else all_lines)
  end.

End Logger.

(* ===================================================================== *)
(** ** Paths whose spelling is the file *)
(* ===================================================================== *)

Module Paths.
Import PyStr.

(** The file table of [FS] takes a path by its spelling. The spelling is
    the file for the paths below: relative, with components separated by
    single slashes, none of them empty, [.] or [..]. Two such paths of
    different spellings name different files (there are no links), and a
    path made of a directory of this kind and a plain name lies in that
    directory. *)

(** One component: not empty, without a slash, and neither [.] nor
    [..]. *)
Definition plain_name (s : string) : bool :=
  negb (String.eqb s "") && negb (String.eqb s ".") && negb (String.eqb s "..")
  && forallb (fun c => negb (Ascii.eqb c "/")) (chars s).

(** [p.split("/")]. *)
Fixpoint split_at_slash (l : list ascii) : list (list ascii) :=
  match l with
  | [] => [[]]
  | c :: l' =>
      if Ascii.eqb c "/" then [] :: split_at_slash l'
      else match split_at_slash l' with
           | cur :: rest => (c :: cur) :: rest
           | [] => [[c]]
           end
  end.

Definition components (p : string) : list string := map str (split_at_slash (chars p)).

Definition normal (p : string) : bool := forallb plain_name (components p).

End Paths.

(* ===================================================================== *)
(** ** Further sample entries *)
(* ===================================================================== *)

Module Twins.
Import PyTime Store FS World.

(** A second entry named [report.txt], with another source, due like
    [Samples.report]. *)
Definition report_again : entry :=
  mkentry 2 "report.txt" "uploads/notes.md" "2024-05-01T09:00:30+03:00"
          (Some 1) (Some "hours") (Some "2020-01-01T00:00:00+03:00")
          None (Some 0) (Some []).

(** An entry that carries the id of [Samples.report]. *)
Definition notes_as_one : entry :=
  mkentry 1 "notes.md" "uploads/notes.md" "2024-05-01T09:00:30+03:00"
          (Some 1) (Some "days") (Some "2024-05-02T09:00:30+03:00")
          None (Some 0) (Some []).

(** An entry whose source path names the directory of the uploads. *)
Definition folder : entry :=
  mkentry 7 "uploads" "uploads" "2024-05-01T09:00:30+03:00"
          (Some 1) (Some "days") (Some "2024-05-02T09:00:30+03:00")
          None (Some 0) (Some []).


End Twins.

(* ===================================================================== *)
(** ** Two more sentences of the specification, as they are written *)
(* ===================================================================== *)

Module AsWritten.
Import PyStr PyTime Store FS World.



End AsWritten.

(* ===================================================================== *)
(** * Properties *)
(* ===================================================================== *)

Section FileSystemFacts.
Import PyStr Store FS.

Lemma copy2_written (t t2 : fs) (src dst written : string) :
  copy2 t src dst = Ok (t2, written) ->
  exists c,
    t !! src = Some (File c) /\
    written = (if isdir t dst then join dst (basename src) else dst) /\
    written <> src /\
    t2 = <[written := File c]> t.
Proof.
  unfold copy2, read_file, write_file, open_w, put, res_bind, parent_check.
  set (d := if isdir t dst then _ else _).
  destruct (String.eqb src d) eqn:Hsd; [discriminate|].
  apply String.eqb_neq in Hsd.
  destruct (t !! src) as [[c|]|] eqn:Hsrc; try discriminate.
  intros H. exists c.
  assert (t2 = <[d := File c]> t /\ written = d) as [-> ->].
  { destruct (t !! d) as [[c'|]|] eqn:Hd; try discriminate.
    - injection H as <- <-. by rewrite insert_insert_eq.
    - destruct (String.eqb (dirname d) ""); simpl in H.
      + injection H as <- <-. by rewrite insert_insert_eq.
      + destruct (t !! dirname d) as [[?|]|]; try discriminate.
        injection H as <- <-. by rewrite insert_insert_eq. }
  repeat split; congruence.
Qed.

End FileSystemFacts.

Section DirectoryFacts.
Import PyStr Store FS.

(** [os.mkdir] adds one directory under a name that was free. *)
Lemma mkdir_ok (t t' : fs) (p : string) :
  mkdir t p = Ok t' -> t !! p = None /\ t' = <[p := Dir]> t.
Proof.
  unfold mkdir, res_bind. destruct (t !! p); [discriminate|].
  destruct (parent_check t p); [|discriminate].
  intros [= <-]. done.
Qed.

(** [os.makedirs] touches no name that is taken: it only adds
    directories under names that were free. *)
Lemma makedirs_fuel_grows (n : nat) :
  forall (t t' : fs) (name : string),
    makedirs_fuel n t name = Ok t' ->
    forall p, t' !! p = t !! p \/ (t !! p = None /\ t' !! p = Some Dir).
Proof.
  induction n as [|n IH]; intros t t' name; simpl; [discriminate|].
  destruct (if String.eqb (basename name) "" then _ else _) as [head tail].
  set (deeper := (negb (String.eqb head "") && negb (String.eqb tail "")
                  && negb (exists_ t head))%bool).
  assert (forall t1,
             (if deeper
              then match makedirs_fuel n t head with
                   | Ok t' => Ok t'
                   | Raise (FileExistsError _) => Ok t
                   | Raise e => Raise e
                   end
              else Ok t) = Ok t1 ->
             forall p, t1 !! p = t !! p \/ (t !! p = None /\ t1 !! p = Some Dir)) as Hanc.
  { intros t1. destruct deeper.
    - destruct (makedirs_fuel n t head) as [t0|e] eqn:Hrec.
      + intros [= <-]. eapply IH, Hrec.
      + destruct e; try discriminate. intros [= <-] p. by left.
    - intros [= <-] p. by left. }
  destruct (if deeper then _ else _) as [t1|e]; [|discriminate].
  specialize (Hanc t1 eq_refl).
  assert (forall t2,
             match mkdir t1 name with
             | Ok t2 => Ok t2
             | Raise e => if isdir t1 name then Ok t1 else Raise e
             end = Ok t2 ->
             forall p, t2 !! p = t !! p \/ (t !! p = None /\ t2 !! p = Some Dir)) as Hleaf.
  { intros t2. destruct (mkdir t1 name) as [t3|e] eqn:Hmk.
    - intros [= <-] p. apply mkdir_ok in Hmk as [Hfree ->].
      destruct (decide (name = p)) as [<-|Hne].
      + rewrite lookup_insert_eq. right. split; [|done].
        destruct (Hanc name) as [Heq|[Hnone _]]; congruence.
      + rewrite lookup_insert_ne by done. apply Hanc.
    - destruct (isdir t1 name); [|discriminate]. intros [= <-]. apply Hanc. }
  destruct (deeper && String.eqb tail ".")%bool.
  - intros [= <-]. apply Hanc.
  - apply Hleaf.
Qed.

Lemma makedirs_grows (t t' : fs) (name : string) :
  makedirs t name = Ok t' ->
  forall p, t' !! p = t !! p \/ (t !! p = None /\ t' !! p = Some Dir).
Proof. apply makedirs_fuel_grows. Qed.

(** In particular a name that is taken keeps its node. *)
Lemma makedirs_keeps (t t' : fs) (name p : string) (x : node) :
  makedirs t name = Ok t' -> t !! p = Some x -> t' !! p = Some x.
Proof.
  intros H Hp. destruct (makedirs_grows _ _ _ H p) as [->|[Hnone _]]; congruence.
Qed.

(** And a regular file after it was one before. *)
Lemma makedirs_no_new_file (t t' : fs) (name p : string) (c : content) :
  makedirs t name = Ok t' -> t' !! p = Some (File c) -> t !! p = Some (File c).
Proof.
  intros H Hp. destruct (makedirs_grows _ _ _ H p) as [<-|[_ Hdir]]; congruence.
Qed.

End DirectoryFacts.


Section IterationFacts.
Import PyStr PyTime Store FS World Worker Outcome.
Lemma next_time_recorded (now : datetime) (f : entry) :
  next_time now (recorded now f) = next_time now f.
Proof. reflexivity. Qed.

Ltac py_step :=
  cbn [file env updated files_on_disk journal log host_utcoffset
       with_fs with_write log_message].

Lemma iteration_ends (now : datetime) (f : entry) (w : world) (u : bool) :
  exists s, iteration now (mkframe f w u) = (Ok tt, s) /\ ends_in now f w u s.
Proof.
  unfold iteration, mbind, M_bind, bind, get_file. py_step.
  destruct (scheduled f) as [text|] eqn:Hs; [|eexists; split; [reflexivity|by constructor]].
  unfold try_except, backup_if_due, mbind, M_bind, bind, get_env, get_file, lift. py_step.
  destruct (fromisoformat_moscow (host_utcoffset w) text) as [next|e] eqn:Hp.
  2:{ eexists; split; [reflexivity|by econstructor]. }
  destruct (ge now next) eqn:Hge.
  2:{ eexists; split; [reflexivity|by eapply not_due]. }
  py_step.
  destruct (exists_ (files_on_disk w) (path f)) eqn:Hex.
  2:{ eexists; split; [reflexivity|by eapply source_missing]. }
  unfold os_makedirs, mbind, M_bind, bind, get_env, lift. py_step.
  fold (bucket_dir now).
  destruct (makedirs (files_on_disk w) (bucket_dir now)) as [t1|e] eqn:Hmk.
  2:{ eexists; split; [reflexivity|by eapply bucket_failed]. }
  unfold modify_env at 1. py_step.
  unfold shutil_copy2, mbind, M_bind, bind, get_env, lift. py_step.
  change (bucket_dir now +:+ "/" +:+ _) with (destination now f).
  destruct (copy2 t1 (path f) (destination now f)) as [[t2 written]|e] eqn:Hcp.
  2:{ eexists; split; [reflexivity|by eapply copy_failed]. }
  destruct (copy2_written _ _ _ _ _ Hcp) as (c & Hsrc & Hw & Hne & Ht2).
  assert (t2 !! written = Some (File c)) as Hlk by (rewrite Ht2; apply lookup_insert_eq).
  unfold modify_env at 1. py_step. rewrite Hlk.
  unfold modify_file at 1. py_step.
  unfold modify_file at 1. py_step.
  assert (forall (h : option (list backup_record)) (s : frame),
            match h with
            | Some _ => ret tt
            | None => modify_file (set_backups_history [])
            end s
            = (Ok tt, mkframe (match h with
                               | Some _ => file s
                               | None => set_backups_history [] (file s)
                               end) (env s) (updated s))) as Hhist.
  { intros [h|] [g w' u']; reflexivity. }
  rewrite Hhist. py_step.
  change (backups_history (set_backup_count _ (set_last_backup _ f)))
    with (backups_history f).
  unfold modify_file at 1. py_step.
  match goal with
  | |- context [next_time now ?g] =>
      replace g with (recorded now f)
        by (unfold recorded, count_of, history_of;
            destruct f as [? ? ? ? ? ? ? ? ? [h|]]; reflexivity)
  end.
  rewrite next_time_recorded.
  destruct (next_time now f) as [next'|e] eqn:Hnt.
  - unfold modify_file, log_line, modify_env, set_updated. py_step.
    eexists; split; [reflexivity|]. by eapply completed.
  - unfold log_line, modify_env. py_step.
    change (filename (recorded now f)) with (filename f).
    eexists; split; [reflexivity|]. by eapply not_rescheduled.
Qed.
End IterationFacts.

Section PathFacts.
Import PyStr PyTime Store FS World Worker Outcome.

Lemma rfind_from_last (c : ascii) (l : list ascii) :
  forall i acc : Z,
    acc < i ->
    let r := rfind_from c l i acc in
    (r = acc /\ Forall (fun x => Ascii.eqb x c = false) l) \/
    (i <= r < i + Z.of_nat (length l) /\
     Forall (fun x => Ascii.eqb x c = false) (drop (Z.to_nat (r - i + 1)) l)).
Proof.
  induction l as [|x l IH]; intros i acc Hlt; cbn [rfind_from].
  - left. split; [reflexivity|constructor].
  - destruct (Ascii.eqb x c) eqn:Hx.
    + destruct (IH (i + 1) i ltac:(lia)) as [[Hr Hall]|[Hr Hall]].
      * right. rewrite Hr. split; [cbn [length]; lia|].
        replace (i - i + 1) with 1 by lia. exact Hall.
      * right. split; [cbn [length]; lia|].
        replace (Z.to_nat (rfind_from c l (i + 1) i - i + 1))
          with (S (Z.to_nat (rfind_from c l (i + 1) i - (i + 1) + 1))) by lia.
        exact Hall.
    + destruct (IH (i + 1) acc ltac:(lia)) as [[Hr Hall]|[Hr Hall]].
      * left. split; [exact Hr|]. by constructor.
      * right. split; [cbn [length]; lia|].
        replace (Z.to_nat (rfind_from c l (i + 1) acc - i + 1))
          with (S (Z.to_nat (rfind_from c l (i + 1) acc - (i + 1) + 1))) by lia.
        exact Hall.
Qed.

(** What follows the last slash holds no slash. *)
Lemma basename_no_slash (p : string) :
  Forall (fun x => Ascii.eqb x "/" = false) (chars (basename p)).
Proof.
  unfold basename, from, chars, str, rfind.
  rewrite list_ascii_of_string_of_list_ascii.
  destruct (rfind_from_last "/" (list_ascii_of_string p) 0 (-1) ltac:(lia))
    as [[Hr Hall]|[Hr Hall]].
  - unfold chars in *. rewrite Hr. exact Hall.
  - unfold chars in *.
    replace (rfind_from "/" (list_ascii_of_string p) 0 (-1) - 0 + 1)
      with (rfind_from "/" (list_ascii_of_string p) 0 (-1) + 1) in Hall by lia.
    exact Hall.
Qed.

Lemma basename_not_absolute (p : string) : starts_with_slash (basename p) = false.
Proof.
  unfold starts_with_slash. pose proof (basename_no_slash p) as H.
  destruct (chars (basename p)); [reflexivity|]. by inversion H.
Qed.

Lemma destination_under_backups (now : datetime) (f : entry) :
  under_backups (destination now f).
Proof. unfold destination, bucket_dir. cbn [String.append]. by eexists. Qed.

Lemma join_under_backups (d p : string) :
  under_backups d -> under_backups (join d (basename p)).
Proof.
  intros [r ->]. unfold join. rewrite basename_not_absolute.
  destruct (_ || _)%bool; cbn [String.append]; by eexists.
Qed.

Lemma under_backups_not_store (p : string) : under_backups p -> p <> FILES_JSON.
Proof. intros [r ->]. discriminate. Qed.

(** The path [copy2] writes for an entry is never the store. *)
Lemma written_not_store (now : datetime) (f : entry) (t t2 : fs) (written : string) :
  copy2 t (path f) (destination now f) = Ok (t2, written) -> written <> FILES_JSON.
Proof.
  intros H. destruct (copy2_written _ _ _ _ _ H) as (c & _ & -> & _ & _).
  apply under_backups_not_store.
  destruct (isdir t (destination now f));
    [apply join_under_backups|]; apply destination_under_backups.
Qed.

End PathFacts.

Section TickFacts.
Import PyStr PyTime Store FS World Worker Outcome.

Lemma writes_to_snoc (p : string) (j : list fs_event) (q : string) (c : content) :
  q <> p -> writes_to p (j ++ [Written q c]) = writes_to p j.
Proof.
  intros Hne. unfold writes_to. rewrite omap_app. cbn [omap list_omap].
  apply String.eqb_neq in Hne. rewrite Hne. cbn. apply app_nil_r.
Qed.

(** What an iteration leaves alone: the host's zone, the store, and the
    journal's record of the writes to the store. *)
Lemma ends_in_frame (now : datetime) (f : entry) (w : world) (u : bool) (s : frame) :
  ends_in now f w u s ->
  host_utcoffset (env s) = host_utcoffset w /\
  (forall x, files_on_disk w !! FILES_JSON = Some x ->
             files_on_disk (env s) !! FILES_JSON = Some x) /\
  writes_to FILES_JSON (journal (env s)) = writes_to FILES_JSON (journal w).
Proof.
  destruct 1; cbn [env host_utcoffset files_on_disk journal log_message with_fs with_write];
    try (split; [reflexivity|split; [tauto|reflexivity]]).
  - split; [reflexivity|split; [|reflexivity]].
    intros x Hx. eapply makedirs_keeps; eassumption.
  - pose proof (written_not_store _ _ _ _ _ H4) as Hne.
    destruct (copy2_written _ _ _ _ _ H4) as (c' & _ & _ & _ & ->).
    split; [reflexivity|split].
    + intros x Hx. rewrite lookup_insert_ne by done. eapply makedirs_keeps; eassumption.
    + by apply writes_to_snoc.
  - pose proof (written_not_store _ _ _ _ _ H4) as Hne.
    destruct (copy2_written _ _ _ _ _ H4) as (c' & _ & _ & _ & ->).
    split; [reflexivity|split].
    + intros x Hx. rewrite lookup_insert_ne by done. eapply makedirs_keeps; eassumption.
    + by apply writes_to_snoc.
Qed.

(** The flag with which an iteration starts changes nothing but the flag
    with which it ends. *)
Lemma ends_in_flag (now : datetime) (f : entry) (w : world) (u : bool) (s0 s : frame) :
  ends_in now f w false s0 -> ends_in now f w u s ->
  s = mkframe (file s0) (env s0) (u || updated s0).
Proof.
  destruct 1; destruct 1; simplify_eq; cbn [file env updated];
    rewrite ?orb_false_r, ?orb_true_r; try reflexivity; try congruence.
Qed.

Lemma iteration_after (now : datetime) (f : entry) (w : world) (u : bool) :
  iteration now (mkframe f w u) = (Ok tt, after now f w u) /\
  ends_in now f w u (after now f w u).
Proof.
  unfold after. destruct (iteration_ends now f w u) as (s & -> & Hs). by split.
Qed.

Lemma after_flag (now : datetime) (f : entry) (w : world) (u : bool) :
  after now f w u =
  mkframe (file (after now f w false)) (env (after now f w false))
          (u || backed_up now f w).
Proof.
  apply (ends_in_flag now f w); apply iteration_after.
Qed.

(** The loop never raises. *)
Lemma for_file_in_cons (now : datetime) (f : entry) (rest : list entry)
      (w : world) (u : bool) :
  for_file_in now (f :: rest) w u =
  match for_file_in now rest (env (after now f w u)) (updated (after now f w u)) with
  | (Ok rest', w', u') => (Ok (file (after now f w u) :: rest'), w', u')
  | (Raise e, w', u') => (Raise e, w', u')
  end.
Proof.
  cbn [for_file_in]. by destruct (iteration_after now f w u) as [-> _].
Qed.

Lemma reached_cons (now : datetime) (f : entry) (rest : list entry)
      (w : world) (u : bool) :
  reached now (f :: rest) w u =
  (w, u) :: reached now rest (env (after now f w u)) (updated (after now f w u)).
Proof.
  cbn [reached]. by destruct (iteration_after now f w u) as [-> _].
Qed.

Lemma for_file_in_ok (now : datetime) (files : list entry) :
  forall (w : world) (u : bool),
  exists files' w' u', for_file_in now files w u = (Ok files', w', u').
Proof.
  induction files as [|f rest IH]; intros w u.
  - by exists [], w, u.
  - rewrite for_file_in_cons.
    destruct (IH (env (after now f w u)) (updated (after now f w u)))
      as (rest' & w' & u' & ->).
    by exists (file (after now f w u) :: rest'), w', u'.
Qed.

Lemma reached_length (now : datetime) (files : list entry) :
  forall (w : world) (u : bool), length (reached now files w u) = length files.
Proof.
  induction files as [|f rest IH]; intros w u; [reflexivity|].
  rewrite reached_cons. cbn [length]. by rewrite IH.
Qed.

(** Each entry of the result is what its own iteration left, in the
    world in which the loop reached it. *)
Lemma for_file_in_lookup (now : datetime) (files : list entry) :
  forall (w : world) (u : bool) (files' : list entry) (w' : world) (u' : bool),
    for_file_in now files w u = (Ok files', w', u') ->
    length files' = length files /\
    forall (i : nat) (f : entry) (wi : world) (ui : bool),
      files !! i = Some f ->
      reached now files w u !! i = Some (wi, ui) ->
      files' !! i = Some (file (after now f wi ui)).
Proof.
  induction files as [|f rest IH]; intros w u files' w' u'.
  - intros [= <- <- <-]. split; [reflexivity|]. intros i ? ? ? Hi. by destruct i.
  - rewrite for_file_in_cons, reached_cons.
    destruct (for_file_in now rest _ _) as [[[rest'|e] w1] u1] eqn:Hrest; [|discriminate].
    intros [= <- <- <-]. destruct (IH _ _ _ _ _ Hrest) as [Hlen Hlk].
    split; [cbn [length]; by rewrite Hlen|].
    intros [|i] g wi ui; cbn.
    + by intros [= <-] [= <- <-].
    + apply Hlk.
Qed.

(** The flag at the end: set before the loop, or by one of its
    iterations. *)
Lemma for_file_in_flag (now : datetime) (files : list entry) :
  forall (w : world) (u : bool) (files' : list entry) (w' : world) (u' : bool),
    for_file_in now files w u = (Ok files', w', u') ->
    u' = (u || existsb (fun fw => backed_up now (fst fw) (fst (snd fw)))
                       (zip files (reached now files w u)))%bool.
Proof.
  induction files as [|f rest IH]; intros w u files' w' u'.
  - intros [= <- <- <-]. cbn. by rewrite orb_false_r.
  - rewrite for_file_in_cons, reached_cons.
    destruct (for_file_in now rest _ _) as [[[rest'|e] w1] u1] eqn:Hrest; [|discriminate].
    intros [= <- <- <-]. rewrite (IH _ _ _ _ _ Hrest).
    cbn [zip zip_with existsb fst snd].
    rewrite (after_flag now f w u) at 1. cbn [updated]. by rewrite orb_assoc.
Qed.

(** The worlds the loop passes through do not depend on the flag. *)
Lemma reached_worlds (now : datetime) (files : list entry) :
  forall (w : world) (u u0 : bool),
    map fst (reached now files w u) = map fst (reached now files w u0).
Proof.
  induction files as [|f rest IH]; intros w u u0; [reflexivity|].
  rewrite !reached_cons. cbn [map fst]. f_equal.
  rewrite (after_flag now f w u), (after_flag now f w u0). cbn [env updated].
  apply IH.
Qed.

(** The loop leaves the host's zone, the store and the journal's record
    of the writes to the store as they are. *)
Lemma for_file_in_frame (now : datetime) (files : list entry) :
  forall (w : world) (u : bool) (files' : list entry) (w' : world) (u' : bool),
    for_file_in now files w u = (Ok files', w', u') ->
    host_utcoffset w' = host_utcoffset w /\
    (forall x, files_on_disk w !! FILES_JSON = Some x ->
               files_on_disk w' !! FILES_JSON = Some x) /\
    writes_to FILES_JSON (journal w') = writes_to FILES_JSON (journal w).
Proof.
  induction files as [|f rest IH]; intros w u files' w' u'.
  - intros [= <- <- <-]. tauto.
  - rewrite for_file_in_cons.
    destruct (for_file_in now rest _ _) as [[[rest'|e] w1] u1] eqn:Hrest; [|discriminate].
    intros [= <- <- <-].
    destruct (IH _ _ _ _ _ Hrest) as (Hh & Hs & Hj).
    destruct (iteration_after now f w u) as [_ Hends].
    destruct (ends_in_frame _ _ _ _ _ Hends) as (Hh' & Hs' & Hj').
    split; [congruence|split; [|congruence]].
    intros x Hx. apply Hs, Hs', Hx.
Qed.

End TickFacts.

Section WholeTick.
Import PyStr PyTime Store FS World Worker Outcome.

Lemma json_load_ok (t : fs) (p : string) (files : list entry) :
  json_load t p = Ok files <-> t !! p = Some (File (Collection files)).
Proof.
  unfold json_load, read_file, res_bind.
  destruct (t !! p) as [[[s|l]|]|]; split; intros H; try discriminate; congruence.
Qed.

(** Writing over a regular file succeeds. *)
Lemma write_file_over (t : fs) (p : string) (c0 c : content) :
  t !! p = Some (File c0) -> write_file t p c = Ok (<[p := File c]> t).
Proof.
  intros H. unfold write_file, open_w, put, res_bind. rewrite H.
  by rewrite insert_insert_eq.
Qed.

(** A tick on a readable store: the loop runs over the whole collection,
    and the collection is saved exactly when an iteration ran to its
    end. *)
Lemma check_backups_loaded (now : datetime) (w : world) (files : list entry) :
  json_load (files_on_disk w) FILES_JSON = Ok files ->
  exists files' w',
    for_file_in now files w false = (Ok files', w', backed_up_in_tick now files w) /\
    files_on_disk w' !! FILES_JSON = Some (File (Collection files)) /\
    check_backups now w =
    if backed_up_in_tick now files w
    then with_write (<[FILES_JSON := File (Collection files')]> (files_on_disk w'))
                    (Written FILES_JSON (Collection files')) w'
    else w'.
Proof.
  intros Hload. pose proof Hload as Hstore. apply json_load_ok in Hstore.
  destruct (for_file_in_ok now files w false) as (files' & w' & u' & Hloop).
  pose proof (for_file_in_flag _ _ _ _ _ _ _ Hloop) as Hu. cbn [orb] in Hu.
  fold (backed_up_in_tick now files w) in Hu. subst u'.
  destruct (for_file_in_frame _ _ _ _ _ _ _ Hloop) as (_ & Hkeep & _).
  specialize (Hkeep _ Hstore).
  exists files', w'. split; [exact Hloop|split; [exact Hkeep|]].
  unfold check_backups, check_backups_body, exists_.
  rewrite Hstore, Hload, Hloop. cbn [negb].
  destruct (backed_up_in_tick now files w); [|reflexivity].
  unfold save. by rewrite (write_file_over _ _ _ _ Hkeep).
Qed.

(** The entry that an iteration ran to its end on. *)
Lemma backed_up_completed (now : datetime) (f : entry) (w : world) :
  backed_up now f w = true ->
  exists text next t1 t2 written c next',
    scheduled f = Some text /\
    fromisoformat_moscow (host_utcoffset w) text = Ok next /\
    ge now next = true /\
    exists_ (files_on_disk w) (path f) = true /\
    makedirs (files_on_disk w) (bucket_dir now) = Ok t1 /\
    copy2 t1 (path f) (destination now f) = Ok (t2, written) /\
    t2 !! written = Some (File c) /\
    next_time now f = Ok next' /\
    after now f w false =
    mkframe (set_next_backup (isoformat next') (recorded now f))
            (log_message (BackupCreated (filename f))
               (with_write t2 (Written written c) (with_fs t1 w)))
            true.
Proof.
  unfold backed_up. destruct (iteration_after now f w false) as [_ H].
  revert H. generalize (after now f w false). intros s.
  destruct 1; cbn [updated]; intros Hu; try discriminate.
  do 7 eexists. repeat split; eassumption.
Qed.

(** The code's period is the specification's. *)
Lemma next_time_spec (now next : datetime) (f : entry) :
  next_time now f = Ok next ->
  add now (Spec.period (default 1 (period_value f)) (default "hours" (period_unit f))
           * US_PER_SECOND) = Ok next.
Proof.
  unfold next_time.
  set (v := default 1 (period_value f)). set (un := default "hours" (period_unit f)).
  assert (forall d h m s x,
             d * 86400 + h * 3600 + m * 60 + s = x ->
             res_bind (timedelta d h m s) (add now) = Ok next ->
             add now (x * US_PER_SECOND) = Ok next) as Hcase.
  { intros d h m s x <-. unfold timedelta, res_bind.
    by destruct (_ >? _). }
  unfold Spec.period.
  destruct (String.eqb un "seconds"); [apply Hcase; lia|].
  destruct (String.eqb un "minutes"); [apply Hcase; lia|].
  destruct (String.eqb un "hours"); [apply Hcase; lia|].
  destruct (String.eqb un "days"); [apply Hcase; lia|].
  apply Hcase; lia.
Qed.

Lemma backed_up_in_tick_at (now : datetime) (files : list entry) (w : world)
      (i : nat) (f : entry) (wi : world) (ui : bool) :
  files !! i = Some f ->
  reached now files w false !! i = Some (wi, ui) ->
  backed_up now f wi = true ->
  backed_up_in_tick now files w = true.
Proof.
  intros Hf Hr Hb. unfold backed_up_in_tick. apply existsb_exists.
  exists (f, (wi, ui)). split; [|exact Hb].
  apply list_elem_of_In, list_elem_of_lookup. exists i.
  by apply lookup_zip_Some.
Qed.

End WholeTick.

Section Calendar.
Import PyTime.

(** The month and the day that [month_and_day] gives add up to the day of
    the year: checked on each day of a common and of a leap year. *)
Lemma month_and_day_table (leap : bool) :
  forallb (fun k : nat =>
             let r := Z.of_nat k in
             DAYS_BEFORE_MONTH (fst (month_and_day leap r))
             + (if (2 <? fst (month_and_day leap r)) && leap then 1 else 0)
             + snd (month_and_day leap r) =? r + 1)
          (seq 0 (if leap then 366 else 365)) = true.
Proof. destruct leap; vm_compute; reflexivity. Qed.

Lemma month_and_day_sum (leap : bool) (r : Z) :
  0 <= r < 365 + (if leap then 1 else 0) ->
  DAYS_BEFORE_MONTH (fst (month_and_day leap r))
  + (if (2 <? fst (month_and_day leap r)) && leap then 1 else 0)
  + snd (month_and_day leap r) = r + 1.
Proof.
  intros Hr. pose proof (month_and_day_table leap) as Htab.
  rewrite forallb_forall in Htab. specialize (Htab (Z.to_nat r)).
  cbn zeta in Htab. rewrite Z2Nat.id in Htab by lia.
  apply Z.eqb_eq, Htab, in_seq. destruct leap; lia.
Qed.

Lemma days_before_year_cycles (a b c e : Z) :
  0 <= b <= 3 -> 0 <= c <= 24 -> 0 <= e <= 3 ->
  days_before_year (400 * a + 100 * b + 4 * c + e + 1)
  = DI400Y * a + DI100Y * b + DI4Y * c + 365 * e.
Proof.
  intros Hb Hc He. unfold days_before_year, DI400Y, DI100Y, DI4Y.
  Z.div_mod_to_equations. lia.
Qed.

Lemma is_leap_cycles (a b c e : Z) :
  0 <= b <= 3 -> 0 <= c <= 24 -> 0 <= e <= 3 ->
  is_leap (400 * a + 100 * b + 4 * c + e + 1)
  = ((e =? 3) && (negb (c =? 24) || (b =? 3)))%bool.
Proof.
  intros Hb Hc He. unfold is_leap.
  destruct (e =? 3) eqn:E3; destruct (c =? 24) eqn:C24; destruct (b =? 3) eqn:B3;
    cbn [andb orb negb];
    repeat match goal with
           | H : (_ =? _) = true |- _ => apply Z.eqb_eq in H
           | H : (_ =? _) = false |- _ => apply Z.eqb_neq in H
           end;
    repeat match goal with
           | |- context [?x mod ?k =? 0] =>
               let E := fresh "E" in destruct (x mod k =? 0) eqn:E;
               [apply Z.eqb_eq in E|apply Z.eqb_neq in E]
           end;
    cbn [andb orb negb]; try reflexivity; exfalso;
    Z.div_mod_to_equations; lia.
Qed.

(** The ordinal of the date of an ordinal is that ordinal. *)
Lemma ymd2ord_ord2ymd (n : Z) :
  (let '(y, m, d) := ord2ymd n in ymd2ord y m d) = n.
Proof.
  unfold ord2ymd.
  set (n0 := n - 1).
  set (a := n0 / DI400Y). set (r := n0 mod DI400Y).
  set (b := r / DI100Y). set (r2 := r mod DI100Y).
  set (c := r2 / DI4Y). set (r3 := r2 mod DI4Y).
  set (e := r3 / 365). set (r4 := r3 mod 365).
  assert (n0 = DI400Y * a + r /\ 0 <= r < DI400Y) as [Hn0 Hr]
      by (subst a r; unfold DI400Y; Z.div_mod_to_equations; lia).
  assert (r = DI100Y * b + r2 /\ 0 <= r2 < DI100Y /\ 0 <= b <= 4) as (Hr' & Hr2 & Hb)
      by (subst b r2; unfold DI100Y, DI400Y in *; Z.div_mod_to_equations; lia).
  assert (r2 = DI4Y * c + r3 /\ 0 <= r3 < DI4Y /\ 0 <= c <= 24) as (Hr2' & Hr3 & Hc)
      by (subst c r3; unfold DI4Y, DI100Y in *; Z.div_mod_to_equations; lia).
  assert (r3 = 365 * e + r4 /\ 0 <= r4 < 365 /\ 0 <= e <= 4) as (Hr3' & Hr4 & He)
      by (subst e r4; unfold DI4Y in *; Z.div_mod_to_equations; lia).
  clearbody a r b r2 c r3 e r4.
  destruct ((e =? 4) || (b =? 4))%bool eqn:Hlast.
  - (* the last day of a leap year *)
    unfold ymd2ord, days_before_month. cbn [DAYS_BEFORE_MONTH].
    change (2 <? 12) with true. cbn [andb].
    apply orb_true_iff in Hlast as [He4|Hb4].
    + apply Z.eqb_eq in He4. subst e.
      assert (r4 = 0 /\ c <= 23 /\ b <= 3) as (-> & Hc' & Hb')
          by (unfold DI4Y, DI100Y, DI400Y in *; lia).
      replace (a * 400 + 1 + b * 100 + c * 4 + 4 - 1)
        with (400 * a + 100 * b + 4 * c + 3 + 1) by lia.
      rewrite days_before_year_cycles, is_leap_cycles by lia.
      replace (c =? 24) with false by (symmetry; apply Z.eqb_neq; lia).
      cbn. unfold DI400Y, DI100Y, DI4Y in *. lia.
    + apply Z.eqb_eq in Hb4. subst b.
      assert (r2 = 0 /\ c = 0 /\ r3 = 0 /\ e = 0 /\ r4 = 0) as (-> & -> & -> & -> & ->)
          by (unfold DI4Y, DI100Y, DI400Y in *; lia).
      replace (a * 400 + 1 + 4 * 100 + 0 * 4 + 0 - 1)
        with (400 * a + 100 * 3 + 4 * 24 + 3 + 1) by lia.
      rewrite days_before_year_cycles, is_leap_cycles by lia.
      cbn. unfold DI400Y, DI100Y, DI4Y in *. lia.
  - apply orb_false_iff in Hlast as [He4 Hb4].
    apply Z.eqb_neq in He4, Hb4.
    set (leap := ((e =? 3) && (negb (c =? 24) || (b =? 3)))%bool).
    pose proof (month_and_day_sum leap r4) as Hsum.
    destruct (month_and_day leap r4) as [m d] eqn:Hmd. cbn [fst snd] in Hsum.
    unfold ymd2ord, days_before_month.
    replace (a * 400 + 1 + b * 100 + c * 4 + e)
      with (400 * a + 100 * b + 4 * c + e + 1) by lia.
    rewrite days_before_year_cycles, is_leap_cycles by lia.
    fold leap.
    assert (0 <= r4 < 365 + (if leap then 1 else 0)) as Hr4' by (destruct leap; lia).
    specialize (Hsum Hr4'). unfold DI400Y, DI100Y, DI4Y in *. lia.
Qed.
End Calendar.
Section Instants.
Import PyTime.

(** A datetime built from a count of microseconds holds that count. *)
Lemma to_us_of_us (t : Z) : to_us (of_us t) = t.
Proof.
  unfold of_us, to_us.
  pose proof (ymd2ord_ord2ymd (t / US_PER_DAY)) as Hord.
  destruct (ord2ymd (t / US_PER_DAY)) as [[y m] d].
  cbn [year month day hour minute second microsecond]. rewrite Hord.
  unfold US_PER_DAY, US_PER_SECOND. Z.div_mod_to_equations. lia.
Qed.

(** [d + delta] is [delta] microseconds after [d]. *)
Lemma add_to_us (d d' : datetime) (delta : Z) :
  add d delta = Ok d' -> to_us d' = to_us d + delta.
Proof.
  unfold add. destruct (in_range (to_us d + delta)); [|discriminate].
  intros [= <-]. apply to_us_of_us.
Qed.

End Instants.

Section Rescheduling.
Import PyStr PyTime Store FS World Worker Outcome.

(** C1. A due entry that a tick backs up is rescheduled to the tick's own
    clock reading plus its period: [period_value] seconds, minutes, hours
    or days, one hour for any other unit. The new [next_backup] is the
    text of the datetime that lies that many microseconds after the clock
    reading. The tick makes exactly one backup of the entry, one history
    record and one archive written, however long ago it was due. *)
Theorem next_backup_anchored_to_tick
        (now : datetime) (w : world) (files : list entry)
        (i : nat) (f : entry) (wi : world) (ui : bool) :
  json_load (files_on_disk w) FILES_JSON = Ok files ->
  files !! i = Some f ->
  reached now files w false !! i = Some (wi, ui) ->
  backed_up now f wi = true ->
  exists files' f' next r dst c,
    json_load (files_on_disk (check_backups now w)) FILES_JSON = Ok files' /\
    files' !! i = Some f' /\
    add now (Spec.period (default 1 (period_value f)) (default "hours" (period_unit f))
             * US_PER_SECOND) = Ok next /\
    to_us next
    = to_us now
      + Spec.period (default 1 (period_value f)) (default "hours" (period_unit f))
        * US_PER_SECOND /\
    next_backup f' = Some (isoformat next) /\
    history_of f' = (history_of f ++ [r])%list /\
    count_of f' = count_of f + 1 /\
    journal (env (after now f wi ui)) = (journal wi ++ [Written dst c])%list.
Proof.
  intros Hload Hf Hr Hb.
  destruct (check_backups_loaded now w files Hload) as (files' & w' & Hloop & _ & Hcb).
  rewrite (backed_up_in_tick_at _ _ _ _ _ _ _ Hf Hr Hb) in Hcb, Hloop.
  destruct (for_file_in_lookup _ _ _ _ _ _ _ Hloop) as [_ Hlk].
  specialize (Hlk _ _ _ _ Hf Hr).
  destruct (backed_up_completed _ _ _ Hb)
    as (text & next & t1 & t2 & written & c & next' & _ & _ & _ & _ & _ & _ & _ & Hnt & Hafter).
  rewrite (after_flag now f wi ui), Hafter in Hlk |- *. cbn [file env] in Hlk |- *.
  exists files', (set_next_backup (isoformat next') (recorded now f)), next'.
  eexists _, written, c.
  split. { rewrite Hcb. apply json_load_ok. cbn [files_on_disk with_write]. apply lookup_insert_eq. }
  split; [exact Hlk|].
  split; [by apply next_time_spec|].
  split; [by apply add_to_us, next_time_spec|].
  repeat split.
Qed.

Lemma next_backup_anchored_to_tick_witness :
  exists files' f' next r dst c,
    json_load (files_on_disk (check_backups Samples.morning (Samples.world_of [Samples.report])))
              FILES_JSON = Ok files' /\
    files' !! 0%nat = Some f' /\
    add Samples.morning (Spec.period 30 "seconds" * US_PER_SECOND) = Ok next /\
    to_us next = to_us Samples.morning + Spec.period 30 "seconds" * US_PER_SECOND /\
    next_backup f' = Some (isoformat next) /\
    history_of f' = (history_of Samples.report ++ [r])%list /\
    count_of f' = count_of Samples.report + 1 /\
    journal (env (after Samples.morning Samples.report (Samples.world_of [Samples.report]) false))
    = (journal (Samples.world_of [Samples.report]) ++ [Written dst c])%list.
Proof.
  apply (next_backup_anchored_to_tick Samples.morning (Samples.world_of [Samples.report])
           [Samples.report] 0 Samples.report (Samples.world_of [Samples.report]) false);
    vm_compute; reflexivity.
Defined.
End Rescheduling.

Section FailureIsolation.
Import PyStr PyTime Store FS World Worker Outcome.

Lemma snoc_not_self {A} (l : list A) (x : A) : (l ++ [x])%list <> l.
Proof.
  intros H. apply (f_equal length) in H. rewrite length_app in H. cbn in H. lia.
Qed.

(** An iteration that writes no archive leaves the entry and the flag as
    they were. *)
Lemma ends_in_quiet (now : datetime) (f : entry) (w : world) (u : bool) (s : frame) :
  ends_in now f w u s -> journal (env s) = journal w -> file s = f /\ updated s = u.
Proof.
  destruct 1; cbn [env file updated journal log_message with_fs with_write];
    intros Hj; try (split; reflexivity); by apply snoc_not_self in Hj.
Qed.

(** What the store holds after a tick on a readable store. *)
Lemma stored_after_tick (now : datetime) (w : world) (files : list entry) :
  json_load (files_on_disk w) FILES_JSON = Ok files ->
  exists files' w',
    for_file_in now files w false = (Ok files', w', backed_up_in_tick now files w) /\
    json_load (files_on_disk (check_backups now w)) FILES_JSON =
    Ok (if backed_up_in_tick now files w then files' else files).
Proof.
  intros Hload.
  destruct (check_backups_loaded now w files Hload) as (files' & w' & Hloop & Hkeep & ->).
  exists files', w'. split; [exact Hloop|].
  apply json_load_ok. destruct (backed_up_in_tick now files w); [|exact Hkeep].
  cbn [files_on_disk with_write]. apply lookup_insert_eq.
Qed.

(** An iteration that does not run to its end leaves [next_backup] as it
    was. *)
Lemma ends_in_not_rescheduled (now : datetime) (f : entry) (w : world) (s : frame) :
  ends_in now f w false s -> updated s = false -> next_backup (file s) = next_backup f.
Proof.
  destruct 1; cbn [file updated]; intros Hu; try reflexivity; discriminate.
Qed.

(** C2, as amended. In a tick, an entry whose iteration fails is stored
    with its [next_backup] unchanged, and with all its fields unchanged
    when the failure comes before its archive is written (the source file
    is missing, or an exception is raised up to and including the copy).
    The failure does not keep another entry of the same tick from being
    executed, updated and stored: the loop reaches every entry, and an
    entry whose own iteration runs to its end is stored as that iteration
    left it. *)
Theorem entry_failure_is_isolated
        (now : datetime) (w : world) (files : list entry)
        (i : nat) (f : entry) (wi : world) (ui : bool)
        (j : nat) (g : entry) (wj : world) (uj : bool) :
  json_load (files_on_disk w) FILES_JSON = Ok files ->
  files !! i = Some f ->
  reached now files w false !! i = Some (wi, ui) ->
  backed_up now f wi = false ->
  files !! j = Some g ->
  reached now files w false !! j = Some (wj, uj) ->
  backed_up now g wj = true ->
  length (reached now files w false) = length files /\
  exists stored f',
    json_load (files_on_disk (check_backups now w)) FILES_JSON = Ok stored /\
    stored !! i = Some f' /\
    next_backup f' = next_backup f /\
    (journal (env (after now f wi ui)) = journal wi -> f' = f) /\
    stored !! j = Some (file (after now g wj uj)) /\
    updated (after now g wj uj) = true.
Proof.
  intros Hload Hf Hri Hfail Hg Hrj Hb.
  split; [apply reached_length|].
  destruct (stored_after_tick now w files Hload) as (files' & w' & Hloop & Hstored).
  rewrite (backed_up_in_tick_at _ _ _ _ _ _ _ Hg Hrj Hb) in Hstored, Hloop.
  destruct (for_file_in_lookup _ _ _ _ _ _ _ Hloop) as [_ Hlk].
  exists files', (file (after now f wi ui)).
  split; [exact Hstored|]. split; [exact (Hlk _ _ _ _ Hf Hri)|].
  split; [|split; [|split]].
  - rewrite (after_flag now f wi ui). cbn [file].
    destruct (iteration_after now f wi false) as [_ Hends].
    by apply (ends_in_not_rescheduled _ _ _ _ Hends).
  - intros Hquiet. destruct (iteration_after now f wi ui) as [_ Hends].
    by destruct (ends_in_quiet _ _ _ _ _ Hends Hquiet).
  - apply (Hlk _ _ _ _ Hg Hrj).
  - rewrite (after_flag now g wj uj). cbn [updated]. rewrite Hb. apply orb_true_r.
Qed.

Lemma entry_failure_is_isolated_witness :
  length (reached Samples.morning [Samples.photo; Samples.report]
                  (Samples.world_of [Samples.photo; Samples.report]) false) = 2%nat /\
  exists stored,
    json_load (files_on_disk
                 (check_backups Samples.morning
                                (Samples.world_of [Samples.photo; Samples.report])))
              FILES_JSON = Ok stored /\
    stored !! 0%nat = Some Samples.photo /\
    stored !! 1%nat =
      Some (file (after Samples.morning Samples.report
                        (log_message (SourceNotFound "photo.png")
                           (Samples.world_of [Samples.photo; Samples.report])) false)) /\
    updated (after Samples.morning Samples.report
                   (log_message (SourceNotFound "photo.png")
                      (Samples.world_of [Samples.photo; Samples.report])) false) = true.
Proof.
  destruct (entry_failure_is_isolated
              Samples.morning (Samples.world_of [Samples.photo; Samples.report])
              [Samples.photo; Samples.report]
              0 Samples.photo (Samples.world_of [Samples.photo; Samples.report]) false
              1 Samples.report
              (log_message (SourceNotFound "photo.png")
                 (Samples.world_of [Samples.photo; Samples.report])) false)
    as (Hlen & stored & f' & Hstored & Hf' & _ & Hsame & Hg & Hu);
    try (vm_compute; reflexivity).
  split; [exact Hlen|]. exists stored. split; [exact Hstored|].
  split; [|split; assumption].
  rewrite Hf'. f_equal. apply Hsame. vm_compute. reflexivity.
Defined.

Lemma failure_keeps_fields_counterexample :
  ~ AsStated.failure_keeps_fields
      Samples.morning (Samples.world_of [Samples.notes; Samples.report]).
Proof.
  intros H.
  destruct (H [Samples.notes; Samples.report] 0%nat Samples.notes
              (Samples.world_of [Samples.notes; Samples.report]) false)
    as (stored & f' & Hstored & Hf' & _ & _ & Hcount & _);
    try (vm_compute; reflexivity).
  vm_compute in Hstored. injection Hstored as <-.
  vm_compute in Hf'. injection Hf' as <-.
  vm_compute in Hcount. discriminate.
Qed.
End FailureIsolation.

Section BackendClaims.
Import PyStr PyTime Store FS World Backend.

(** C3. The code at the failing input: after two uploads, the deletion of
    the first entry and a third upload, the collection holds the id 2
    twice; the id of the entry uploaded last is the one the second entry
    still has. *)
Theorem upload_after_delete_repeats_id :
  ids (serve Samples.three_uploads Samples.installed) = [2; 2] /\
  map filename (get_files (serve Samples.three_uploads Samples.installed))
  = ["b.txt"; "c.txt"] /\
  ~ NoDup (ids (serve Samples.three_uploads Samples.installed)).
Proof.
  assert (ids (serve Samples.three_uploads Samples.installed) = [2; 2]) as Hids
      by (vm_compute; reflexivity).
  split; [exact Hids|]. split; [vm_compute; reflexivity|].
  rewrite Hids. intros H. apply NoDup_cons_1_1 in H. apply H. constructor.
Qed.

(** C8. [upload_file] turns down a period below one, and a period in
    seconds below thirty: it answers with one of its two validation errors
    and leaves the world as it was, so that no file is saved and no entry
    is added to the store. *)
Theorem upload_rejects_short_period
        (filename : string) (data : content) (period_value : Z) (period_unit : string)
        (now : datetime) (w : world) :
  period_value < 1 \/ (period_unit = "seconds" /\ period_value < 30) ->
  exists r,
    upload_file filename data period_value period_unit now w = (r, w) /\
    (r = SecondsMinimumError \/ r = PeriodMinimumError) /\
    get_files (snd (upload_file filename data period_value period_unit now w))
    = get_files w.
Proof.
  intros H. unfold upload_file.
  destruct (String.eqb period_unit "seconds" && (period_value <? 30))%bool eqn:Hs.
  - exists (SecondsMinimumError). cbn [snd]. repeat split; auto.
  - assert ((period_value <? 1) = true) as ->.
    { apply Z.ltb_lt. destruct H as [H|[-> H]]; [exact H|].
      apply Z.ltb_lt in H. rewrite H in Hs. discriminate. }
    exists (PeriodMinimumError). cbn [snd]. auto.
Qed.

Lemma upload_rejects_short_period_witness :
  exists r,
    upload_file "report.txt" (Text "x") 10 "seconds" Samples.morning Samples.installed
    = (r, Samples.installed) /\
    (r = SecondsMinimumError \/ r = PeriodMinimumError) /\
    get_files (snd (upload_file "report.txt" (Text "x") 10 "seconds"
                                Samples.morning Samples.installed))
    = get_files Samples.installed.
Proof.
  apply (upload_rejects_short_period "report.txt" (Text "x") 10 "seconds"
           Samples.morning Samples.installed).
  right. split; [reflexivity|lia].
Defined.





End BackendClaims.

Section HistoryClaims.
Import PyStr PyTime Store FS World Worker Outcome.

(** One iteration appends at most one record, and raises the count with
    it. *)
Lemma ends_in_counts (now : datetime) (f : entry) (w : world) (u : bool) (s : frame) :
  ends_in now f w u s -> at_most_one_backup f (file s).
Proof.
  destruct 1; cbn [file]; try (by left); right; eexists; split; reflexivity.
Qed.

Lemma at_most_one_backup_agree (f f' : entry) :
  at_most_one_backup f f' -> counts_agree f -> counts_agree f'.
Proof.
  unfold counts_agree. intros [[-> ->]|(r & -> & ->)] H; [exact H|].
  rewrite length_app. cbn [length]. lia.
Qed.

Lemma reached_lookup (now : datetime) (files : list entry) (w : world) (u : bool)
      (i : nat) (f : entry) :
  files !! i = Some f -> exists wi ui, reached now files w u !! i = Some (wi, ui).
Proof.
  intros Hf. apply lookup_lt_Some in Hf. rewrite <- (reached_length now files w u) in Hf.
  apply lookup_lt_is_Some in Hf as [[wi ui] H]. eauto.
Qed.

(** An iteration that writes an archive appends one record and raises the
    count by one. *)
Lemma ends_in_noisy (now : datetime) (f : entry) (w : world) (u : bool) (s : frame) :
  ends_in now f w u s -> journal (env s) <> journal w ->
  count_of (file s) = count_of f + 1 /\
  exists r, history_of (file s) = (history_of f ++ [r])%list.
Proof.
  destruct 1; cbn [env file journal log_message with_fs with_write];
    intros Hj; try (by destruct Hj); split; try reflexivity; eexists; reflexivity.
Qed.

(** C4. A tick changes the count and the history of an entry together or
    not at all. An execution that runs to its end appends exactly one
    record, the one of this tick, and raises the count by exactly one, and
    the entry is stored so. The two fields change exactly when the
    iteration on the entry wrote an archive: then one record is appended
    and the count raised by one; otherwise the entry is, in memory and in
    the store, what it was. Hence, in the collection that the loop leaves
    in memory and in the collection that the store holds after the tick
    (written or not), an entry whose count was the length of its history
    has it so afterwards. *)
Theorem backup_count_matches_history
        (now : datetime) (w : world) (files : list entry) (i : nat) (f : entry) :
  json_load (files_on_disk w) FILES_JSON = Ok files ->
  files !! i = Some f ->
  exists files' w' u' stored f' g' wi ui,
    for_file_in now files w false = (Ok files', w', u') /\
    files' !! i = Some f' /\
    json_load (files_on_disk (check_backups now w)) FILES_JSON = Ok stored /\
    stored !! i = Some g' /\
    reached now files w false !! i = Some (wi, ui) /\
    at_most_one_backup f f' /\
    at_most_one_backup f g' /\
    (backed_up now f wi = true ->
     g' = f' /\
     count_of f' = count_of f + 1 /\
     history_of f'
     = (history_of f
          ++ [mkrec (isoformat now)
                    (fst (splitext (filename f)) +:+ "_" +:+ strftime_time now
                       +:+ snd (splitext (filename f)))
                    (strftime_date now)])%list) /\
    (journal (env (after now f wi ui)) <> journal wi ->
     count_of f' = count_of f + 1 /\
     exists r, history_of f' = (history_of f ++ [r])%list) /\
    (journal (env (after now f wi ui)) = journal wi -> f' = f /\ g' = f) /\
    (counts_agree f -> counts_agree f' /\ counts_agree g').
Proof.
  intros Hload Hf.
  destruct (stored_after_tick now w files Hload) as (files' & w' & Hloop & Hstored).
  destruct (for_file_in_lookup _ _ _ _ _ _ _ Hloop) as [_ Hlk].
  destruct (reached_lookup now files w false i f Hf) as (wi & ui & Hr).
  specialize (Hlk _ _ _ _ Hf Hr).
  destruct (iteration_after now f wi ui) as [_ Hends].
  pose proof (ends_in_counts _ _ _ _ _ Hends) as Hstep.
  exists files', w', (backed_up_in_tick now files w).
  exists (if backed_up_in_tick now files w then files' else files).
  exists (file (after now f wi ui)).
  exists (if backed_up_in_tick now files w then file (after now f wi ui) else f).
  exists wi, ui.
  split; [exact Hloop|]. split; [exact Hlk|]. split; [exact Hstored|].
  assert (at_most_one_backup f f) as Hsame by (by left).
  split; [by destruct (backed_up_in_tick now files w)|].
  split; [exact Hr|]. split; [exact Hstep|].
  split; [by destruct (backed_up_in_tick now files w)|].
  split; [|split; [|split]].
  - intros Hb. rewrite (backed_up_in_tick_at _ _ _ _ _ _ _ Hf Hr Hb).
    split; [reflexivity|].
    destruct (backed_up_completed _ _ _ Hb)
      as (text & next & t1 & t2 & written & c & next' & _ & _ & _ & _ & _ & _ & _ & _ & Hafter).
    rewrite (after_flag now f wi ui), Hafter. cbn [file]. split; reflexivity.
  - by apply (ends_in_noisy _ _ _ _ _ Hends).
  - intros Hquiet. destruct (ends_in_quiet _ _ _ _ _ Hends Hquiet) as [Hfile _].
    split; [exact Hfile|]. rewrite Hfile. by destruct (backed_up_in_tick now files w).
  - intros Hagree.
    destruct (backed_up_in_tick now files w); split; eauto using at_most_one_backup_agree.
Qed.

Lemma backup_count_matches_history_witness :
  counts_agree Samples.report /\
  exists stored g',
    json_load (files_on_disk
                 (check_backups Samples.morning
                                (Samples.world_of [Samples.report; Samples.notes])))
              FILES_JSON = Ok stored /\
    stored !! 0%nat = Some g' /\
    count_of g' = count_of Samples.report + 1 /\
    history_of g'
    = (history_of Samples.report
         ++ [mkrec (isoformat Samples.morning) "report_10-00-35.txt" "2024-05-01"])%list /\
    counts_agree g'.
Proof.
  assert (counts_agree Samples.report) as Hagree by reflexivity.
  split; [exact Hagree|].
  destruct (backup_count_matches_history
              Samples.morning (Samples.world_of [Samples.report; Samples.notes])
              [Samples.report; Samples.notes] 0 Samples.report
              ltac:(vm_compute; reflexivity) ltac:(reflexivity))
    as (files' & w' & u' & stored & f' & g' & wi & ui
        & H1 & H2 & H3 & H4 & H5 & H6 & H7 & H8 & H9 & H10 & H11).
  rewrite reached_cons in H5. injection H5 as <- <-.
  destruct (H8 ltac:(vm_compute; reflexivity)) as (Hg & Hcount & Hhist).
  exists stored, g'. rewrite Hg.
  split; [exact H3|]. split; [by rewrite <- Hg|]. split; [exact Hcount|].
  split; [exact Hhist|]. exact (proj1 (H11 Hagree)).
Defined.

End HistoryClaims.

Section SaveClaims.
Import PyStr PyTime Store FS World Worker Outcome.

(** An entry that is not due is not backed up. *)
Lemma not_due_not_backed_up (now : datetime) (f : entry) (w : world) :
  is_due now (host_utcoffset w) f = false -> backed_up now f w = false.
Proof.
  intros Hdue. destruct (backed_up now f w) eqn:Hb; [|reflexivity].
  destruct (backed_up_completed _ _ _ Hb)
    as (text & next & ? & ? & ? & ? & ? & Hs & Hp & Hge & _).
  unfold is_due in Hdue. rewrite Hs, Hp in Hdue. congruence.
Qed.

(** The host's zone is the same in every world the loop passes through. *)
Lemma reached_host (now : datetime) (files : list entry) :
  forall (w : world) (u : bool),
    Forall (fun wu => host_utcoffset (fst wu) = host_utcoffset w) (reached now files w u).
Proof.
  induction files as [|f rest IH]; intros w u; [constructor|].
  rewrite reached_cons. constructor; [reflexivity|].
  destruct (iteration_after now f w u) as [_ Hends].
  destruct (ends_in_frame _ _ _ _ _ Hends) as (Hh & _ & _).
  eapply Forall_impl; [apply IH|]. intros wu Hwu. cbn beta in Hwu. congruence.
Qed.

Lemma none_due_none_backed_up (now : datetime) (files : list entry) (w : world) :
  (forall f, In f files -> is_due now (host_utcoffset w) f = false) ->
  backed_up_in_tick now files w = false.
Proof.
  intros Hnone. unfold backed_up_in_tick.
  destruct (existsb _ _) eqn:Hex; [|reflexivity].
  apply existsb_exists in Hex as ([f [wi ui]] & Hin & Hb). cbn [fst snd] in Hb.
  apply list_elem_of_In, list_elem_of_lookup in Hin as [i Hi].
  apply lookup_zip_Some in Hi as [Hf Hr].
  pose proof (reached_host now files w false) as Hhost.
  rewrite Forall_lookup in Hhost. specialize (Hhost _ _ Hr). cbn [fst] in Hhost.
  rewrite not_due_not_backed_up in Hb; [discriminate|].
  rewrite Hhost. apply Hnone, list_elem_of_In, list_elem_of_lookup. eauto.
Qed.

(** A tick that does not read a collection from the store changes nothing
    on the disk and nothing in the journal. *)
Lemma check_backups_unreadable (now : datetime) (w : world) :
  (forall files, json_load (files_on_disk w) FILES_JSON <> Ok files) ->
  files_on_disk (check_backups now w) = files_on_disk w /\
  journal (check_backups now w) = journal w.
Proof.
  intros Hno. unfold check_backups, check_backups_body.
  destruct (exists_ (files_on_disk w) FILES_JSON); cbn [negb]; [|by split].
  destruct (json_load (files_on_disk w) FILES_JSON) as [files|e] eqn:Hload; [|by split].
  by destruct (Hno files).
Qed.



End SaveClaims.

Section CorruptStore.
Import PyStr PyTime Store FS World Worker Outcome.

Lemma check_backups_corrupt (now : datetime) (w : world) (s : string) :
  files_on_disk w !! FILES_JSON = Some (File (Text s)) ->
  check_backups now w = log_message (TickError JSONDecodeError) w.
Proof.
  intros H. unfold check_backups, check_backups_body, exists_, json_load, read_file, res_bind.
  by rewrite H.
Qed.

Lemma run_pending_corrupt (ticks : list datetime) :
  forall (w : world) (s : string),
    files_on_disk w !! FILES_JSON = Some (File (Text s)) ->
    files_on_disk (run_pending ticks w) = files_on_disk w /\
    journal (run_pending ticks w) = journal w /\
    log (run_pending ticks w)
    = (log w ++ repeat (TickError JSONDecodeError) (length ticks))%list.
Proof.
  induction ticks as [|t rest IH]; intros w s Hs.
  - cbn. by rewrite app_nil_r.
  - unfold run_pending in *. cbn [fold_left length repeat].
    rewrite (check_backups_corrupt t w s Hs).
    destruct (IH (log_message (TickError JSONDecodeError) w) s Hs) as (-> & -> & ->).
    cbn [files_on_disk journal log log_message].
    by rewrite <- app_assoc.
Qed.

(** C7. A tick that finds the store unparsable logs the failure and ends
    there: the world after it is the world before it with one more log
    line, so nothing on the disk is written and no entry is touched. The
    polling loop goes on: the ticks that follow are run in their turn, and
    as long as the store stays unparsable each of them logs its own
    failure and writes nothing. *)
Theorem corrupt_store_skips_tick
        (now : datetime) (rest : list datetime) (w : world) (s : string) :
  files_on_disk w !! FILES_JSON = Some (File (Text s)) ->
  json_load (files_on_disk w) FILES_JSON = Raise JSONDecodeError /\
  check_backups now w = log_message (TickError JSONDecodeError) w /\
  files_on_disk (check_backups now w) = files_on_disk w /\
  journal (check_backups now w) = journal w /\
  run_pending (now :: rest) w = run_pending rest (check_backups now w) /\
  files_on_disk (main (now :: rest) w) = files_on_disk w /\
  journal (main (now :: rest) w) = journal w /\
  log (main (now :: rest) w)
  = (log w ++ WorkerStarted :: repeat (TickError JSONDecodeError) (length (now :: rest)))%list.
Proof.
  intros Hs.
  split. { unfold json_load, read_file, res_bind. by rewrite Hs. }
  rewrite (check_backups_corrupt now w s Hs).
  repeat (split; [reflexivity|]).
  split. { unfold run_pending. cbn [fold_left]. by rewrite (check_backups_corrupt now w s Hs). }
  unfold main.
  destruct (run_pending_corrupt (now :: rest) (log_message WorkerStarted w) s Hs)
    as (-> & -> & ->).
  cbn [files_on_disk journal log log_message].
  split; [reflexivity|]. split; [reflexivity|]. by rewrite <- app_assoc.
Qed.

Lemma corrupt_store_skips_tick_witness :
  json_load (files_on_disk Samples.corrupt) FILES_JSON = Raise JSONDecodeError /\
  check_backups Samples.morning Samples.corrupt
  = log_message (TickError JSONDecodeError) Samples.corrupt /\
  files_on_disk (check_backups Samples.morning Samples.corrupt)
  = files_on_disk Samples.corrupt /\
  journal (check_backups Samples.morning Samples.corrupt) = journal Samples.corrupt /\
  run_pending (Samples.morning :: [Samples.morning]) Samples.corrupt
  = run_pending [Samples.morning] (check_backups Samples.morning Samples.corrupt) /\
  files_on_disk (main (Samples.morning :: [Samples.morning]) Samples.corrupt)
  = files_on_disk Samples.corrupt /\
  journal (main (Samples.morning :: [Samples.morning]) Samples.corrupt)
  = journal Samples.corrupt /\
  log (main (Samples.morning :: [Samples.morning]) Samples.corrupt)
  = (log Samples.corrupt
       ++ WorkerStarted
       :: repeat (TickError JSONDecodeError)
                 (length (Samples.morning :: [Samples.morning])))%list.
Proof.
  apply (corrupt_store_skips_tick Samples.morning [Samples.morning] Samples.corrupt "[{").
  vm_compute. reflexivity.
Defined.

End CorruptStore.

Section SaveAtomicity.
Import PyStr PyTime Store FS World Outcome.
Import SaveView.

(** C9, as amended. While the collection is saved over a readable store,
    another process that loads the store gets the collection as it was
    before the save, or the collection being saved, or, between the
    opening of the file (which empties it) and the writing, an error
    because the file holds no JSON: the save is not atomic for concurrent
    readers. The state before the save is the first and the saved state
    the last, and the emptied state lies between them. *)
Theorem save_seen_by_other_processes (t : fs) (before files : list entry) :
  load_at t = Ok before ->
  (forall p, In p (save_points t files) ->
             load_at p = Ok before \/
             load_at p = Raise JSONDecodeError \/
             load_at p = Ok files) /\
  exists emptied saved,
    save_points t files = [t; emptied; saved] /\
    load_at emptied = Raise JSONDecodeError /\
    load_at saved = Ok files /\
    Worker.save files (mkworld t [] [] 0)
    = (Ok tt, mkworld saved [Written Worker.FILES_JSON (Collection files)] [] 0).
Proof.
  intros Hload. pose proof Hload as Hstore. apply json_load_ok in Hstore.
  unfold save_points, open_w. rewrite Hstore.
  set (emptied := <[Worker.FILES_JSON := File (Text "")]> t).
  set (saved := put emptied Worker.FILES_JSON (Collection files)).
  assert (load_at emptied = Raise JSONDecodeError) as He.
  { unfold load_at, json_load, read_file, res_bind, emptied. by rewrite lookup_insert_eq. }
  assert (load_at saved = Ok files) as Hs.
  { apply json_load_ok. apply lookup_insert_eq. }
  split.
  - intros p [<-|[<-|[<-|[]]]]; auto.
  - exists emptied, saved. repeat split; try assumption.
    unfold Worker.save. rewrite (write_file_over _ _ _ _ Hstore).
    unfold with_write, saved, put, emptied.
    cbn [files_on_disk journal log host_utcoffset app].
    by rewrite insert_insert_eq.
Qed.

Lemma save_seen_by_other_processes_witness :
  (forall p, In p (save_points (Samples.disk [Samples.report]) [Samples.report; Samples.ledger]) ->
             load_at p = Ok [Samples.report] \/
             load_at p = Raise JSONDecodeError \/
             load_at p = Ok [Samples.report; Samples.ledger]) /\
  exists emptied saved,
    save_points (Samples.disk [Samples.report]) [Samples.report; Samples.ledger]
    = [Samples.disk [Samples.report]; emptied; saved] /\
    load_at emptied = Raise JSONDecodeError /\
    load_at saved = Ok [Samples.report; Samples.ledger] /\
    Worker.save [Samples.report; Samples.ledger]
                (mkworld (Samples.disk [Samples.report]) [] [] 0)
    = (Ok tt, mkworld saved
                      [Written Worker.FILES_JSON
                               (Collection [Samples.report; Samples.ledger])] [] 0).
Proof.
  apply (save_seen_by_other_processes
           (Samples.disk [Samples.report]) [Samples.report] [Samples.report; Samples.ledger]).
  vm_compute. reflexivity.
Defined.

Lemma save_is_atomic_counterexample :
  ~ AsStated.save_is_atomic (Samples.disk [Samples.report]) [Samples.report; Samples.ledger].
Proof.
  intros H.
  destruct (H (<[Worker.FILES_JSON := File (Text "")]> (Samples.disk [Samples.report])))
    as [Hbefore|Hafter].
  - right. left. vm_compute. reflexivity.
  - vm_compute in Hbefore. discriminate.
  - vm_compute in Hafter. discriminate.
Qed.

End SaveAtomicity.

Section ArchiveClaims.
Import PyStr PyTime Store FS World Worker Outcome.

Lemma length_str (l : list ascii) : String.length (str l) = length l.
Proof. unfold str. induction l as [|c l IH]; [reflexivity|]. cbn. by rewrite IH. Qed.

Lemma length_chars (s : string) : length (chars s) = String.length s.
Proof. unfold chars. induction s as [|c s IH]; [reflexivity|]. cbn. by rewrite IH. Qed.

Lemma length_append (a b : string) :
  String.length (a +:+ b) = (String.length a + String.length b)%nat.
Proof.
  induction a as [|c a IH]; [reflexivity|].
  simpl. by rewrite IH.
Qed.

Lemma rstrip_slash_rev_length (l : list ascii) :
  (length (rstrip_slash_rev l) <= length l)%nat.
Proof.
  induction l as [|c l IH]; cbn; [lia|]. destruct (Ascii.eqb c "/"); cbn; lia.
Qed.

Lemma dirname_length (p : string) : (String.length (dirname p) <= String.length p)%nat.
Proof.
  unfold dirname.
  assert (length (take (Z.to_nat (rfind "/" p + 1)) (chars p)) <= String.length p)%nat as Ht.
  { rewrite <- length_chars. rewrite length_take. lia. }
  destruct (forallb _ _); rewrite length_str; [exact Ht|].
  rewrite length_rev.
  etransitivity; [apply rstrip_slash_rev_length|]. by rewrite length_rev.
Qed.

(** [os.makedirs] changes nothing under a name longer than its argument. *)
Lemma makedirs_fuel_names (n : nat) :
  forall (t t' : fs) (name : string),
    makedirs_fuel n t name = Ok t' ->
    forall p, (String.length name < String.length p)%nat -> t' !! p = t !! p.
Proof.
  induction n as [|n IH]; intros t t' name; cbn [makedirs_fuel]; [discriminate|].
  assert (String.length
            (fst (if String.eqb (basename name) ""
                  then (dirname (dirname name), basename (dirname name))
                  else (dirname name, basename name))) <= String.length name)%nat as Hhead.
  { destruct (String.eqb (basename name) ""); cbn [fst].
    - etransitivity; apply dirname_length.
    - apply dirname_length. }
  destruct (if String.eqb (basename name) "" then _ else _) as [head tail].
  cbn [fst] in Hhead.
  set (deeper := (negb (String.eqb head "") && negb (String.eqb tail "")
                  && negb (exists_ t head))%bool).
  assert (forall t1,
             (if deeper
              then match makedirs_fuel n t head with
                   | Ok t' => Ok t'
                   | Raise (FileExistsError _) => Ok t
                   | Raise e => Raise e
                   end
              else Ok t) = Ok t1 ->
             forall p, (String.length name < String.length p)%nat -> t1 !! p = t !! p) as Hanc.
  { intros t1. destruct deeper.
    - destruct (makedirs_fuel n t head) as [t0|e] eqn:Hrec.
      + intros [= <-] p Hp. eapply IH; [exact Hrec|lia].
      + destruct e; try discriminate. by intros [= <-].
    - by intros [= <-]. }
  destruct (if deeper then _ else _) as [t1|e]; [|discriminate].
  specialize (Hanc t1 eq_refl).
  destruct (deeper && String.eqb tail ".")%bool.
  - intros [= <-]. exact Hanc.
  - destruct (mkdir t1 name) as [t3|e] eqn:Hmk.
    + intros [= <-] p Hp. apply mkdir_ok in Hmk as [_ ->].
      rewrite lookup_insert_ne; [by apply Hanc|]. intros ->. lia.
    + destruct (isdir t1 name); [|discriminate]. intros [= <-]. exact Hanc.
Qed.

Lemma destination_longer (now : datetime) (f : entry) :
  (String.length (bucket_dir now) < String.length (destination now f))%nat.
Proof. unfold destination. rewrite !length_append. cbn. lia. Qed.




End ArchiveClaims.

Section Fuel.
Import PyStr Store FS.

(** A name with a non-empty base name is longer than its directory
    name. *)
Lemma dirname_shorter (p : string) :
  basename p <> "" -> (String.length (dirname p) < String.length p)%nat.
Proof.
  intros Hbase. unfold dirname, basename, from in *.
  set (k := Z.to_nat (rfind "/" p + 1)) in *.
  assert (k < length (chars p))%nat as Hk.
  { destruct (decide (k < length (chars p))%nat) as [|Hge]; [assumption|].
    exfalso. apply Hbase. rewrite drop_ge by lia. reflexivity. }
  assert (length (take k (chars p)) < String.length p)%nat as Ht.
  { rewrite <- length_chars, length_take. lia. }
  destruct (forallb _ _); rewrite length_str; [exact Ht|].
  rewrite length_rev.
  eapply Nat.le_lt_trans; [apply rstrip_slash_rev_length|]. by rewrite length_rev.
Qed.

(** [os.makedirs] recurses on ever shorter names: any fuel above the
    length of the name gives the same result. *)
Lemma makedirs_fuel_enough (n : nat) :
  forall (m : nat) (t : fs) (name : string),
    (String.length name < n)%nat -> (String.length name < m)%nat ->
    makedirs_fuel n t name = makedirs_fuel m t name.
Proof.
  induction n as [|n IH]; intros m t name Hn Hm; [lia|].
  destruct m as [|m]; [lia|]. cbn [makedirs_fuel].
  destruct (String.eqb (basename name) "") eqn:Hb.
  - destruct (negb (String.eqb (dirname (dirname name)) "")
              && negb (String.eqb (basename (dirname name)) "")
              && negb (exists_ t (dirname (dirname name))))%bool eqn:Hdeep; [|reflexivity].
    assert (basename (dirname name) <> "") as Hbase.
    { intros Hbase. rewrite Hbase in Hdeep. cbn in Hdeep.
      by rewrite andb_false_r in Hdeep. }
    pose proof (dirname_shorter _ Hbase). pose proof (dirname_length name).
    rewrite (IH m) by lia. reflexivity.
  - destruct (negb (String.eqb (dirname name) "")
              && negb (String.eqb (basename name) "")
              && negb (exists_ t (dirname name)))%bool eqn:Hdeep; [|reflexivity].
    apply String.eqb_neq in Hb. pose proof (dirname_shorter _ Hb).
    rewrite (IH m) by lia. reflexivity.
Qed.

End Fuel.

Section CountsOverTicks.
Import PyStr PyTime Store FS World Worker Outcome.

(** A tick keeps the agreement of count and history on the whole stored
    collection. *)
Lemma tick_keeps_counts (now : datetime) (w : world) (files : list entry) :
  json_load (files_on_disk w) FILES_JSON = Ok files ->
  Forall counts_agree files ->
  exists stored,
    json_load (files_on_disk (check_backups now w)) FILES_JSON = Ok stored /\
    Forall counts_agree stored.
Proof.
  intros Hload Hall.
  destruct (stored_after_tick now w files Hload) as (files' & w' & Hloop & Hstored).
  eexists. split; [exact Hstored|].
  destruct (backed_up_in_tick now files w); [|exact Hall].
  destruct (for_file_in_lookup _ _ _ _ _ _ _ Hloop) as [Hlen Hlk].
  apply Forall_lookup. intros i f' Hf'.
  destruct (lookup_lt_is_Some_2 files i) as [f Hf].
  { rewrite <- Hlen. eapply lookup_lt_Some, Hf'. }
  destruct (reached_lookup now files w false i f Hf) as (wi & ui & Hr).
  rewrite (Hlk _ _ _ _ Hf Hr) in Hf'. injection Hf' as <-.
  destruct (iteration_after now f wi ui) as [_ Hends].
  eapply at_most_one_backup_agree; [eapply ends_in_counts, Hends|].
  eapply Forall_lookup_1; eassumption.
Qed.

(** Hence the count is the length of the history after every tick of the
    polling loop, once it was so. *)
Lemma counts_agree_after_ticks (ticks : list datetime) :
  forall (w : world) (files : list entry),
    json_load (files_on_disk w) FILES_JSON = Ok files ->
    Forall counts_agree files ->
    exists stored,
      json_load (files_on_disk (run_pending ticks w)) FILES_JSON = Ok stored /\
      Forall counts_agree stored.
Proof.
  induction ticks as [|t rest IH]; intros w files Hload Hall.
  - exists files. by split.
  - destruct (tick_keeps_counts t w files Hload Hall) as (stored & Hs & Hall').
    apply (IH _ _ Hs Hall').
Qed.

End CountsOverTicks.

Section Scenarios.
Import PyStr PyTime Store FS World Worker.

(** The scenario of the specification: an entry with a period of thirty
    seconds, due at T, is met by a tick at T + 5 s. One archive is made in
    the bucket of that day, the next backup is due at (T + 5 s) + 30 s and
    the count is one. *)
Example tick_five_seconds_late :
  json_load (files_on_disk (check_backups Samples.morning (Samples.world_of [Samples.memo])))
            FILES_JSON
  = Ok [mkentry 5 "memo.tar.gz" "uploads/ledger.csv" "2024-05-01T10:00:00+03:00"
                (Some 30) (Some "seconds") (Some "2024-05-01T10:01:05+03:00")
                (Some "2024-05-01T10:00:35+03:00") (Some 1)
                (Some [mkrec "2024-05-01T10:00:35+03:00" "memo.tar_10-00-35.gz"
                             "2024-05-01"])] /\
  files_on_disk (check_backups Samples.morning (Samples.world_of [Samples.memo]))
    !! "backups/2024-05-01/memo.tar_10-00-35.gz" = Some (File (Text "a,b")).
Proof. split; vm_compute; reflexivity. Qed.

(** A second tick ten seconds later finds the entry not due and writes
    nothing more; a third one after the new deadline makes the second
    backup. *)
Example ticks_after_a_backup :
  journal (run_pending [Samples.morning; mkdt 2024 5 1 10 0 45 0]
                       (Samples.world_of [Samples.memo]))
  = journal (check_backups Samples.morning (Samples.world_of [Samples.memo])) /\
  map count_of
      (Backend.get_files
         (run_pending [Samples.morning; mkdt 2024 5 1 10 0 45 0; mkdt 2024 5 1 10 1 5 0]
                      (Samples.world_of [Samples.memo])))
  = [2].
Proof. split; vm_compute; reflexivity. Qed.

(** Two entries due in the same tick: both are backed up and one save
    stores both updates. *)
Example two_entries_one_save :
  map count_of
      (Backend.get_files
         (check_backups Samples.morning (Samples.world_of [Samples.report; Samples.memo])))
  = [1; 1] /\
  length (writes_to FILES_JSON
            (journal (check_backups Samples.morning
                                    (Samples.world_of [Samples.report; Samples.memo]))))
  = 1%nat.
Proof. split; vm_compute; reflexivity. Qed.

End Scenarios.

(* ===================================================================== *)
(** * Further properties: the code beyond the backup core *)
(* ===================================================================== *)

Section WorkerFrame.
Import PyStr PyTime Store FS World Worker Outcome.

(** An iteration changes at most the four fields of the statistics and the
    schedule. *)
Lemma ends_in_identity (now : datetime) (f : entry) (w : world) (u : bool) (s : frame) :
  ends_in now f w u s ->
  file_id (file s) = file_id f /\ filename (file s) = filename f /\
  path (file s) = path f /\ upload_date (file s) = upload_date f /\
  period_value (file s) = period_value f /\ period_unit (file s) = period_unit f.
Proof. destruct 1; cbn [file]; repeat split. Qed.

(** X1. A tick keeps the collection's entries in their number and order
    and never changes what identifies an entry or its period: [id],
    [filename], [path], [upload_date], [period_value] and [period_unit]
    of every stored entry are after the tick what they were before. *)
Theorem tick_keeps_identity
        (now : datetime) (w : world) (files : list entry) :
  json_load (files_on_disk w) FILES_JSON = Ok files ->
  exists stored,
    json_load (files_on_disk (check_backups now w)) FILES_JSON = Ok stored /\
    length stored = length files /\
    forall (i : nat) (f g : entry),
      files !! i = Some f -> stored !! i = Some g ->
      file_id g = file_id f /\ filename g = filename f /\ path g = path f /\
      upload_date g = upload_date f /\
      period_value g = period_value f /\ period_unit g = period_unit f.
Proof.
  intros Hload.
  destruct (stored_after_tick now w files Hload) as (files' & w' & Hloop & Hstored).
  destruct (for_file_in_lookup _ _ _ _ _ _ _ Hloop) as [Hlen Hlk].
  eexists. split; [exact Hstored|].
  destruct (backed_up_in_tick now files w).
  - split; [exact Hlen|]. intros i f g Hf Hg.
    destruct (reached_lookup now files w false i f Hf) as (wi & ui & Hr).
    rewrite (Hlk _ _ _ _ Hf Hr) in Hg. injection Hg as <-.
    destruct (iteration_after now f wi ui) as [_ Hends].
    by apply (ends_in_identity _ _ _ _ _ Hends).
  - split; [reflexivity|]. intros i f g Hf Hg.
    rewrite Hf in Hg. injection Hg as <-. repeat split.
Qed.

Lemma tick_keeps_identity_witness :
  exists stored,
    json_load (files_on_disk
                 (check_backups Samples.morning
                                (Samples.world_of [Samples.notes; Samples.report])))
              FILES_JSON = Ok stored /\
    length stored = 2%nat /\
    forall (i : nat) (f g : entry),
      [Samples.notes; Samples.report] !! i = Some f -> stored !! i = Some g ->
      file_id g = file_id f /\ filename g = filename f /\ path g = path f /\
      upload_date g = upload_date f /\
      period_value g = period_value f /\ period_unit g = period_unit f.
Proof.
  apply (tick_keeps_identity Samples.morning
           (Samples.world_of [Samples.notes; Samples.report])
           [Samples.notes; Samples.report]).
  vm_compute. reflexivity.
Defined.

(** The entry is stored as it was when it is not due. *)
Lemma ends_in_not_due (now : datetime) (f : entry) (w : world) (u : bool) (s : frame) :
  ends_in now f w u s -> is_due now (host_utcoffset w) f = false ->
  file s = f /\ updated s = u /\ files_on_disk (env s) = files_on_disk w /\
  journal (env s) = journal w.
Proof.
  unfold is_due.
  destruct 1 as [Hs|text e Hs Hp|text next Hs Hp Hge|text next Hs Hp Hge
                 |text next e Hs Hp Hge|text next t1 e Hs Hp Hge
                 |text next t1 t2 written c e Hs Hp Hge
                 |text next t1 t2 written c next' Hs Hp Hge];
    rewrite Hs, ?Hp; cbn [file env updated files_on_disk journal log_message];
    intros Hdue; try congruence; repeat split.
Qed.

(** X2. An entry that is not due at the tick's clock reading (no
    [next_backup], an unreadable one, or one that lies ahead) is stored
    after the tick exactly as it was, whatever happens to the other
    entries of the collection. *)
Theorem entry_not_due_is_untouched
        (now : datetime) (w : world) (files : list entry) (i : nat) (f : entry) :
  json_load (files_on_disk w) FILES_JSON = Ok files ->
  files !! i = Some f ->
  is_due now (host_utcoffset w) f = false ->
  exists stored,
    json_load (files_on_disk (check_backups now w)) FILES_JSON = Ok stored /\
    stored !! i = Some f.
Proof.
  intros Hload Hf Hdue.
  destruct (stored_after_tick now w files Hload) as (files' & w' & Hloop & Hstored).
  eexists. split; [exact Hstored|].
  destruct (backed_up_in_tick now files w); [|exact Hf].
  destruct (for_file_in_lookup _ _ _ _ _ _ _ Hloop) as [_ Hlk].
  destruct (reached_lookup now files w false i f Hf) as (wi & ui & Hr).
  rewrite (Hlk _ _ _ _ Hf Hr). f_equal.
  destruct (iteration_after now f wi ui) as [_ Hends].
  apply (ends_in_not_due _ _ _ _ _ Hends).
  pose proof (reached_host now files w false) as Hhost.
  rewrite Forall_lookup in Hhost. specialize (Hhost _ _ Hr). cbn [fst] in Hhost.
  by rewrite Hhost.
Qed.

Lemma entry_not_due_is_untouched_witness :
  exists stored,
    json_load (files_on_disk
                 (check_backups Samples.morning
                                (Samples.world_of [Samples.report; Samples.ledger])))
              FILES_JSON = Ok stored /\
    stored !! 1%nat = Some Samples.ledger.
Proof.
  apply (entry_not_due_is_untouched Samples.morning
           (Samples.world_of [Samples.report; Samples.ledger])
           [Samples.report; Samples.ledger] 1 Samples.ledger);
    vm_compute; reflexivity.
Defined.

End WorkerFrame.

Section TickFootprint.
Import PyStr PyTime Store FS World Worker Outcome.

Lemma rstrip_slash_rev_app (l1 l2 : list ascii) (c : ascii) :
  Ascii.eqb c "/" = false ->
  rstrip_slash_rev (l1 ++ c :: l2) = (rstrip_slash_rev l1 ++ c :: l2)%list.
Proof.
  intros Hc. induction l1 as [|x l1 IH]; cbn [rstrip_slash_rev app].
  - by rewrite Hc.
  - destruct (Ascii.eqb x "/"); [exact IH|reflexivity].
Qed.

Lemma prefix_append (s r : string) : String.prefix s (s +:+ r) = true.
Proof.
  induction s as [|c s IH]; simpl; [by destruct r|].
  destruct (ascii_dec c c); [exact IH|congruence].
Qed.

Lemma prefix_inv (s p : string) :
  String.prefix s p = true -> exists r, p = s +:+ r.
Proof.
  revert p. induction s as [|c s IH]; intros p H.
  - by exists p.
  - destruct p as [|a p]; [discriminate|].
    change (match ascii_dec c a with
            | left _ => String.prefix s p
            | right _ => false
            end = true) in H.
    destruct (ascii_dec c a) as [<-|]; [|discriminate].
    destruct (IH p H) as [r ->]. by exists r.
Qed.

Lemma prefix_backups (p : string) :
  String.prefix "backups" p = true -> exists r, p = "backups" +:+ r.
Proof. apply prefix_inv. Qed.

(** The directory name of a path under [backups] is empty or again under
    [backups]. *)
Lemma dirname_backups (p : string) :
  String.prefix "backups" p = true ->
  dirname p = "" \/ String.prefix "backups" (dirname p) = true.
Proof.
  intros H. destruct (prefix_backups p H) as [r ->].
  assert (rfind "/" ("backups" +:+ r) = rfind_from "/" (chars r) 7 (-1)) as Hrf
      by reflexivity.
  assert (chars ("backups" +:+ r)
          = (["b"; "a"; "c"; "k"; "u"; "p"]%char ++ "s"%char :: chars r)%list) as Hch
      by reflexivity.
  unfold dirname. rewrite Hrf, Hch.
  destruct (rfind_from_last "/" (chars r) 7 (-1) ltac:(lia)) as [[-> _]|[Hrange _]].
  - left. reflexivity.
  - right. set (k := rfind_from "/" (chars r) 7 (-1)) in *.
    replace (Z.to_nat (k + 1)) with (7 + Z.to_nat (k - 6))%nat by lia.
    cbn [take Nat.add forallb app]. change (Ascii.eqb "b" "/") with false. cbn [andb].
    set (tl := take (Z.to_nat (k - 6)) (chars r)).
    change ("b"%char :: "a"%char :: "c"%char :: "k"%char :: "u"%char :: "p"%char
              :: "s"%char :: tl)
      with (["b"; "a"; "c"; "k"; "u"; "p"]%char ++ "s"%char :: tl)%list.
    rewrite rev_app_distr. cbn [rev app].
    rewrite <- !app_assoc. cbn [app].
    rewrite rstrip_slash_rev_app by reflexivity.
    rewrite rev_app_distr. cbn [rev app].
    apply (prefix_append "backups" (str (rev (rstrip_slash_rev (rev tl))))).
Qed.

Lemma dirname_backups_twice (p : string) :
  String.prefix "backups" p = true ->
  dirname (dirname p) = "" \/ String.prefix "backups" (dirname (dirname p)) = true.
Proof.
  intros H. destruct (dirname_backups p H) as [->|H']; [by left|].
  by apply dirname_backups.
Qed.

(** [os.makedirs] of a name under [backups] changes nothing elsewhere. *)
Lemma makedirs_fuel_under (n : nat) :
  forall (t t' : fs) (name : string),
    makedirs_fuel n t name = Ok t' ->
    String.prefix "backups" name = true ->
    forall p, String.prefix "backups" p = false -> t' !! p = t !! p.
Proof.
  induction n as [|n IH]; intros t t' name; cbn [makedirs_fuel]; [discriminate|].
  intros Hmk Hname. revert Hmk.
  assert (let head := fst (if String.eqb (basename name) ""
                           then (dirname (dirname name), basename (dirname name))
                           else (dirname name, basename name)) in
          head = "" \/ String.prefix "backups" head = true) as Hhead.
  { destruct (String.eqb (basename name) ""); cbn [fst].
    - by apply dirname_backups_twice.
    - by apply dirname_backups. }
  destruct (if String.eqb (basename name) "" then _ else _) as [head tail].
  cbn [fst] in Hhead.
  set (deeper := (negb (String.eqb head "") && negb (String.eqb tail "")
                  && negb (exists_ t head))%bool).
  assert (forall t1,
             (if deeper
              then match makedirs_fuel n t head with
                   | Ok t' => Ok t'
                   | Raise (FileExistsError _) => Ok t
                   | Raise e => Raise e
                   end
              else Ok t) = Ok t1 ->
             forall p, String.prefix "backups" p = false -> t1 !! p = t !! p) as Hanc.
  { intros t1. destruct deeper eqn:Hdeep.
    - destruct (makedirs_fuel n t head) as [t0|e] eqn:Hrec.
      + intros [= <-] p Hp. eapply IH; [exact Hrec| |exact Hp].
        destruct Hhead as [->|Hh]; [|exact Hh].
        subst deeper. cbn in Hdeep. discriminate.
      + destruct e; try discriminate. by intros [= <-].
    - by intros [= <-]. }
  destruct (if deeper then _ else _) as [t1|e]; [|discriminate].
  specialize (Hanc t1 eq_refl).
  destruct (deeper && String.eqb tail ".")%bool.
  - intros [= <-]. exact Hanc.
  - destruct (mkdir t1 name) as [t3|e] eqn:Hmk.
    + intros [= <-] p Hp. apply mkdir_ok in Hmk as [_ ->].
      rewrite lookup_insert_ne; [by apply Hanc|]. intros ->. congruence.
    + destruct (isdir t1 name); [|discriminate]. intros [= <-]. exact Hanc.
Qed.

Lemma append_assoc (a b c : string) : (a +:+ b) +:+ c = a +:+ (b +:+ c).
Proof.
  induction a as [|x a IH]; [reflexivity|].
  change (String x ((a +:+ b) +:+ c) = String x (a +:+ (b +:+ c))). by rewrite IH.
Qed.

Lemma destination_prefix (now : datetime) (f : entry) :
  String.prefix "backups" (destination now f) = true.
Proof.
  unfold destination, bucket_dir.
  change ("backups/" +:+ strftime_date now) with ("backups" +:+ ("/" +:+ strftime_date now)).
  rewrite append_assoc. apply prefix_append.
Qed.

Lemma join_prefix (d p : string) :
  String.prefix "backups" d = true ->
  String.prefix "backups" (join d (basename p)) = true.
Proof.
  intros H. destruct (prefix_backups d H) as [r ->].
  unfold join. rewrite basename_not_absolute.
  destruct (_ || _)%bool; rewrite !append_assoc; apply prefix_append.
Qed.

(** The path [copy2] writes for an entry lies under [backups], and no
    directory stood there. *)
Lemma written_prefix (now : datetime) (f : entry) (t t2 : fs) (written : string) :
  copy2 t (path f) (destination now f) = Ok (t2, written) ->
  String.prefix "backups" written = true.
Proof.
  intros H. destruct (copy2_written _ _ _ _ _ H) as (c & _ & -> & _ & _).
  destruct (isdir t (destination now f));
    [apply join_prefix|]; apply destination_prefix.
Qed.

Lemma copy2_not_dir (t t2 : fs) (src dst written : string) :
  copy2 t src dst = Ok (t2, written) -> t !! written <> Some Dir.
Proof.
  intros H. destruct (copy2_written _ _ _ _ _ H) as (c & Hsrc & Hw & _ & _).
  revert H. unfold copy2, read_file, write_file, open_w, res_bind.
  rewrite <- Hw. destruct (String.eqb src written); [discriminate|].
  rewrite Hsrc. intros H Hdir. rewrite Hdir in H. discriminate.
Qed.

Lemma bucket_dir_prefix (now : datetime) :
  String.prefix "backups" (bucket_dir now) = true.
Proof.
  unfold bucket_dir.
  change ("backups/" +:+ strftime_date now) with ("backups" +:+ ("/" +:+ strftime_date now)).
  apply prefix_append.
Qed.

(** One iteration changes nothing outside [backups], removes nothing and
    keeps directories directories and files files. *)
Lemma ends_in_footprint (now : datetime) (f : entry) (w : world) (u : bool) (s : frame) :
  ends_in now f w u s ->
  forall p,
    (String.prefix "backups" p = false ->
     files_on_disk (env s) !! p = files_on_disk w !! p) /\
    (forall x, files_on_disk w !! p = Some x ->
               exists y, files_on_disk (env s) !! p = Some y /\ (y = Dir <-> x = Dir)).
Proof.
  assert (forall (t : fs) p, forall x, t !! p = Some x ->
            exists y, t !! p = Some y /\ (y = Dir <-> x = Dir)) as Hsame
      by (intros t p x Hx; by exists x).
  assert (forall t1, makedirs (files_on_disk w) (bucket_dir now) = Ok t1 ->
            forall p, (String.prefix "backups" p = false ->
                       t1 !! p = files_on_disk w !! p) /\
                      (forall x, files_on_disk w !! p = Some x -> t1 !! p = Some x)) as Hmk.
  { intros t1 H p. split.
    - apply (makedirs_fuel_under _ _ _ _ H), bucket_dir_prefix.
    - intros x. by apply (makedirs_keeps _ _ _ _ _ H). }
  assert (forall t1 t2 written,
            makedirs (files_on_disk w) (bucket_dir now) = Ok t1 ->
            copy2 t1 (path f) (destination now f) = Ok (t2, written) ->
            forall p, (String.prefix "backups" p = false ->
                       t2 !! p = files_on_disk w !! p) /\
                      (forall x, files_on_disk w !! p = Some x ->
                                 exists y, t2 !! p = Some y /\ (y = Dir <-> x = Dir))) as Hcp.
  { intros t1 t2 written H1 H2 p.
    pose proof (written_prefix _ _ _ _ _ H2) as Hpre.
    pose proof (copy2_not_dir _ _ _ _ _ H2) as Hnd.
    destruct (copy2_written _ _ _ _ _ H2) as (c & _ & _ & _ & ->).
    destruct (Hmk t1 H1 p) as [Hout Hkeep]. split.
    - intros Hp. rewrite lookup_insert_ne by congruence. by apply Hout.
    - intros x Hx. specialize (Hkeep x Hx).
      destruct (decide (written = p)) as [->|Hne].
      + rewrite lookup_insert_eq. eexists. split; [reflexivity|].
        split; [discriminate|]. intros ->. congruence.
      + rewrite lookup_insert_ne by done. by exists x. }
  destruct 1; intros p;
    cbn [env files_on_disk log_message with_fs with_write];
    try (split; [reflexivity|apply Hsame]).
  - destruct (Hmk t1 H3 p) as [Hout Hkeep]. split; [exact Hout|].
    intros x Hx. exists x. split; [by apply Hkeep|done].
  - by apply (Hcp t1 t2 written).
  - by apply (Hcp t1 t2 written).
Qed.

Lemma for_file_in_footprint (now : datetime) (files : list entry) :
  forall (w : world) (u : bool) (files' : list entry) (w' : world) (u' : bool),
    for_file_in now files w u = (Ok files', w', u') ->
    forall p,
      (String.prefix "backups" p = false ->
       files_on_disk w' !! p = files_on_disk w !! p) /\
      (forall x, files_on_disk w !! p = Some x ->
                 exists y, files_on_disk w' !! p = Some y /\ (y = Dir <-> x = Dir)).
Proof.
  induction files as [|f rest IH]; intros w u files' w' u'.
  - intros [= <- <- <-] p. split; [reflexivity|]. intros x Hx. by exists x.
  - rewrite for_file_in_cons.
    destruct (for_file_in now rest _ _) as [[[rest'|e] w1] u1] eqn:Hrest; [|discriminate].
    intros [= <- <- <-] p.
    destruct (IH _ _ _ _ _ Hrest p) as [Hout Hkeep].
    destruct (iteration_after now f w u) as [_ Hends].
    destruct (ends_in_footprint _ _ _ _ _ Hends p) as [Hout' Hkeep'].
    split.
    + intros Hp. rewrite Hout, Hout' by exact Hp. reflexivity.
    + intros x Hx. destruct (Hkeep' x Hx) as (y & Hy & Hxy).
      destruct (Hkeep y Hy) as (z & Hz & Hyz). exists z. split; [exact Hz|tauto].
Qed.

(** What a tick does to any path of the file table. *)
Lemma check_backups_footprint (now : datetime) (w : world) (p : string) :
  (String.prefix "backups" p = false -> p <> FILES_JSON ->
   files_on_disk (check_backups now w) !! p = files_on_disk w !! p) /\
  (forall x, files_on_disk w !! p = Some x ->
             exists y, files_on_disk (check_backups now w) !! p = Some y /\
                       (y = Dir <-> x = Dir)).
Proof.
  destruct (json_load (files_on_disk w) FILES_JSON) as [files|e] eqn:Hload.
  - destruct (check_backups_loaded now w files Hload) as (files' & w' & Hloop & Hkeep & ->).
    destruct (for_file_in_footprint _ _ _ _ _ _ _ Hloop p) as [Hout Hsame].
    destruct (backed_up_in_tick now files w).
    + cbn [files_on_disk with_write]. split.
      * intros Hp Hne. rewrite lookup_insert_ne by done. by apply Hout.
      * intros x Hx. destruct (Hsame x Hx) as (y & Hy & Hxy).
        destruct (decide (FILES_JSON = p)) as [<-|Hne].
        -- rewrite lookup_insert_eq. eexists. split; [reflexivity|].
           apply json_load_ok in Hload. rewrite Hload in Hx. injection Hx as <-.
           split; discriminate.
        -- rewrite lookup_insert_ne by done. by exists y.
    + split; [by intros Hp _; apply Hout|exact Hsame].
  - destruct (check_backups_unreadable now w) as [-> _].
    { intros files. rewrite Hload. discriminate. }
    split; [reflexivity|]. intros x Hx. by exists x.
Qed.

(** The footprint of the polling loop is that of its ticks. *)
Lemma run_pending_footprint (ticks : list datetime) :
  forall (w : world) (p : string),
    (String.prefix "backups" p = false -> p <> FILES_JSON ->
     files_on_disk (run_pending ticks w) !! p = files_on_disk w !! p) /\
    (forall x, files_on_disk w !! p = Some x ->
               exists y, files_on_disk (run_pending ticks w) !! p = Some y /\
                         (y = Dir <-> x = Dir)).
Proof.
  induction ticks as [|t rest IH]; intros w p.
  - split; [reflexivity|]. intros x Hx. by exists x.
  - change (run_pending (t :: rest) w) with (run_pending rest (check_backups t w)).
    destruct (check_backups_footprint t w p) as [Hout Hkeep].
    destruct (IH (check_backups t w) p) as [Hout' Hkeep'].
    split.
    + intros Hp Hne. rewrite Hout', Hout by assumption. reflexivity.
    + intros x Hx. destruct (Hkeep x Hx) as (y & Hy & Hxy).
      destruct (Hkeep' y Hy) as (z & Hz & Hyz). exists z. split; [exact Hz|tauto].
Qed.



(** X4. The worker removes nothing: a path that names a file or a
    directory when it starts names one after any number of ticks, a
    directory stays a directory and a regular file a regular file. *)
Theorem worker_removes_nothing
        (ticks : list datetime) (w : world) (p : string) (x : node) :
  files_on_disk w !! p = Some x ->
  exists y, files_on_disk (main ticks w) !! p = Some y /\ (y = Dir <-> x = Dir).
Proof.
  intros Hx. unfold main.
  by apply (run_pending_footprint ticks (log_message WorkerStarted w) p).
Qed.

Lemma worker_removes_nothing_witness :
  exists y,
    files_on_disk (main [Samples.morning; mkdt 2024 5 1 10 1 5 0]
                        (Samples.world_of [Samples.report]))
      !! "backups" = Some y /\ (y = Dir <-> Dir = Dir).
Proof.
  apply (worker_removes_nothing [Samples.morning; mkdt 2024 5 1 10 1 5 0]
           (Samples.world_of [Samples.report]) "backups" Dir).
  vm_compute. reflexivity.
Defined.

End TickFootprint.

Section IdleAndRetry.
Import PyStr PyTime Store FS World Worker Outcome.

(** The line an iteration logs for an entry that is not due: none, or the
    error of reading its [next_backup]. *)
Lemma ends_in_not_due_log (now : datetime) (f : entry) (w : world) (u : bool) (s : frame) :
  ends_in now f w u s -> is_due now (host_utcoffset w) f = false ->
  log (env s)
  = (log w ++ match scheduled f with
              | Some text =>
                  match fromisoformat_moscow (host_utcoffset w) text with
                  | Raise e => [EntryError (filename f) e]
                  | Ok _ => []
                  end
              | None => []
              end)%list.
Proof.
  unfold is_due.
  destruct 1 as [Hs|text e Hs Hp|text next Hs Hp Hge|text next Hs Hp Hge
                 |text next e Hs Hp Hge|text next t1 e Hs Hp Hge
                 |text next t1 t2 written c e Hs Hp Hge
                 |text next t1 t2 written c next' Hs Hp Hge];
    rewrite Hs, ?Hp; cbn [env log log_message];
    intros Hdue; try congruence; by rewrite ?app_nil_r.
Qed.

Lemma for_file_in_idle (now : datetime) (files : list entry) :
  forall (w : world) (u : bool) (files' : list entry) (w' : world) (u' : bool),
    for_file_in now files w u = (Ok files', w', u') ->
    (forall f, In f files -> is_due now (host_utcoffset w) f = false) ->
    files_on_disk w' = files_on_disk w /\ journal w' = journal w /\
    log w'
    = (log w ++ flat_map (fun f =>
                            match scheduled f with
                            | Some text =>
                                match fromisoformat_moscow (host_utcoffset w) text with
                                | Raise e => [EntryError (filename f) e]
                                | Ok _ => []
                                end
                            | None => []
                            end) files)%list.
Proof.
  induction files as [|f rest IH]; intros w u files' w' u'.
  - intros [= <- <- <-] _. cbn. by rewrite app_nil_r.
  - rewrite for_file_in_cons.
    destruct (for_file_in now rest _ _) as [[[rest'|e] w1] u1] eqn:Hrest; [|discriminate].
    intros [= <- <- <-] Hnone.
    destruct (iteration_after now f w u) as [_ Hends].
    destruct (ends_in_frame _ _ _ _ _ Hends) as (Hhost & _ & _).
    assert (is_due now (host_utcoffset w) f = false) as Hf by (apply Hnone; by left).
    destruct (ends_in_not_due _ _ _ _ _ Hends Hf) as (_ & _ & Hfs & Hj).
    pose proof (ends_in_not_due_log _ _ _ _ _ Hends Hf) as Hlog.
    destruct (IH _ _ _ _ _ Hrest) as (Hfs' & Hj' & Hlog').
    { intros g Hg. rewrite Hhost. apply Hnone. by right. }
    split; [congruence|split; [congruence|]].
    rewrite Hlog', Hlog, Hhost. cbn [flat_map]. rewrite app_assoc. reflexivity.
Qed.

(** X5. A tick in which no entry is due writes nothing: the file table
    and the journal are what they were, no archive is made and the store
    is not saved. Its only trace is one line in the log for each entry
    whose [next_backup] cannot be read. *)
Theorem idle_tick_writes_nothing
        (now : datetime) (w : world) (files : list entry) :
  json_load (files_on_disk w) FILES_JSON = Ok files ->
  (forall f, In f files -> is_due now (host_utcoffset w) f = false) ->
  files_on_disk (check_backups now w) = files_on_disk w /\
  journal (check_backups now w) = journal w /\
  log (check_backups now w)
  = (log w ++ flat_map (fun f =>
                          match scheduled f with
                          | Some text =>
                              match fromisoformat_moscow (host_utcoffset w) text with
                              | Raise e => [EntryError (filename f) e]
                              | Ok _ => []
                              end
                          | None => []
                          end) files)%list.
Proof.
  intros Hload Hnone.
  destruct (check_backups_loaded now w files Hload) as (files' & w' & Hloop & _ & ->).
  rewrite (none_due_none_backed_up _ _ _ Hnone) in Hloop |- *.
  by apply (for_file_in_idle _ _ _ _ _ _ _ Hloop).
Qed.

Lemma idle_tick_writes_nothing_witness :
  files_on_disk (check_backups Samples.morning (Samples.world_of [Samples.ledger]))
  = files_on_disk (Samples.world_of [Samples.ledger]) /\
  journal (check_backups Samples.morning (Samples.world_of [Samples.ledger]))
  = journal (Samples.world_of [Samples.ledger]) /\
  log (check_backups Samples.morning (Samples.world_of [Samples.ledger]))
  = (log (Samples.world_of [Samples.ledger]) ++ [])%list.
Proof.
  apply (idle_tick_writes_nothing Samples.morning (Samples.world_of [Samples.ledger])
           [Samples.ledger]).
  - vm_compute. reflexivity.
  - intros f [<-|[]]. vm_compute. reflexivity.
Defined.

Lemma ge_trans (a b c : datetime) : ge a b = true -> ge b c = true -> ge a c = true.
Proof. unfold ge. rewrite !Z.leb_le. lia. Qed.

(** X6. An entry that is due and whose backup fails stays due: it is
    stored with the [next_backup] it had, so that at every later clock
    reading it is due again and each following tick tries it anew. *)
Theorem failed_entry_stays_due
        (now later : datetime) (w : world) (files : list entry)
        (i : nat) (f : entry) (wi : world) (ui : bool) :
  json_load (files_on_disk w) FILES_JSON = Ok files ->
  files !! i = Some f ->
  reached now files w false !! i = Some (wi, ui) ->
  is_due now (host_utcoffset w) f = true ->
  backed_up now f wi = false ->
  ge later now = true ->
  exists stored f',
    json_load (files_on_disk (check_backups now w)) FILES_JSON = Ok stored /\
    stored !! i = Some f' /\
    next_backup f' = next_backup f /\
    is_due later (host_utcoffset (check_backups now w)) f' = true.
Proof.
  intros Hload Hf Hr Hdue Hfail Hlater.
  destruct (stored_after_tick now w files Hload) as (files' & w' & Hloop & Hstored).
  assert (host_utcoffset (check_backups now w) = host_utcoffset w) as Hhost.
  { destruct (check_backups_loaded now w files Hload) as (files2 & w2 & Hloop2 & _ & ->).
    destruct (for_file_in_frame _ _ _ _ _ _ _ Hloop2) as (Hh & _ & _).
    by destruct (backed_up_in_tick now files w). }
  assert (forall g, next_backup g = next_backup f ->
                    is_due later (host_utcoffset w) g = true) as Hstill.
  { intros g Hg. unfold is_due, scheduled in *. rewrite Hg.
    destruct (next_backup f) as [s|]; [|discriminate].
    destruct (String.eqb s ""); [discriminate|].
    destruct (fromisoformat_moscow (host_utcoffset w) s) as [next|e]; [|discriminate].
    by apply (ge_trans later now next). }
  rewrite Hhost.
  destruct (backed_up_in_tick now files w).
  - destruct (for_file_in_lookup _ _ _ _ _ _ _ Hloop) as [_ Hlk].
    exists files', (file (after now f wi ui)).
    split; [exact Hstored|]. split; [exact (Hlk _ _ _ _ Hf Hr)|].
    assert (next_backup (file (after now f wi ui)) = next_backup f) as Hsame.
    { rewrite (after_flag now f wi ui). cbn [file].
      destruct (iteration_after now f wi false) as [_ Hends].
      by apply (ends_in_not_rescheduled _ _ _ _ Hends). }
    split; [exact Hsame|by apply Hstill].
  - exists files, f. split; [exact Hstored|]. split; [exact Hf|].
    split; [reflexivity|by apply Hstill].
Qed.

Lemma failed_entry_stays_due_witness :
  exists stored f',
    json_load (files_on_disk
                 (check_backups Samples.morning
                                (Samples.world_of [Samples.photo; Samples.report])))
              FILES_JSON = Ok stored /\
    stored !! 0%nat = Some f' /\
    next_backup f' = next_backup Samples.photo /\
    is_due (mkdt 2024 5 1 10 0 45 0)
           (host_utcoffset (check_backups Samples.morning
                                          (Samples.world_of [Samples.photo; Samples.report])))
           f' = true.
Proof.
  apply (failed_entry_stays_due
           Samples.morning (mkdt 2024 5 1 10 0 45 0)
           (Samples.world_of [Samples.photo; Samples.report])
           [Samples.photo; Samples.report]
           0 Samples.photo (Samples.world_of [Samples.photo; Samples.report]) false);
    vm_compute; reflexivity.
Defined.

End IdleAndRetry.

Section TextOfTime.
Import PyStr PyTime.

Lemma chars_append (a b : string) : chars (a +:+ b) = (chars a ++ chars b)%list.
Proof.
  unfold chars. induction a as [|x a IH]; [reflexivity|].
  change (x :: list_ascii_of_string (a +:+ b)
          = x :: (list_ascii_of_string a ++ list_ascii_of_string b)%list).
  by rewrite IH.
Qed.

Lemma chars_str (l : list ascii) : chars (str l) = l.
Proof. apply list_ascii_of_string_of_list_ascii. Qed.

Lemma digit_val_digit (n : Z) : digit_val (digit n) = Some (n mod 10).
Proof.
  unfold digit_val, digit.
  assert (0 <= n mod 10 < 10) as Hn by (apply Z.mod_pos_bound; lia).
  rewrite nat_ascii_embedding by lia.
  replace (Z.of_nat (48 + Z.to_nat (n mod 10))) with (48 + n mod 10) by lia.
  destruct (Z.leb_spec 48 (48 + n mod 10)); [|lia].
  destruct (Z.leb_spec (48 + n mod 10) 57); [|lia].
  cbn [andb]. f_equal. lia.
Qed.

Lemma read_digits_plus (w k : nat) :
  forall (acc : Z) (l : list ascii),
    read_digits (w + k) acc l
    = match read_digits w acc l with
      | Some (a, l') => read_digits k a l'
      | None => None
      end.
Proof.
  induction w as [|w IH]; intros acc l; [reflexivity|].
  cbn [Nat.add read_digits]. destruct l as [|c l]; [reflexivity|].
  destruct (digit_val c); [apply IH|reflexivity].
Qed.

(** Reading back the digits that [zpad] wrote. *)
Lemma read_digits_zpad (w : nat) :
  forall (n acc : Z) (rest : list ascii),
    read_digits w acc (zpad_chars w n ++ rest)
    = Some (acc * 10 ^ Z.of_nat w + n mod 10 ^ Z.of_nat w, rest).
Proof.
  induction w as [|w IH]; intros n acc rest.
  - cbn [read_digits zpad_chars app]. f_equal. f_equal.
    change (10 ^ Z.of_nat 0) with 1. rewrite Z.mod_1_r. lia.
  - replace (S w) with (w + 1)%nat at 1 by lia.
    rewrite read_digits_plus. cbn [zpad_chars]. rewrite <- app_assoc, IH.
    cbn [app read_digits]. rewrite digit_val_digit. f_equal. f_equal.
    rewrite Nat2Z.inj_succ, Z.pow_succ_r by lia.
    rewrite (Z.rem_mul_r n 10 (10 ^ Z.of_nat w)) by lia. lia.
Qed.

Lemma read_digits_zpad_exact (w : nat) (n : Z) (rest : list ascii) :
  0 <= n < 10 ^ Z.of_nat w ->
  read_digits w 0 (zpad_chars w n ++ rest) = Some (n, rest).
Proof.
  intros Hn. rewrite read_digits_zpad. f_equal. f_equal.
  rewrite Z.mod_small by lia. lia.
Qed.

Lemma length_zpad_chars (w : nat) : forall n, length (zpad_chars w n) = w.
Proof.
  induction w as [|w IH]; intros n; [reflexivity|].
  cbn [zpad_chars]. rewrite length_app, IH. cbn. lia.
Qed.

Lemma digit_no_sign (n : Z) :
  Ascii.eqb (digit n) "+" = false /\ Ascii.eqb (digit n) "-" = false.
Proof.
  unfold digit.
  assert (Z.to_nat (n mod 10) < 10)%nat as Hk
      by (pose proof (Z.mod_pos_bound n 10); lia).
  revert Hk. generalize (Z.to_nat (n mod 10)). intros k Hk.
  do 10 (destruct k as [|k]; [split; reflexivity|]). lia.
Qed.

Lemma zpad_chars_no_sign (w : nat) :
  forall n, Forall (fun c => Ascii.eqb c "+" = false /\ Ascii.eqb c "-" = false)
                   (zpad_chars w n).
Proof.
  induction w as [|w IH]; intros n; [constructor|].
  cbn [zpad_chars]. apply Forall_app. split; [apply IH|].
  constructor; [apply digit_no_sign|constructor].
Qed.

Lemma split_sign_plus (t z : list ascii) :
  Forall (fun c => Ascii.eqb c "+" = false /\ Ascii.eqb c "-" = false) t ->
  split_sign (t ++ "+"%char :: z) = (t, Some (false, z)).
Proof.
  induction 1 as [|c t [Hp Hm] _ IH]; [reflexivity|].
  cbn [app split_sign]. by rewrite Hp, Hm, IH.
Qed.


Lemma parse_date_zpad (y m d : Z) (rest : list ascii) :
  0 <= y < 10000 -> 0 <= m < 100 -> 0 <= d < 100 ->
  parse_date (zpad_chars 4 y ++ "-"%char :: zpad_chars 2 m ++ "-"%char :: zpad_chars 2 d ++ rest)
  = Some (y, m, d, rest).
Proof.
  intros Hy Hm Hd. unfold parse_date.
  rewrite (read_digits_zpad_exact 4) by (cbn; lia). cbn [mbind option_bind expect].
  change (Ascii.eqb "-" "-") with true. cbn [mbind option_bind].
  rewrite (read_digits_zpad_exact 2) by (cbn; lia). cbn [mbind option_bind expect].
  change (Ascii.eqb "-" "-") with true. cbn [mbind option_bind].
  rewrite (read_digits_zpad_exact 2) by (cbn; lia). reflexivity.
Qed.

Lemma parse_time_zpad (h mi s us : Z) :
  0 <= h < 100 -> 0 <= mi < 100 -> 0 <= s < 100 -> 0 <= us < 1000000 ->
  parse_hh_mm_ss_ff
    (zpad_chars 2 h ++ ":"%char :: zpad_chars 2 mi ++ ":"%char :: zpad_chars 2 s
       ++ (if us =? 0 then [] else "."%char :: zpad_chars 6 us))
  = Some (h, mi, s, us).
Proof.
  intros Hh Hmi Hs Hus. unfold parse_hh_mm_ss_ff.
  rewrite (read_digits_zpad_exact 2) by (cbn; lia). cbn [mbind option_bind].
  change (Ascii.eqb ":" ":") with true. cbn [negb mbind option_bind].
  rewrite (read_digits_zpad_exact 2) by (cbn; lia). cbn [mbind option_bind].
  change (Ascii.eqb ":" ":") with true. cbn [negb mbind option_bind].
  rewrite (read_digits_zpad_exact 2) by (cbn; lia). cbn [mbind option_bind].
  destruct (Z.eqb_spec us 0) as [->|Hne]; [reflexivity|].
  change (Ascii.eqb "." ".") with true. cbn [negb mbind option_bind].
  unfold parse_fraction. rewrite length_zpad_chars.
  rewrite <- (app_nil_r (zpad_chars 6 us)).
  rewrite (read_digits_zpad_exact 6) by (cbn; lia). reflexivity.
Qed.

Lemma chars_isoformat (d : datetime) :
  chars (isoformat d)
  = (zpad_chars 4 (year d) ++ "-"%char :: zpad_chars 2 (month d) ++ "-"%char ::
     zpad_chars 2 (day d) ++ "T"%char ::
     (zpad_chars 2 (hour d) ++ ":"%char :: zpad_chars 2 (minute d) ++ ":"%char ::
      zpad_chars 2 (second d)
      ++ (if microsecond d =? 0 then [] else "."%char :: zpad_chars 6 (microsecond d)))
     ++ "+"%char :: chars "03:00")%list.
Proof.
  unfold isoformat, zpad. rewrite !chars_append, !chars_str.
  destruct (microsecond d =? 0).
  - rewrite <- !app_assoc. reflexivity.
  - rewrite chars_append, chars_str. rewrite <- !app_assoc. reflexivity.
Qed.

(** The text [isoformat] writes reads back as the same fields, with the
    offset of three hours. *)
Lemma parse_iso_isoformat (d : datetime) :
  valid d = true -> parse_iso (isoformat d) = Some (d, Some MOSCOW_UTCOFFSET).
Proof.
  intros Hv. unfold valid in Hv.
  repeat match goal with
         | H : (_ && _)%bool = true |- _ => apply andb_true_iff in H as [H ?]
         | H : (_ <=? _) = true |- _ => apply Z.leb_le in H
         end.
  assert (day d <= 31) as Hday.
  { unfold days_in_month in *. destruct (month d =? 2); [destruct (is_leap _); lia|].
    destruct (_ || _)%bool; lia. }
  unfold parse_iso. rewrite chars_isoformat.
  rewrite parse_date_zpad by lia. cbn [mbind option_bind].
  rewrite split_sign_plus.
  2:{ do 2 (apply Forall_app; split; [apply zpad_chars_no_sign|];
            constructor; [split; reflexivity|]).
      apply Forall_app; split; [apply zpad_chars_no_sign|].
      destruct (microsecond d =? 0); [constructor|].
      constructor; [split; reflexivity|apply zpad_chars_no_sign]. }
  rewrite parse_time_zpad by lia. cbn [mbind option_bind].
  change (parse_offset false (chars "03:00")) with (Some MOSCOW_UTCOFFSET).
  cbn [mbind option_bind]. by destruct d.
Qed.

End TextOfTime.

Section CalendarBack.
Import PyStr PyTime.

(** The day of the year of each date of a common and of a leap year is
    below the length of the year, and [month_and_day] gives the date
    back: checked on every month and day. *)
Lemma month_and_day_back_table (leap : bool) :
  forallb (fun mi : nat =>
    forallb (fun di : nat =>
      let m := Z.of_nat mi in
      let d := Z.of_nat di in
      let r := DAYS_BEFORE_MONTH m + (if (2 <? m) && leap then 1 else 0) + d - 1 in
      negb (d <=? (if m =? 2 then (if leap then 29 else 28) else days_in_month 1 m))
      || ((r <? 365 + (if leap then 1 else 0))
          && (fst (month_and_day leap r) =? m) && (snd (month_and_day leap r) =? d)))
      (seq 1 31))
    (seq 1 12) = true.
Proof. destruct leap; vm_compute; reflexivity. Qed.

Lemma month_and_day_back (leap : bool) (m d : Z) :
  1 <= m <= 12 ->
  1 <= d <= (if m =? 2 then (if leap then 29 else 28) else days_in_month 1 m) ->
  let r := DAYS_BEFORE_MONTH m + (if (2 <? m) && leap then 1 else 0) + d - 1 in
  0 <= r < 365 + (if leap then 1 else 0) /\ month_and_day leap r = (m, d).
Proof.
  intros Hm Hd r.
  assert (d <= 31) as Hd31.
  { revert Hd. unfold days_in_month.
    destruct (m =? 2); [destruct leap; lia|].
    destruct (_ || _)%bool; lia. }
  pose proof (month_and_day_back_table leap) as Htab.
  rewrite forallb_forall in Htab.
  specialize (Htab (Z.to_nat m) ltac:(apply in_seq; lia)).
  rewrite forallb_forall in Htab.
  specialize (Htab (Z.to_nat d) ltac:(apply in_seq; lia)).
  cbv zeta in Htab. rewrite !Z2Nat.id in Htab by lia. fold r in Htab.
  destruct (Z.leb_spec d (if m =? 2 then if leap then 29 else 28 else days_in_month 1 m));
    [|lia].
  cbn [negb orb] in Htab.
  apply andb_true_iff in Htab as [Htab Hsnd]. apply andb_true_iff in Htab as [Hlt Hfst].
  apply Z.ltb_lt in Hlt. apply Z.eqb_eq in Hfst, Hsnd.
  split.
  - split; [|exact Hlt]. subst r.
    assert (0 <= DAYS_BEFORE_MONTH m).
    { assert (m = 1 \/ m = 2 \/ m = 3 \/ m = 4 \/ m = 5 \/ m = 6 \/ m = 7 \/ m = 8
              \/ m = 9 \/ m = 10 \/ m = 11 \/ m = 12) as Hcases by lia.
      repeat (destruct Hcases as [->|Hcases]; [cbn; lia|]). subst m. cbn. lia. }
    destruct (_ && _)%bool; lia.
  - destruct (month_and_day leap r) as [m' d']. cbn [fst snd] in *. congruence.
Qed.

Lemma days_in_month_leap (y m : Z) :
  days_in_month y m
  = if m =? 2 then (if is_leap y then 29 else 28) else days_in_month 1 m.
Proof. unfold days_in_month. by destruct (m =? 2). Qed.

(** The years of the Gregorian cycle. *)
Lemma year_cycles (y : Z) :
  exists a b c e,
    y = 400 * a + 100 * b + 4 * c + e + 1 /\ 0 <= b <= 3 /\ 0 <= c <= 24 /\ 0 <= e <= 3 /\
    a = (y - 1) / 400.
Proof.
  exists ((y - 1) / 400), ((y - 1) mod 400 / 100), ((y - 1) mod 100 / 4), ((y - 1) mod 4).
  Z.div_mod_to_equations. lia.
Qed.

(** The date of the ordinal of a date is that date. *)
Lemma ord2ymd_ymd2ord (y m d : Z) :
  1 <= m <= 12 -> 1 <= d <= days_in_month y m ->
  ord2ymd (ymd2ord y m d) = (y, m, d).
Proof.
  intros Hm Hd. rewrite days_in_month_leap in Hd.
  destruct (year_cycles y) as (a & b & c & e & Hy & Hb & Hc & He & _).
  unfold ymd2ord, days_before_month.
  rewrite Hy at 1 2. rewrite Hy in Hd.
  rewrite days_before_year_cycles by lia.
  rewrite is_leap_cycles in Hd |- * by lia.
  set (leap := ((e =? 3) && (negb (c =? 24) || (b =? 3)))%bool) in *.
  destruct (month_and_day_back leap m d Hm Hd) as [Hr Hmd].
  set (r := DAYS_BEFORE_MONTH m + (if (2 <? m) && leap then 1 else 0) + d - 1) in *.
  replace (DI400Y * a + DI100Y * b + DI4Y * c + 365 * e
           + (DAYS_BEFORE_MONTH m + (if (2 <? m) && leap then 1 else 0)) + d)
    with (DI400Y * a + DI100Y * b + DI4Y * c + 365 * e + r + 1) by (subst r; lia).
  clearbody r.
  assert (leap = true -> e = 3 /\ (c <> 24 \/ b = 3)) as Hleap.
  { subst leap. intros H. apply andb_true_iff in H as [H3 H].
    apply Z.eqb_eq in H3. split; [exact H3|].
    apply orb_true_iff in H as [H|H].
    - left. intros ->. discriminate.
    - right. by apply Z.eqb_eq. }
  assert (leap = false -> r <= 364) as Hcommon by (intros ->; lia).
  unfold ord2ymd. cbv zeta.
  replace (DI400Y * a + DI100Y * b + DI4Y * c + 365 * e + r + 1 - 1)
    with (DI400Y * a + (DI100Y * b + DI4Y * c + 365 * e + r)) by lia.
  assert (0 <= DI100Y * b + DI4Y * c + 365 * e + r < DI400Y) as H400.
  { unfold DI400Y, DI100Y, DI4Y. destruct leap; [destruct Hleap as [-> ?]; [done|]|]; lia. }
  rewrite (Z.mul_comm DI400Y a), Z.add_comm.
  rewrite Z.div_add, Z.mod_add by (unfold DI400Y; lia).
  rewrite (Z.div_small _ DI400Y), (Z.mod_small _ DI400Y) by exact H400.
  cbn [Z.add].
  destruct (Z.eq_dec r 365) as [Hlast|Hnot].
  - (* the last day of a leap year *)
    assert (leap = true) as Hl by (destruct leap; [reflexivity|lia]).
    destruct (Hleap Hl) as [-> Hcb]. subst r.
    rewrite Hl in Hmd. change (month_and_day true 365) with (12, 31) in Hmd.
    injection Hmd as <- <-.
    destruct (Z.eq_dec c 24) as [->|Hc24].
    + assert (b = 3) as -> by (destruct Hcb; [congruence|assumption]).
      vm_compute (((DI100Y * 3 + DI4Y * 24 + 365 * 3 + 365) / DI100Y)).
      vm_compute (((DI100Y * 3 + DI4Y * 24 + 365 * 3 + 365) mod DI100Y)).
      change (4 =? 4) with true. rewrite orb_true_r.
      change (0 / DI4Y) with 0. change (0 mod DI4Y / 365) with 0.
      f_equal. f_equal. lia.
    + assert ((DI100Y * b + DI4Y * c + 365 * 3 + 365) / DI100Y = b) as ->
          by (unfold DI100Y, DI4Y; Z.div_mod_to_equations; lia).
      assert ((DI100Y * b + DI4Y * c + 365 * 3 + 365) mod DI100Y = DI4Y * c + 1460) as ->
          by (unfold DI100Y, DI4Y; Z.div_mod_to_equations; lia).
      assert ((DI4Y * c + 1460) / DI4Y = c) as ->
          by (unfold DI4Y; Z.div_mod_to_equations; lia).
      assert ((DI4Y * c + 1460) mod DI4Y = 1460) as ->
          by (unfold DI4Y; Z.div_mod_to_equations; lia).
      change (1460 / 365) with 4. change (4 =? 4) with true. cbn [orb].
      f_equal. f_equal. lia.
  - assert (r <= 364) as Hr364 by (destruct leap; lia).
    assert ((DI100Y * b + DI4Y * c + 365 * e + r) / DI100Y = b) as ->
        by (unfold DI100Y, DI4Y; Z.div_mod_to_equations; lia).
    assert ((DI100Y * b + DI4Y * c + 365 * e + r) mod DI100Y = DI4Y * c + 365 * e + r) as ->
        by (unfold DI100Y, DI4Y; Z.div_mod_to_equations; lia).
    assert ((DI4Y * c + 365 * e + r) / DI4Y = c) as ->
        by (unfold DI4Y; Z.div_mod_to_equations; lia).
    assert ((DI4Y * c + 365 * e + r) mod DI4Y = 365 * e + r) as ->
        by (unfold DI4Y; Z.div_mod_to_equations; lia).
    assert ((365 * e + r) / 365 = e) as -> by (Z.div_mod_to_equations; lia).
    assert ((365 * e + r) mod 365 = r) as -> by (Z.div_mod_to_equations; lia).
    replace (e =? 4) with false by (symmetry; apply Z.eqb_neq; lia).
    replace (b =? 4) with false by (symmetry; apply Z.eqb_neq; lia).
    cbn [orb]. fold leap. rewrite Hmd. f_equal. f_equal. lia.
Qed.

End CalendarBack.

Section RoundTrip.
Import PyStr PyTime.

(** A datetime that passes the checks of the constructor is the datetime
    of its own count of microseconds. *)
Lemma of_us_to_us (d : datetime) : valid d = true -> of_us (to_us d) = d.
Proof.
  intros Hv. unfold valid in Hv.
  repeat match goal with
         | H : (_ && _)%bool = true |- _ => apply andb_true_iff in H as [H ?]
         | H : (_ <=? _) = true |- _ => apply Z.leb_le in H
         end.
  destruct d as [y m dd h mi s us].
  cbn [year month day hour minute second microsecond] in *.
  unfold of_us, to_us. cbn [year month day hour minute second microsecond].
  set (n := ymd2ord y m dd).
  assert ((((((n * 24 + h) * 60 + mi) * 60 + s) * US_PER_SECOND + us) / US_PER_DAY) = n) as ->
      by (unfold US_PER_DAY, US_PER_SECOND; Z.div_mod_to_equations; lia).
  assert ((((((n * 24 + h) * 60 + mi) * 60 + s) * US_PER_SECOND + us) mod US_PER_DAY)
          = ((h * 60 + mi) * 60 + s) * US_PER_SECOND + us) as ->
      by (unfold US_PER_DAY, US_PER_SECOND; Z.div_mod_to_equations; lia).
  subst n. rewrite ord2ymd_ymd2ord by lia.
  assert ((((h * 60 + mi) * 60 + s) * US_PER_SECOND + us) / US_PER_SECOND
          = (h * 60 + mi) * 60 + s) as ->
      by (unfold US_PER_SECOND; Z.div_mod_to_equations; lia).
  f_equal; unfold US_PER_SECOND; Z.div_mod_to_equations; lia.
Qed.

(** Such a datetime lies in the years 1 to 9999. *)
Lemma in_range_to_us (d : datetime) : valid d = true -> in_range (to_us d) = true.
Proof.
  intros Hv. unfold valid in Hv.
  repeat match goal with
         | H : (_ && _)%bool = true |- _ => apply andb_true_iff in H as [H ?]
         | H : (_ <=? _) = true |- _ => apply Z.leb_le in H
         end.
  destruct d as [y m dd h mi s us].
  cbn [year month day hour minute second microsecond] in *.
  assert (1 <= ymd2ord y m dd <= MAXORDINAL) as Hord.
  { rewrite days_in_month_leap in *.
    destruct (year_cycles y) as (a & b & c & e & Hy & Hb & Hc & He & _).
    unfold ymd2ord, days_before_month.
    rewrite Hy at 1 2. rewrite Hy in *.
    rewrite days_before_year_cycles by lia.
    rewrite is_leap_cycles in * by lia.
    set (leap := ((e =? 3) && (negb (c =? 24) || (b =? 3)))%bool) in *.
    destruct (month_and_day_back leap m dd) as [Hr _]; [lia|lia|].
    assert (leap = true -> e = 3) as Hleap.
    { subst leap. intros Hl. apply andb_true_iff in Hl as [He3 _]. by apply Z.eqb_eq. }
    clearbody leap. unfold DI400Y, DI100Y, DI4Y, MAXORDINAL.
    destruct leap; [specialize (Hleap eq_refl)|]; lia. }
  unfold in_range, to_us. cbn [year month day hour minute second microsecond].
  set (n := ymd2ord y m dd) in *.
  assert ((((((n * 24 + h) * 60 + mi) * 60 + s) * US_PER_SECOND + us) / US_PER_DAY) = n) as ->
      by (unfold US_PER_DAY, US_PER_SECOND; Z.div_mod_to_equations; lia).
  apply andb_true_iff. split; [apply Z.ltb_lt|apply Z.leb_le]; lia.
Qed.

(** Reading the text of a datetime of the constructor's ranges gives the
    datetime of its count of microseconds. *)
Lemma fromisoformat_isoformat (host : Z) (d : datetime) :
  valid d = true ->
  in_range (to_us d - MOSCOW_UTCOFFSET) = true ->
  fromisoformat_moscow host (isoformat d) = Ok (of_us (to_us d)).
Proof.
  intros Hv Hutc. unfold fromisoformat_moscow.
  rewrite (parse_iso_isoformat d Hv), Hv, Hutc. cbn [negb].
  replace (to_us d - MOSCOW_UTCOFFSET + MOSCOW_UTCOFFSET) with (to_us d) by lia.
  by rewrite (in_range_to_us d Hv).
Qed.

(** X7. What [isoformat] writes, [fromisoformat] reads back: for every
    datetime of the constructor's ranges whose instant in UTC is
    representable too, reading the text and converting to the Moscow
    clock gives the datetime itself, whatever the zone of the host. *)
Theorem isoformat_reads_back (host : Z) (d : datetime) :
  valid d = true ->
  in_range (to_us d - MOSCOW_UTCOFFSET) = true ->
  fromisoformat_moscow host (isoformat d) = Ok d.
Proof.
  intros Hv Hutc. rewrite (fromisoformat_isoformat host d Hv Hutc).
  f_equal. by apply of_us_to_us.
Qed.

Lemma isoformat_reads_back_witness :
  fromisoformat_moscow 0 (isoformat (mkdt 2024 2 29 23 59 59 250000))
  = Ok (mkdt 2024 2 29 23 59 59 250000).
Proof.
  apply (isoformat_reads_back 0 (mkdt 2024 2 29 23 59 59 250000));
    vm_compute; reflexivity.
Defined.

End RoundTrip.

Section DatesOfInstants.
Import PyStr PyTime.

(** [month_and_day] gives a month of the year and a day of that month:
    checked on each day of a common and of a leap year. *)
Lemma month_and_day_valid_table (leap : bool) :
  forallb (fun k : nat =>
             let m := fst (month_and_day leap (Z.of_nat k)) in
             let d := snd (month_and_day leap (Z.of_nat k)) in
             (1 <=? m) && (m <=? 12) && (1 <=? d)
             && (d <=? (if m =? 2 then (if leap then 29 else 28) else days_in_month 1 m)))
          (seq 0 (if leap then 366 else 365)) = true.
Proof. destruct leap; vm_compute; reflexivity. Qed.

Lemma month_and_day_valid (leap : bool) (r : Z) :
  0 <= r < 365 + (if leap then 1 else 0) ->
  1 <= fst (month_and_day leap r) <= 12 /\
  1 <= snd (month_and_day leap r)
    <= (if fst (month_and_day leap r) =? 2 then (if leap then 29 else 28)
        else days_in_month 1 (fst (month_and_day leap r))).
Proof.
  intros Hr. pose proof (month_and_day_valid_table leap) as Htab.
  rewrite forallb_forall in Htab.
  specialize (Htab (Z.to_nat r) ltac:(apply in_seq; destruct leap; lia)).
  cbv zeta in Htab. rewrite Z2Nat.id in Htab by lia.
  repeat match goal with
         | H : (_ && _)%bool = true |- _ => apply andb_true_iff in H as [H ?]
         | H : (_ <=? _) = true |- _ => apply Z.leb_le in H
         end.
  lia.
Qed.

(** The date of an ordinal of the years 1 to 9999 passes the checks of
    the constructor. *)
Lemma ord2ymd_valid (n : Z) :
  1 <= n <= MAXORDINAL ->
  1 <= fst (fst (ord2ymd n)) <= 9999 /\
  1 <= snd (fst (ord2ymd n)) <= 12 /\
  1 <= snd (ord2ymd n) <= days_in_month (fst (fst (ord2ymd n))) (snd (fst (ord2ymd n))).
Proof.
  intros Hn. unfold ord2ymd.
  set (n0 := n - 1).
  set (a := n0 / DI400Y). set (r := n0 mod DI400Y).
  set (b := r / DI100Y). set (r2 := r mod DI100Y).
  set (c := r2 / DI4Y). set (r3 := r2 mod DI4Y).
  set (e := r3 / 365). set (r4 := r3 mod 365).
  assert (n0 = DI400Y * a + r /\ 0 <= r < DI400Y) as [Hn0 Hr]
      by (subst a r; unfold DI400Y; Z.div_mod_to_equations; lia).
  assert (r = DI100Y * b + r2 /\ 0 <= r2 < DI100Y /\ 0 <= b <= 4) as (Hr' & Hr2 & Hb)
      by (subst b r2; unfold DI100Y, DI400Y in *; Z.div_mod_to_equations; lia).
  assert (r2 = DI4Y * c + r3 /\ 0 <= r3 < DI4Y /\ 0 <= c <= 24) as (Hr2' & Hr3 & Hc)
      by (subst c r3; unfold DI4Y, DI100Y in *; Z.div_mod_to_equations; lia).
  assert (r3 = 365 * e + r4 /\ 0 <= r4 < 365 /\ 0 <= e <= 4) as (Hr3' & Hr4 & He)
      by (subst e r4; unfold DI4Y in *; Z.div_mod_to_equations; lia).
  assert (0 <= n0 <= MAXORDINAL - 1) as Hn0' by (subst n0; lia).
  clearbody a r b r2 c r3 e r4 n0.
  assert (0 <= a) as Ha by (unfold DI400Y in *; lia).
  assert (400 * a + 100 * b + 4 * c + e <= 9998) as Hyear
      by (unfold DI400Y, DI100Y, DI4Y, MAXORDINAL in *; lia).
  destruct ((e =? 4) || (b =? 4))%bool eqn:Hlast.
  - cbn [fst snd]. change (days_in_month _ 12) with 31.
    apply orb_true_iff in Hlast as [H4|H4]; apply Z.eqb_eq in H4; lia.
  - apply orb_false_iff in Hlast as [He4 Hb4].
    apply Z.eqb_neq in He4, Hb4.
    set (leap := ((e =? 3) && (negb (c =? 24) || (b =? 3)))%bool).
    assert (0 <= r4 < 365 + (if leap then 1 else 0)) as Hr4' by (destruct leap; lia).
    pose proof (month_and_day_valid leap r4 Hr4') as [Hm Hd].
    destruct (month_and_day leap r4) as [m d]. cbn [fst snd] in *.
    rewrite days_in_month_leap.
    replace (a * 400 + 1 + b * 100 + c * 4 + e)
      with (400 * a + 100 * b + 4 * c + e + 1) by lia.
    rewrite is_leap_cycles by lia. fold leap. lia.
Qed.

Lemma valid_of_us (t : Z) : in_range t = true -> valid (of_us t) = true.
Proof.
  unfold in_range. intros Ht. apply andb_true_iff in Ht as [Hlo Hhi].
  apply Z.ltb_lt in Hlo. apply Z.leb_le in Hhi.
  pose proof (ord2ymd_valid (t / US_PER_DAY) ltac:(lia)) as (Hy & Hm & Hd).
  unfold of_us. destruct (ord2ymd (t / US_PER_DAY)) as [[y m] d]. cbn [fst snd] in *.
  unfold valid. cbn [year month day hour minute second microsecond].
  repeat (apply andb_true_iff; split); apply Z.leb_le; try lia;
    unfold US_PER_DAY, US_PER_SECOND; Z.div_mod_to_equations; lia.
Qed.

(** The sum of a datetime and a period passes the checks of the
    constructor and holds the sum of the microseconds. *)
Lemma add_valid (d d' : datetime) (delta : Z) :
  add d delta = Ok d' -> valid d' = true /\ to_us d' = to_us d + delta.
Proof.
  intros H. split; [|by apply add_to_us].
  revert H. unfold add. destruct (in_range (to_us d + delta)) eqn:Hr; [|discriminate].
  intros [= <-]. by apply valid_of_us.
Qed.

Lemma isoformat_not_empty (d : datetime) : String.eqb (isoformat d) "" = false.
Proof.
  apply String.eqb_neq. intros H. apply (f_equal chars) in H.
  rewrite chars_isoformat in H. apply (f_equal length) in H.
  rewrite !length_app, length_zpad_chars in H. cbn in H. lia.
Qed.

End DatesOfInstants.

Section DueAgain.
Import PyStr PyTime Store FS World Worker Outcome.

(** When an entry whose [next_backup] is the text of [next] is due. *)
Lemma is_due_isoformat (later next : datetime) (host : Z) (f : entry) :
  next_backup f = Some (isoformat next) ->
  valid next = true ->
  in_range (to_us next - MOSCOW_UTCOFFSET) = true ->
  is_due later host f = (to_us next <=? to_us later).
Proof.
  intros Hnb Hv Hutc. unfold is_due, scheduled.
  rewrite Hnb, isoformat_not_empty, (fromisoformat_isoformat host next Hv Hutc).
  unfold ge. by rewrite to_us_of_us.
Qed.

(** X8. After a backup made at the clock reading [now], the entry is due
    again exactly from [now] plus its period on: a tick before that
    instant finds it not due, a tick at or after it finds it due,
    whatever the zone of the host. (The instant must be representable in
    UTC, three hours earlier.) *)
Theorem backed_up_entry_due_after_period
        (now : datetime) (w : world) (files : list entry)
        (i : nat) (f : entry) (wi : world) (ui : bool) :
  json_load (files_on_disk w) FILES_JSON = Ok files ->
  files !! i = Some f ->
  reached now files w false !! i = Some (wi, ui) ->
  backed_up now f wi = true ->
  in_range (to_us now
            + Spec.period (default 1 (period_value f)) (default "hours" (period_unit f))
              * US_PER_SECOND
            - MOSCOW_UTCOFFSET) = true ->
  exists stored f',
    json_load (files_on_disk (check_backups now w)) FILES_JSON = Ok stored /\
    stored !! i = Some f' /\
    forall (later : datetime) (host : Z),
      is_due later host f'
      = (to_us now
         + Spec.period (default 1 (period_value f)) (default "hours" (period_unit f))
           * US_PER_SECOND
         <=? to_us later).
Proof.
  intros Hload Hf Hr Hb Hutc.
  destruct (stored_after_tick now w files Hload) as (files' & w' & Hloop & Hstored).
  rewrite (backed_up_in_tick_at _ _ _ _ _ _ _ Hf Hr Hb) in Hstored, Hloop.
  destruct (for_file_in_lookup _ _ _ _ _ _ _ Hloop) as [_ Hlk].
  specialize (Hlk _ _ _ _ Hf Hr).
  destruct (backed_up_completed _ _ _ Hb)
    as (text & next & t1 & t2 & written & c & next' & _ & _ & _ & _ & _ & _ & _ & Hnt & Hafter).
  rewrite (after_flag now f wi ui), Hafter in Hlk. cbn [file] in Hlk.
  apply next_time_spec, add_valid in Hnt as [Hv Hus].
  exists files', (set_next_backup (isoformat next') (recorded now f)).
  split; [exact Hstored|]. split; [exact Hlk|].
  intros later host. rewrite <- Hus.
  apply is_due_isoformat; [reflexivity|exact Hv|by rewrite Hus].
Qed.

Lemma backed_up_entry_due_after_period_witness :
  exists stored f',
    json_load (files_on_disk (check_backups Samples.morning (Samples.world_of [Samples.report])))
              FILES_JSON = Ok stored /\
    stored !! 0%nat = Some f' /\
    forall (later : datetime) (host : Z),
      is_due later host f'
      = (to_us Samples.morning + Spec.period 30 "seconds" * US_PER_SECOND <=? to_us later).
Proof.
  apply (backed_up_entry_due_after_period
           Samples.morning (Samples.world_of [Samples.report]) [Samples.report]
           0 Samples.report (Samples.world_of [Samples.report]) false);
    vm_compute; reflexivity.
Defined.

End DueAgain.

Section BackendUploads.
Import PyStr PyTime Store FS World Backend.

Lemma write_file_ok (t t' : fs) (p : string) (c : content) :
  write_file t p c = Ok t' -> t' = <[p := File c]> t /\ t !! p <> Some Dir.
Proof.
  unfold write_file, open_w, put, res_bind, parent_check.
  destruct (t !! p) as [[c0|]|] eqn:Hp; try discriminate.
  - intros [= <-]. by rewrite insert_insert_eq.
  - destruct (String.eqb (dirname p) "").
    + intros [= <-]. by rewrite insert_insert_eq.
    + destruct (t !! dirname p) as [[?|]|]; try discriminate.
      intros [= <-]. by rewrite insert_insert_eq.
Qed.

Lemma uploads_not_store (filename : string) : "uploads/" +:+ filename <> FILES_JSON.
Proof. intros H. apply (f_equal (String.get 0)) in H. discriminate. Qed.

(** The backend's period is the specification's. *)
Lemma first_backup_spec (now next : datetime) (period_value : Z) (period_unit : string) :
  first_backup now period_value period_unit = Ok next ->
  add now (Spec.period period_value period_unit * US_PER_SECOND) = Ok next.
Proof.
  unfold first_backup.
  assert (forall d h m s x,
             d * 86400 + h * 3600 + m * 60 + s = x ->
             res_bind (timedelta d h m s) (add now) = Ok next ->
             add now (x * US_PER_SECOND) = Ok next) as Hcase.
  { intros d h m s x <-. unfold timedelta, res_bind.
    by destruct (_ >? _). }
  unfold Spec.period.
  destruct (String.eqb period_unit "seconds"); [apply Hcase; lia|].
  destruct (String.eqb period_unit "minutes"); [apply Hcase; lia|].
  destruct (String.eqb period_unit "hours"); [apply Hcase; lia|].
  destruct (String.eqb period_unit "days"); [apply Hcase; lia|].
  apply Hcase; lia.
Qed.

(** A period that passes the two checks of [upload_file]. *)
Lemma upload_file_accepted (filename : string) (data : content)
      (period_value : Z) (period_unit : string) (now : datetime) (w : world) :
  1 <= period_value ->
  (period_unit = "seconds" -> 30 <= period_value) ->
  upload_file filename data period_value period_unit now w
  = match upload_body filename data period_value period_unit now w with
    | (Ok r, w') => (r, w')
    | (Raise e, w') => (ErrorOf e, log_message (UploadError e) w')
    end.
Proof.
  intros H1 H30. unfold upload_file.
  destruct (String.eqb_spec period_unit "seconds") as [Hs|Hs]; cbn [andb].
  - destruct (Z.ltb_spec period_value 30); [specialize (H30 Hs); lia|].
    destruct (Z.ltb_spec period_value 1); [lia|reflexivity].
  - destruct (Z.ltb_spec period_value 1); [lia|reflexivity].
Qed.

(** The store after any upload: as it was, or with one more entry whose
    id is the new length of the collection. *)
Lemma upload_file_store (filename : string) (data : content)
      (period_value : Z) (period_unit : string) (now : datetime) (w : world)
      (files : list entry) :
  json_load (files_on_disk w) FILES_JSON = Ok files ->
  json_load (files_on_disk (snd (upload_file filename data period_value period_unit now w)))
            FILES_JSON = Ok files \/
  exists e,
    json_load (files_on_disk (snd (upload_file filename data period_value period_unit now w)))
              FILES_JSON = Ok (files ++ [e])%list /\
    file_id e = Z.of_nat (length files) + 1.
Proof.
  intros Hload. pose proof Hload as Hstore. apply json_load_ok in Hstore.
  unfold upload_file.
  destruct (_ && _)%bool; [by left|].
  destruct (period_value <? 1); [by left|].
  unfold upload_body.
  destruct (write_file (files_on_disk w) ("uploads/" +:+ filename) data) as [t|e] eqn:Hw;
    [|by left].
  apply write_file_ok in Hw as [-> _].
  cbn [files_on_disk with_write].
  assert ((<["uploads/" +:+ filename := File data]> (files_on_disk w)) !! FILES_JSON
          = Some (File (Collection files))) as Hstore'.
  { rewrite lookup_insert_ne; [exact Hstore|apply uploads_not_store]. }
  rewrite (proj2 (json_load_ok _ _ _) Hstore').
  destruct (first_backup now period_value period_unit) as [next|e].
  - rewrite (write_file_over _ _ _ _ Hstore'). cbn [snd]. right.
    eexists. cbn [files_on_disk log_message with_write].
    rewrite (proj2 (json_load_ok _ _ _) (lookup_insert_eq _ _ _)).
    split; reflexivity.
  - cbn [snd]. left. cbn [files_on_disk log_message with_write].
    by rewrite (proj2 (json_load_ok _ _ _) Hstore').
Qed.

(** X9. An accepted upload under a plain file name (no slash, not [.] or
    [..]) whose file can be written, on a readable store: the file
    stands under [uploads/] with the uploaded content, whatever stood
    there before; the store holds the collection with one more entry at
    its end, whose id is the new length of the collection, whose count is
    zero and whose history is empty; and the entry falls due for the
    first time at the clock reading of the upload plus its period, not
    before (that instant being representable in UTC). A file name with
    [..] in it can name the store itself and is outside this
    statement. *)
Theorem upload_registers_entry
        (filename : string) (data : content) (period_value : Z) (period_unit : string)
        (now next : datetime) (w : world) (files : list entry) (t : fs) :
  Paths.plain_name filename = true ->
  1 <= period_value ->
  (period_unit = "seconds" -> 30 <= period_value) ->
  write_file (files_on_disk w) ("uploads/" +:+ filename) data = Ok t ->
  json_load (files_on_disk w) FILES_JSON = Ok files ->
  first_backup now period_value period_unit = Ok next ->
  in_range (to_us next - MOSCOW_UTCOFFSET) = true ->
  let id := Z.of_nat (length files) + 1 in
  let e := mkentry id filename ("uploads/" +:+ filename) (isoformat now)
                   (Some period_value) (Some period_unit)
                   (Some (isoformat next)) None (Some 0) (Some []) in
  exists w',
    upload_file filename data period_value period_unit now w
    = (FileUploaded id filename, w') /\
    get_files w' = (files ++ [e])%list /\
    files_on_disk w' !! ("uploads/" +:+ filename) = Some (File data) /\
    to_us next = to_us now + Spec.period period_value period_unit * US_PER_SECOND /\
    forall (later : datetime) (host : Z),
      Worker.is_due later host e = (to_us next <=? to_us later).
Proof.
  intros _ H1 H30 Hw Hload Hnext Hutc id e.
  pose proof Hload as Hstore. apply json_load_ok in Hstore.
  apply write_file_ok in Hw as Hw'. destruct Hw' as [-> _].
  assert ((<["uploads/" +:+ filename := File data]> (files_on_disk w)) !! FILES_JSON
          = Some (File (Collection files))) as Hstore'.
  { rewrite lookup_insert_ne; [exact Hstore|apply uploads_not_store]. }
  rewrite upload_file_accepted by assumption.
  unfold upload_body. rewrite Hw. cbn [files_on_disk with_write].
  rewrite (proj2 (json_load_ok _ _ _) Hstore'), Hnext.
  rewrite (write_file_over _ _ _ _ Hstore').
  eexists. split; [reflexivity|].
  apply first_backup_spec, add_valid in Hnext as [Hv Hus].
  split; [|split; [|split; [exact Hus|]]].
  - unfold get_files. cbn [files_on_disk log_message with_write].
    by rewrite (proj2 (json_load_ok _ _ _) (lookup_insert_eq _ _ _)).
  - cbn [files_on_disk log_message with_write].
    rewrite lookup_insert_ne by (apply not_eq_sym, uploads_not_store).
    apply lookup_insert_eq.
  - intros later host. by apply is_due_isoformat.
Qed.

Lemma upload_registers_entry_witness :
  exists w',
    upload_file "a.txt" (Text "A") 2 "days" Samples.morning Samples.installed
    = (FileUploaded 1 "a.txt", w') /\
    get_files w'
    = [mkentry 1 "a.txt" "uploads/a.txt" (isoformat Samples.morning)
               (Some 2) (Some "days") (Some (isoformat (mkdt 2024 5 3 10 0 35 0)))
               None (Some 0) (Some [])] /\
    files_on_disk w' !! "uploads/a.txt" = Some (File (Text "A")) /\
    to_us (mkdt 2024 5 3 10 0 35 0)
    = to_us Samples.morning + Spec.period 2 "days" * US_PER_SECOND /\
    forall (later : datetime) (host : Z),
      Worker.is_due later host
        (mkentry 1 "a.txt" "uploads/a.txt" (isoformat Samples.morning)
                 (Some 2) (Some "days") (Some (isoformat (mkdt 2024 5 3 10 0 35 0)))
                 None (Some 0) (Some []))
      = (to_us (mkdt 2024 5 3 10 0 35 0) <=? to_us later).
Proof.
  apply (upload_registers_entry "a.txt" (Text "A") 2 "days" Samples.morning
           (mkdt 2024 5 3 10 0 35 0) Samples.installed []
           (<["uploads/a.txt" := File (Text "A")]> (files_on_disk Samples.installed)));
    try lia; try discriminate; vm_compute; reflexivity.
Defined.



Lemma serve_uploads_ids (rs : list request) :
  forall (w : world) (files : list entry),
    (forall id, ~ In (Delete id) rs) ->
    json_load (files_on_disk w) FILES_JSON = Ok files ->
    map file_id files = map Z.of_nat (seq 1 (length files)) ->
    exists stored,
      json_load (files_on_disk (serve rs w)) FILES_JSON = Ok stored /\
      map file_id stored = map Z.of_nat (seq 1 (length stored)) /\
      (length files <= length stored <= length files + length rs)%nat.
Proof.
  induction rs as [|r rs IH]; intros w files Hall Hload Hids.
  - exists files. cbn [serve fold_left length]. repeat split; [exact Hload|exact Hids|lia|lia].
  - destruct r as [fn data pv pu now|id]; [|destruct (Hall id); by left].
    change (serve (Upload fn data pv pu now :: rs) w)
      with (serve rs (snd (upload_file fn data pv pu now w))).
    set (w1 := snd (upload_file fn data pv pu now w)).
    assert (exists files1,
               json_load (files_on_disk w1) FILES_JSON = Ok files1 /\
               map file_id files1 = map Z.of_nat (seq 1 (length files1)) /\
               (length files <= length files1 <= S (length files))%nat)
      as (files1 & Hload1 & Hids1 & Hlen1).
    { destruct (upload_file_store fn data pv pu now w files Hload) as [Hsame|(e & Happ & He)].
      - exists files. split; [exact Hsame|split; [exact Hids|lia]].
      - exists (files ++ [e])%list. split; [exact Happ|].
        rewrite length_app. cbn [length]. split; [|lia].
        rewrite map_app, Hids. cbn [map]. rewrite He.
        replace (length files + 1)%nat with (S (length files)) by lia.
        rewrite seq_S, map_app. cbn [map]. f_equal. f_equal. f_equal. lia. }
    destruct (IH w1 files1) as (stored & Hst & Hids' & Hlen);
      [intros id Hin; apply (Hall id); by right|exact Hload1|exact Hids1|].
    exists stored. repeat split; try assumption; cbn [length]; lia.
Qed.

(** X11. As long as nothing is deleted, the ids are the positions: on a
    store whose entries are numbered 1, 2, ... in order, any sequence of
    uploads under plain file names (no slash, not [.] or [..]), accepted
    or not, successful or not, leaves a store numbered in the same way,
    so that no two entries share an id. Each upload adds at most one
    entry. *)
Theorem uploads_number_consecutively
        (rs : list request) (w : world) (files : list entry) :
  (forall id, ~ In (Delete id) rs) ->
  (forall fn data pv pu now,
      In (Upload fn data pv pu now) rs -> Paths.plain_name fn = true) ->
  json_load (files_on_disk w) FILES_JSON = Ok files ->
  map file_id files = map Z.of_nat (seq 1 (length files)) ->
  ids (serve rs w) = map Z.of_nat (seq 1 (length (ids (serve rs w)))) /\
  NoDup (ids (serve rs w)) /\
  (length files <= length (ids (serve rs w)) <= length files + length rs)%nat.
Proof.
  intros Hall _ Hload Hids.
  destruct (serve_uploads_ids rs w files Hall Hload Hids) as (stored & Hst & Hids' & Hlen).
  unfold ids, get_files. rewrite Hst, length_map.
  split; [exact Hids'|]. split; [|exact Hlen].
  rewrite Hids'. apply NoDup_fmap_2; [intros x y; apply Nat2Z.inj|apply NoDup_seq].
Qed.

Lemma uploads_number_consecutively_witness :
  ids (serve [Upload "a.txt" (Text "A") 1 "hours" Samples.morning;
              Upload "b.txt" (Text "B") 5 "seconds" Samples.morning;
              Upload "a.txt" (Text "C") 2 "days" Samples.morning] Samples.installed)
  = map Z.of_nat
        (seq 1 (length (ids (serve [Upload "a.txt" (Text "A") 1 "hours" Samples.morning;
                                    Upload "b.txt" (Text "B") 5 "seconds" Samples.morning;
                                    Upload "a.txt" (Text "C") 2 "days" Samples.morning]
                                   Samples.installed)))) /\
  NoDup (ids (serve [Upload "a.txt" (Text "A") 1 "hours" Samples.morning;
                     Upload "b.txt" (Text "B") 5 "seconds" Samples.morning;
                     Upload "a.txt" (Text "C") 2 "days" Samples.morning] Samples.installed)) /\
  (length (@nil entry)
   <= length (ids (serve [Upload "a.txt" (Text "A") 1 "hours" Samples.morning;
                          Upload "b.txt" (Text "B") 5 "seconds" Samples.morning;
                          Upload "a.txt" (Text "C") 2 "days" Samples.morning]
                         Samples.installed))
   <= length (@nil entry) + 3)%nat.
Proof.
  apply (uploads_number_consecutively
           [Upload "a.txt" (Text "A") 1 "hours" Samples.morning;
            Upload "b.txt" (Text "B") 5 "seconds" Samples.morning;
            Upload "a.txt" (Text "C") 2 "days" Samples.morning]
           Samples.installed []).
  - intros id [H|[H|[H|[]]]]; discriminate.
  - intros fn data pv pu now [H|[H|[H|[]]]]; injection H as <- _ _ _ _;
      vm_compute; reflexivity.
  - vm_compute. reflexivity.
  - reflexivity.
Defined.

End BackendUploads.

Section BackendDeletes.
Import PyStr PyTime Store FS World Backend.




(** X13. Two entries under one id, with different source paths:
    [delete_file] takes both out of the store but removes the source of
    the first only; the source of the second stays on the disk, and when
    no entry of another id has that path, it is tracked by no entry.
    The provisos: the source path of the first entry names a regular
    file or nothing; neither path is the store; both are spelled without
    [.], [..] and empty components, so that the two spellings are two
    files. *)
Theorem delete_orphans_source_of_repeated_id
        (id : Z) (w : world) (files : list entry) (f g : entry) :
  json_load (files_on_disk w) FILES_JSON = Ok files ->
  find_by_id id files = Some f ->
  files_on_disk w !! path f <> Some Dir ->
  path f <> FILES_JSON ->
  Paths.normal (path f) = true ->
  In g files -> file_id g = id ->
  path g <> path f -> path g <> FILES_JSON ->
  Paths.normal (path g) = true ->
  (forall h, In h files -> path h = path g -> file_id h = id) ->
  exists w',
    delete_file id w = (FileDeleted, w') /\
    ~ In g (get_files w') /\
    (forall h, In h (get_files w') -> path h <> path g) /\
    files_on_disk w' !! path f = None /\
    files_on_disk w' !! path g = files_on_disk w !! path g.
Proof.
  intros Hload Hfind Hnodir Hnostore _ Hg Hid Hpath Hgstore _ Honly.
  pose proof Hload as Hstore. apply json_load_ok in Hstore.
  set (kept := filter (fun h => file_id h <> id) files).
  assert (forall h, In h kept -> In h files /\ file_id h <> id) as Hkept.
  { intros h Hh. apply list_elem_of_In in Hh.
    apply list_elem_of_filter in Hh as [Hh Hin]. split; [|exact Hh].
    by apply list_elem_of_In. }
  assert (exists w',
             delete_file id w = (FileDeleted, w') /\ get_files w' = kept /\
             files_on_disk w' !! path f = None /\
             files_on_disk w' !! path g = files_on_disk w !! path g)
    as (w' & Hdel & Hget & Hf & Hgone).
  { unfold delete_file, delete_body. rewrite Hload, Hfind.
    unfold exists_, remove.
    destruct (files_on_disk w !! path f) as [[c|]|] eqn:Hsrc; [| congruence |].
    - cbn [files_on_disk with_write].
      rewrite (write_file_over _ _ (Collection files))
        by (rewrite lookup_delete_ne by done; exact Hstore).
      fold kept. eexists. split; [reflexivity|].
      unfold get_files. cbn [files_on_disk log_message with_write].
      rewrite (proj2 (json_load_ok _ _ kept)) by apply lookup_insert_eq.
      split; [reflexivity|]. split.
      + rewrite lookup_insert_ne by done. apply lookup_delete_eq.
      + rewrite lookup_insert_ne by done. by apply lookup_delete_ne.
    - rewrite (write_file_over _ _ (Collection files)) by exact Hstore.
      fold kept. eexists. split; [reflexivity|].
      unfold get_files. cbn [files_on_disk log_message with_write].
      rewrite (proj2 (json_load_ok _ _ kept)) by apply lookup_insert_eq.
      split; [reflexivity|]. split.
      + rewrite lookup_insert_ne by done. exact Hsrc.
      + by rewrite lookup_insert_ne by done. }
  exists w'. split; [exact Hdel|]. rewrite Hget.
  split; [intros Hin; by apply (proj2 (Hkept g Hin))|].
  split; [|by split].
  intros h Hh Hsame. destruct (Hkept h Hh) as [Hin Hne]. apply Hne. by apply Honly.
Qed.

Lemma delete_orphans_source_of_repeated_id_witness :
  exists w',
    delete_file 1 (Samples.world_of [Samples.report; Twins.notes_as_one]) = (FileDeleted, w') /\
    ~ In Twins.notes_as_one (get_files w') /\
    (forall h, In h (get_files w') -> path h <> path Twins.notes_as_one) /\
    files_on_disk w' !! path Samples.report = None /\
    files_on_disk w' !! path Twins.notes_as_one
    = files_on_disk (Samples.world_of [Samples.report; Twins.notes_as_one])
        !! path Twins.notes_as_one.
Proof.
  apply (delete_orphans_source_of_repeated_id
           1 (Samples.world_of [Samples.report; Twins.notes_as_one])
           [Samples.report; Twins.notes_as_one] Samples.report Twins.notes_as_one);
    try (vm_compute; reflexivity); try discriminate.
  - right. by left.
  - intros h [<-|[<-|[]]]; [discriminate|reflexivity].
Defined.

(** X14. An entry whose source path names a directory cannot be deleted:
    [os.remove] raises, [delete_file] answers with the error and logs it,
    and the disk, the store and hence the entry are what they were. *)
Theorem delete_of_directory_source_fails
        (id : Z) (w : world) (files : list entry) (f : entry) :
  json_load (files_on_disk w) FILES_JSON = Ok files ->
  find_by_id id files = Some f ->
  files_on_disk w !! path f = Some Dir ->
  delete_file id w
  = (ErrorOf (IsADirectoryError (path f)),
     log_message (DeleteError (IsADirectoryError (path f))) w) /\
  get_files (snd (delete_file id w)) = files.
Proof.
  intros Hload Hfind Hdir.
  assert (delete_file id w
          = (ErrorOf (IsADirectoryError (path f)),
             log_message (DeleteError (IsADirectoryError (path f))) w)) as Hdel.
  { unfold delete_file, delete_body. rewrite Hload, Hfind.
    unfold exists_, remove. by rewrite Hdir. }
  split; [exact Hdel|]. rewrite Hdel. unfold get_files.
  cbn [snd files_on_disk log_message]. by rewrite Hload.
Qed.

Lemma delete_of_directory_source_fails_witness :
  delete_file 7 (Samples.world_of [Twins.folder])
  = (ErrorOf (IsADirectoryError (path Twins.folder)),
     log_message (DeleteError (IsADirectoryError (path Twins.folder)))
       (Samples.world_of [Twins.folder])) /\
  get_files (snd (delete_file 7 (Samples.world_of [Twins.folder]))) = [Twins.folder].
Proof.
  apply (delete_of_directory_source_fails
           7 (Samples.world_of [Twins.folder]) [Twins.folder] Twins.folder);
    vm_compute; reflexivity.
Defined.

End BackendDeletes.

Section BackendStartup.
Import PyStr PyTime Store FS World Backend.

(** [os.makedirs] of a name without a slash. *)
Lemma makedirs_top (t t' : fs) (name : string) :
  dirname name = "" -> basename name = name -> String.eqb name "" = false ->
  makedirs t name = Ok t' ->
  t' !! name = Some Dir /\ (t' = t \/ t' = <[name := Dir]> t).
Proof.
  intros Hdir Hbase Hne. unfold makedirs. cbn [makedirs_fuel].
  rewrite Hbase, Hne, Hdir. change (String.eqb "" "") with true. cbn [negb andb].
  destruct (mkdir t name) as [t2|e] eqn:Hmk.
  - intros [= <-]. apply mkdir_ok in Hmk as [_ ->].
    split; [apply lookup_insert_eq|by right].
  - unfold isdir. destruct (t !! name) as [[c|]|] eqn:Hn; try discriminate.
    intros [= <-]. split; [exact Hn|by left].
Qed.

(** X15. The start-up of the backend, when it succeeds, destroys
    nothing: every file and directory stays what it was, the four
    directories [logs], [uploads], [backups] and [data] are there, and so
    is the store. A store that was there is not written: a restart keeps
    the collection. *)
Theorem startup_keeps_what_is_there (w w' : world) :
  startup w = Ok w' ->
  (forall p x, files_on_disk w !! p = Some x -> files_on_disk w' !! p = Some x) /\
  Forall (fun d => files_on_disk w' !! d = Some Dir) ["logs"; "uploads"; "backups"; "data"] /\
  exists_ (files_on_disk w') FILES_JSON = true /\
  (exists_ (files_on_disk w) FILES_JSON = true -> journal w' = journal w) /\
  (exists_ (files_on_disk w) FILES_JSON = false ->
   get_files w' = [] /\
   journal w' = (journal w ++ [Written FILES_JSON (Collection [])])%list).
Proof.
  unfold startup, res_bind.
  destruct (makedirs (files_on_disk w) "logs") as [t1|e] eqn:H1; [|discriminate].
  destruct (makedirs t1 "uploads") as [t2|e] eqn:H2; [|discriminate].
  destruct (makedirs t2 "backups") as [t3|e] eqn:H3; [|discriminate].
  destruct (makedirs t3 "data") as [t4|e] eqn:H4; [|discriminate].
  assert (forall p x, files_on_disk w !! p = Some x -> t4 !! p = Some x) as Hkeep.
  { intros p x Hp.
    eapply makedirs_keeps; [exact H4|]. eapply makedirs_keeps; [exact H3|].
    eapply makedirs_keeps; [exact H2|]. eapply makedirs_keeps; [exact H1|]. exact Hp. }
  assert (Forall (fun d => t4 !! d = Some Dir) ["logs"; "uploads"; "backups"; "data"]) as Hdirs.
  { destruct (makedirs_top _ _ "logs" eq_refl eq_refl eq_refl H1) as [D1 _].
    destruct (makedirs_top _ _ "uploads" eq_refl eq_refl eq_refl H2) as [D2 _].
    destruct (makedirs_top _ _ "backups" eq_refl eq_refl eq_refl H3) as [D3 _].
    destruct (makedirs_top _ _ "data" eq_refl eq_refl eq_refl H4) as [D4 _].
    repeat constructor.
    - eapply makedirs_keeps; [exact H4|]. eapply makedirs_keeps; [exact H3|].
      eapply makedirs_keeps; [exact H2|]. exact D1.
    - eapply makedirs_keeps; [exact H4|]. eapply makedirs_keeps; [exact H3|]. exact D2.
    - eapply makedirs_keeps; [exact H4|]. exact D3.
    - exact D4. }
  assert (exists_ t4 FILES_JSON = exists_ (files_on_disk w) FILES_JSON) as Hstore.
  { unfold exists_.
    assert (forall (t t' : fs) name,
               makedirs t name = Ok t' -> name <> FILES_JSON ->
               dirname name = "" -> basename name = name -> String.eqb name "" = false ->
               t' !! FILES_JSON = t !! FILES_JSON) as Hstep.
    { intros t t' name Hmk Hne Hd Hb He.
      destruct (makedirs_top _ _ _ Hd Hb He Hmk) as [_ [->| ->]]; [reflexivity|].
      by apply lookup_insert_ne. }
    rewrite (Hstep _ _ _ H4), (Hstep _ _ _ H3), (Hstep _ _ _ H2), (Hstep _ _ _ H1);
      done. }
  destruct (exists_ t4 FILES_JSON) eqn:Hex; cbn [negb].
  - intros [= <-]. cbn [files_on_disk journal with_fs].
    split; [exact Hkeep|]. split; [exact Hdirs|]. split; [exact Hex|].
    split; [reflexivity|]. rewrite <- Hstore. discriminate.
  - destruct (write_file t4 FILES_JSON (Collection [])) as [t5|e] eqn:Hw; [|discriminate].
    intros [= <-]. cbn [files_on_disk journal with_write].
    apply write_file_ok in Hw as [-> _].
    assert (t4 !! FILES_JSON = None) as Hnone
        by (unfold exists_ in Hex; by destruct (t4 !! FILES_JSON)).
    split; [|split; [|split; [|split]]].
    + intros p x Hp. specialize (Hkeep p x Hp).
      rewrite lookup_insert_ne; [exact Hkeep|]. intros <-. congruence.
    + eapply Forall_impl; [exact Hdirs|]. intros d Hd. cbn beta in Hd.
      rewrite lookup_insert_ne; [exact Hd|]. intros <-. congruence.
    + unfold exists_. by rewrite lookup_insert_eq.
    + rewrite <- Hstore. discriminate.
    + intros _. split; [|reflexivity]. unfold get_files.
      cbn [files_on_disk with_write].
      by rewrite (proj2 (json_load_ok _ _ _) (lookup_insert_eq _ _ _)).
Qed.

Lemma startup_keeps_what_is_there_witness :
  (forall p x, files_on_disk (Samples.world_of [Samples.report]) !! p = Some x ->
               files_on_disk (Samples.world_of [Samples.report]) !! p = Some x) /\
  Forall (fun d => files_on_disk (Samples.world_of [Samples.report]) !! d = Some Dir)
         ["logs"; "uploads"; "backups"; "data"] /\
  exists_ (files_on_disk (Samples.world_of [Samples.report])) FILES_JSON = true /\
  (exists_ (files_on_disk (Samples.world_of [Samples.report])) FILES_JSON = true ->
   journal (Samples.world_of [Samples.report]) = journal (Samples.world_of [Samples.report])) /\
  (exists_ (files_on_disk (Samples.world_of [Samples.report])) FILES_JSON = false ->
   get_files (Samples.world_of [Samples.report]) = [] /\
   journal (Samples.world_of [Samples.report])
   = (journal (Samples.world_of [Samples.report]) ++ [Written FILES_JSON (Collection [])])%list).
Proof.
  apply (startup_keeps_what_is_there (Samples.world_of [Samples.report])
           (Samples.world_of [Samples.report])).
  vm_compute. reflexivity.
Defined.

End BackendStartup.

Section ServingArchives.
Import PyStr PyTime Store FS World Worker Outcome Download.

(** X16. [download_backup] never answers 404: the exception that line
    194 raises for a missing archive is caught by the handler of the same
    function, and the client gets status 500. An archive that is there is
    answered with its path under [backups/]. *)
Theorem download_answers_500_for_missing_archive (date filename : string) (w : world) :
  download_backup date filename w <> HTTPError 404 /\
  (exists_ (files_on_disk w) ("backups/" +:+ date +:+ "/" +:+ filename) = false ->
   download_backup date filename w = HTTPError 500) /\
  (exists_ (files_on_disk w) ("backups/" +:+ date +:+ "/" +:+ filename) = true ->
   download_backup date filename w
   = FileResponse ("backups/" +:+ date +:+ "/" +:+ filename) filename).
Proof.
  unfold download_backup, download_body.
  destruct (exists_ _ _); repeat split; try discriminate; reflexivity.
Qed.

Lemma download_answers_500_for_missing_archive_witness :
  download_backup "2024-05-01" "report_10-00-35.txt" (Samples.world_of [Samples.report])
  = HTTPError 500.
Proof.
  apply (download_answers_500_for_missing_archive
           "2024-05-01" "report_10-00-35.txt" (Samples.world_of [Samples.report])).
  vm_compute. reflexivity.
Defined.





End ServingArchives.

Section Dashboard.
Import PyStr PyTime Store FS World Worker Outcome Stats.

Lemma total_from (files : list entry) :
  forall acc, fold_left (fun total file => total + count_of file) files acc
              = acc + get_total_backup_count files.
Proof.
  unfold get_total_backup_count.
  induction files as [|f rest IH]; intros acc; cbn [fold_left]; [lia|].
  rewrite (IH (acc + count_of f)), (IH (0 + count_of f)). lia.
Qed.

Lemma total_cons (f : entry) (rest : list entry) :
  get_total_backup_count (f :: rest) = count_of f + get_total_backup_count rest.
Proof.
  unfold get_total_backup_count at 1. cbn [fold_left]. rewrite total_from. lia.
Qed.

(** The total moves with the counts. *)
Lemma total_between (files stored : list entry) :
  Forall2 (fun f g => count_of f <= count_of g <= count_of f + 1) files stored ->
  get_total_backup_count files <= get_total_backup_count stored
  <= get_total_backup_count files + Z.of_nat (length files).
Proof.
  induction 1 as [|f g files stored Hfg _ IH]; [cbn; lia|].
  rewrite !total_cons. cbn [length]. lia.
Qed.

Lemma total_counts_records (files : list entry) :
  Forall counts_agree files ->
  get_total_backup_count files = Z.of_nat (length (concat (map history_of files))).
Proof.
  induction 1 as [|f files Hf _ IH]; [reflexivity|].
  rewrite total_cons, IH. cbn [map concat]. rewrite length_app.
  unfold counts_agree in Hf. lia.
Qed.

(** X18. The total that the dashboard shows never falls over a tick and
    rises by at most one for each entry of the collection; on a
    collection whose counts are the lengths of the histories, it is after
    the tick, as before it, the number of history records. *)
Theorem dashboard_total_over_tick (now : datetime) (w : world) (files : list entry) :
  json_load (files_on_disk w) FILES_JSON = Ok files ->
  exists stored,
    json_load (files_on_disk (check_backups now w)) FILES_JSON = Ok stored /\
    get_total_backup_count files <= get_total_backup_count stored
    <= get_total_backup_count files + Z.of_nat (length files) /\
    (Forall counts_agree files ->
     get_total_backup_count stored
     = Z.of_nat (length (concat (map history_of stored)))).
Proof.
  intros Hload.
  destruct (stored_after_tick now w files Hload) as (files' & w' & Hloop & Hstored).
  eexists. split; [exact Hstored|]. split.
  - apply total_between.
    destruct (backed_up_in_tick now files w).
    + destruct (for_file_in_lookup _ _ _ _ _ _ _ Hloop) as [Hlen Hlk].
      apply Forall2_same_length_lookup. split; [by symmetry in Hlen|].
      intros i f g Hf Hg.
      destruct (reached_lookup now files w false i f Hf) as (wi & ui & Hr).
      rewrite (Hlk _ _ _ _ Hf Hr) in Hg. injection Hg as <-.
      destruct (iteration_after now f wi ui) as [_ Hends].
      destruct (ends_in_counts _ _ _ _ _ Hends) as [[-> _]|(r & -> & _)]; lia.
    + apply Forall2_same_length_lookup. split; [reflexivity|].
      intros i f g Hf Hg. rewrite Hf in Hg. injection Hg as <-. lia.
  - intros Hall. apply total_counts_records.
    destruct (tick_keeps_counts now w files Hload Hall) as (stored & Hst & Hagree).
    rewrite Hstored in Hst. injection Hst as <-. exact Hagree.
Qed.

Lemma dashboard_total_over_tick_witness :
  exists stored,
    json_load (files_on_disk
                 (check_backups Samples.morning
                                (Samples.world_of [Samples.report; Samples.ledger])))
              FILES_JSON = Ok stored /\
    get_total_backup_count [Samples.report; Samples.ledger]
    <= get_total_backup_count stored
    <= get_total_backup_count [Samples.report; Samples.ledger] + Z.of_nat 2 /\
    (Forall counts_agree [Samples.report; Samples.ledger] ->
     get_total_backup_count stored
     = Z.of_nat (length (concat (map history_of stored)))).
Proof.
  apply (dashboard_total_over_tick Samples.morning
           (Samples.world_of [Samples.report; Samples.ledger])
           [Samples.report; Samples.ledger]).
  vm_compute. reflexivity.
Defined.

Lemma insert_by_count_In (x z : entry) (l : list entry) :
  In z (insert_by_count x l) <-> z = x \/ In z l.
Proof.
  induction l as [|y rest IH]; cbn [insert_by_count In]; [intuition|].
  destruct (count_of x <? count_of y); cbn [In]; rewrite ?IH; intuition.
Qed.

Lemma insert_by_count_length (x : entry) (l : list entry) :
  length (insert_by_count x l) = S (length l).
Proof.
  induction l as [|y rest IH]; cbn [insert_by_count]; [reflexivity|].
  destruct (count_of x <? count_of y); cbn [length]; by rewrite ?IH.
Qed.

Lemma insert_by_count_descending (x : entry) (l : list entry) :
  descending (map count_of l) -> descending (map count_of (insert_by_count x l)).
Proof.
  induction l as [|y rest IH]; cbn [insert_by_count map descending].
  - intros _. split; [constructor|exact I].
  - intros [Hy Hrest]. destruct (Z.ltb_spec (count_of x) (count_of y)).
    + cbn [map descending]. split; [|by apply IH].
      apply Forall_forall. intros c Hc.
      apply list_elem_of_In, in_map_iff in Hc as (z & <- & Hz).
      apply insert_by_count_In in Hz as [->|Hz]; [lia|].
      rewrite Forall_forall in Hy. apply Hy, list_elem_of_In, in_map_iff. eauto.
    + cbn [map descending]. split; [|by split].
      constructor; [lia|]. eapply Forall_impl; [exact Hy|]. intros c Hc. cbn beta in Hc. lia.
Qed.

Lemma sorted_by_count_facts (files : list entry) :
  descending (map count_of (sorted_by_count files)) /\
  length (sorted_by_count files) = length files /\
  forall z, In z (sorted_by_count files) <-> In z files.
Proof.
  unfold sorted_by_count. induction files as [|f rest (Hd & Hl & Hin)]; cbn [fold_right].
  - split; [exact I|]. split; reflexivity.
  - split; [by apply insert_by_count_descending|].
    split; [by rewrite insert_by_count_length, Hl|].
    intros z. rewrite insert_by_count_In, Hin. cbn [In]. intuition.
Qed.

Lemma descending_take (n : nat) :
  forall l, descending l -> descending (take n l).
Proof.
  induction n as [|n IH]; intros [|x l]; cbn [take descending]; try done.
  intros [Hx Hl]. split; [by apply Forall_take|by apply IH].
Qed.

(** X19. The table of the files with the most backups: its rows come
    from entries of the collection, the counts never rise from one row to
    the next, and for a limit that is not negative there are [limit]
    rows, or as many as there are entries if these are fewer. A negative
    limit [-k] leaves out [k] entries from the end of the ranking: the
    table has [len - k] rows, and none when [k] is the number of entries
    or more. *)
Theorem top_files_descending_and_bounded (files : list entry) (limit : Z) :
  descending (map backups (get_top_files files limit)) /\
  length (get_top_files files limit)
  = (if limit <? 0 then Z.to_nat (Z.of_nat (length files) + limit)
     else Nat.min (Z.to_nat limit) (length files)) /\
  (limit <= - Z.of_nat (length files) -> get_top_files files limit = []) /\
  forall row,
    In row (get_top_files files limit) ->
    exists f, In f files /\ row = mktop (filename f) (count_of f) (last_backup f).
Proof.
  destruct (sorted_by_count_facts files) as (Hd & Hl & Hin).
  assert (length (get_top_files files limit)
          = (if limit <? 0 then Z.to_nat (Z.of_nat (length files) + limit)
             else Nat.min (Z.to_nat limit) (length files))) as Hlen.
  { unfold get_top_files, slice_to. rewrite length_map.
    destruct (Z.ltb_spec limit 0); rewrite length_take, Hl; lia. }
  split; [|split; [exact Hlen|split]].
  - unfold get_top_files, slice_to.
    set (n := if limit <? 0
              then Z.to_nat (Z.of_nat (length (sorted_by_count files)) + limit)
              else Z.to_nat limit).
    replace (if limit <? 0
             then take (Z.to_nat (Z.of_nat (length (sorted_by_count files)) + limit))
                       (sorted_by_count files)
             else take (Z.to_nat limit) (sorted_by_count files))
      with (take n (sorted_by_count files)) by (subst n; by destruct (limit <? 0)).
    rewrite map_map. cbn [backups].
    change (map (fun x => count_of x) (take n (sorted_by_count files)))
      with (count_of <$> take n (sorted_by_count files)).
    rewrite fmap_take. by apply descending_take.
  - intros Hlimit. apply length_zero_iff_nil. rewrite Hlen.
    destruct (Z.ltb_spec limit 0); lia.
  - unfold get_top_files, slice_to.
    intros row Hrow. apply in_map_iff in Hrow as (f & <- & Hf).
    exists f. split; [|reflexivity].
    apply Hin. apply list_elem_of_In.
    assert (f ∈ sorted_by_count files) as Hel; [|exact Hel].
    destruct (limit <? 0); apply list_elem_of_In in Hf;
      apply elem_of_take in Hf as (i & Hi & _); by eapply list_elem_of_lookup_2.
Qed.

Lemma top_files_descending_and_bounded_witness :
  get_top_files [Samples.report; Samples.ledger] (-2) = [].
Proof.
  apply (top_files_descending_and_bounded [Samples.report; Samples.ledger] (-2)).
  cbn. lia.
Defined.

End Dashboard.

Section LogTail.
Import Logger.

(** X20. For a number of lines of at least one, [read_log_file] gives the
    last lines of the file, that many or all of them if the file has
    fewer. *)
Theorem read_log_file_gives_the_tail (all_lines : list string) (lines : Z) :
  1 <= lines ->
  read_log_file (Some all_lines) lines
  = map Raw (drop (length all_lines - Z.to_nat lines) all_lines) /\
  length (read_log_file (Some all_lines) lines)
  = Nat.min (Z.to_nat lines) (length all_lines).
Proof.
  intros Hlines.
  assert (read_log_file (Some all_lines) lines
          = map Raw (drop (length all_lines - Z.to_nat lines) all_lines)) as Heq.
  { unfold read_log_file, slice_from. f_equal.
    destruct (Z.gtb_spec (Z.of_nat (length all_lines)) lines).
    - destruct (Z.ltb_spec (- lines) 0); [|lia]. f_equal. lia.
    - replace (length all_lines - Z.to_nat lines)%nat with 0%nat by lia. reflexivity. }
  split; [exact Heq|]. rewrite Heq, length_map, length_drop. lia.
Qed.

Lemma read_log_file_gives_the_tail_witness :
  read_log_file (Some ["a"; "b"; "c"]) 2
  = map Raw (drop (length ["a"; "b"; "c"] - Z.to_nat 2) ["a"; "b"; "c"]) /\
  length (read_log_file (Some ["a"; "b"; "c"]) 2)
  = Nat.min (Z.to_nat 2) (length ["a"; "b"; "c"]).
Proof. apply (read_log_file_gives_the_tail ["a"; "b"; "c"] 2). lia. Defined.

(** X21. A number of lines of zero or below: zero gives the whole file,
    and [-k] gives the file without its first [k] lines, which is nothing
    when the file has [k] lines or fewer. *)
Theorem read_log_file_nonpositive_lines (all_lines : list string) (lines : Z) :
  lines <= 0 ->
  read_log_file (Some all_lines) lines = map Raw (drop (Z.to_nat (- lines)) all_lines) /\
  (lines = 0 -> read_log_file (Some all_lines) lines = map Raw all_lines) /\
  (Z.of_nat (length all_lines) <= - lines -> read_log_file (Some all_lines) lines = []).
Proof.
  intros Hlines.
  assert (read_log_file (Some all_lines) lines
          = map Raw (drop (Z.to_nat (- lines)) all_lines)) as Heq.
  { unfold read_log_file, slice_from. f_equal.
    destruct (Z.gtb_spec (Z.of_nat (length all_lines)) lines).
    - destruct (Z.ltb_spec (- lines) 0); [lia|reflexivity].
    - assert (lines = 0 /\ length all_lines = 0%nat) as [-> Hlen] by lia.
      destruct all_lines; [reflexivity|discriminate]. }
  split; [exact Heq|]. split.
  - intros ->. rewrite Heq. reflexivity.
  - intros Hall. rewrite Heq, drop_ge by lia. reflexivity.
Qed.

Lemma read_log_file_nonpositive_lines_witness :
  read_log_file (Some ["a"; "b"; "c"]) (-1) = map Raw (drop (Z.to_nat (- -1)) ["a"; "b"; "c"]) /\
  read_log_file (Some ["a"; "b"; "c"]) 0 = map Raw ["a"; "b"; "c"] /\
  read_log_file (Some ["a"; "b"; "c"]) (-3) = [].
Proof.
  split; [|split].
  - apply (read_log_file_nonpositive_lines ["a"; "b"; "c"] (-1)). lia.
  - apply (read_log_file_nonpositive_lines ["a"; "b"; "c"] 0); [lia|reflexivity].
  - apply (read_log_file_nonpositive_lines ["a"; "b"; "c"] (-3)); [lia|cbn; lia].
Defined.

End LogTail.

Section NameCollision.
Import PyStr PyTime Store FS World Worker Outcome.

(** What stands on the disk when the loop starts stands there when the
    loop reaches any entry. *)
Lemma reached_keeps (now : datetime) (files : list entry) :
  forall (w : world) (u : bool) (j : nat) (wj : world) (uj : bool) (p : string) (x : node),
    reached now files w u !! j = Some (wj, uj) ->
    files_on_disk w !! p = Some x ->
    exists y, files_on_disk wj !! p = Some y /\ (y = Dir <-> x = Dir).
Proof.
  induction files as [|f rest IH]; intros w u j wj uj p x; [by destruct j|].
  rewrite reached_cons. destruct j as [|j]; cbn [lookup list_lookup].
  - intros [= <- <-] Hp. by exists x.
  - intros Hr Hp.
    destruct (iteration_after now f w u) as [_ Hends].
    destruct (ends_in_footprint _ _ _ _ _ Hends p) as [_ Hkeep].
    destruct (Hkeep x Hp) as (y & Hy & Hxy).
    destruct (IH _ _ _ _ _ _ _ Hr Hy) as (z & Hz & Hyz).
    exists z. split; [exact Hz|tauto].
Qed.

Lemma reached_keeps_later (now : datetime) (files : list entry) :
  forall (w : world) (u : bool) (i j : nat) (f : entry)
         (wi : world) (ui : bool) (wj : world) (uj : bool) (p : string) (x : node),
    (i < j)%nat ->
    files !! i = Some f ->
    reached now files w u !! i = Some (wi, ui) ->
    reached now files w u !! j = Some (wj, uj) ->
    files_on_disk (env (after now f wi ui)) !! p = Some x ->
    exists y, files_on_disk wj !! p = Some y /\ (y = Dir <-> x = Dir).
Proof.
  induction files as [|g rest IH]; intros w u i j f wi ui wj uj p x Hij;
    [by destruct i|].
  rewrite reached_cons. destruct j as [|j]; [lia|].
  destruct i as [|i]; cbn [lookup list_lookup].
  - intros [= <-] [= <- <-] Hr Hp. by apply (reached_keeps _ _ _ _ _ _ _ _ _ Hr Hp).
  - intros Hf Hri Hrj Hp.
    by apply (IH _ _ i j f wi ui wj uj p x ltac:(lia) Hf Hri Hrj Hp).
Qed.

(** The archive of a backed-up entry, when no directory stood at its
    path. *)
Lemma backed_up_archive (now : datetime) (f : entry) (w : world) (u : bool) :
  backed_up now f w = true ->
  isdir (files_on_disk w) (destination now f) = false ->
  exists c,
    files_on_disk w !! path f = Some (File c) /\
    files_on_disk (env (after now f w u)) !! destination now f = Some (File c) /\
    history_of (file (after now f w u))
    = (history_of f
         ++ [mkrec (isoformat now)
                   (fst (splitext (filename f)) +:+ "_" +:+ strftime_time now
                      +:+ snd (splitext (filename f)))
                   (strftime_date now)])%list.
Proof.
  intros Hb Hnodir.
  destruct (backed_up_completed _ _ _ Hb)
    as (text & next & t1 & t2 & written & c & next' & _ & _ & _ & _ & Hmk & Hcp & _ & _ & Hafter).
  destruct (copy2_written _ _ _ _ _ Hcp) as (c' & Hsrc & Hw & _ & Ht2).
  assert (isdir t1 (destination now f) = false) as Hnodir1.
  { unfold isdir in *.
    by rewrite (makedirs_fuel_names _ _ _ _ Hmk _ (destination_longer now f)). }
  rewrite Hnodir1 in Hw. subst written t2.
  exists c'. rewrite (after_flag now f w u), Hafter.
  cbn [env file files_on_disk log_message with_write].
  split; [eapply makedirs_no_new_file; eassumption|].
  split; [apply lookup_insert_eq|reflexivity].
Qed.

(** X22. The name of an archive is made of the file name of the entry and
    the second of the tick only. Two entries of one file name that are
    backed up in the same tick therefore share one archive, provided no
    directory stood at the archive path when the first of them was
    reached: the later copy replaces the earlier one, the archive then
    holds the source of the later entry, and the histories of both
    entries name it. (With a directory at that path each copy goes into
    the directory, under the base name of its source.) *)
Theorem same_name_same_tick_one_archive
        (now : datetime) (w : world) (files : list entry)
        (i j : nat) (f g : entry) (wi wj : world) (ui uj : bool) :
  (i < j)%nat ->
  files !! i = Some f ->
  files !! j = Some g ->
  reached now files w false !! i = Some (wi, ui) ->
  reached now files w false !! j = Some (wj, uj) ->
  filename g = filename f ->
  backed_up now f wi = true ->
  backed_up now g wj = true ->
  isdir (files_on_disk wi) (destination now f) = false ->
  exists cf cg r,
    files_on_disk (env (after now f wi ui)) !! destination now f = Some (File cf) /\
    files_on_disk wi !! path f = Some (File cf) /\
    files_on_disk wj !! path g = Some (File cg) /\
    files_on_disk (env (after now g wj uj)) !! destination now f = Some (File cg) /\
    history_of (file (after now f wi ui)) = (history_of f ++ [r])%list /\
    history_of (file (after now g wj uj)) = (history_of g ++ [r])%list.
Proof.
  intros Hij Hf Hg Hri Hrj Hname Hbf Hbg Hnodir.
  destruct (backed_up_archive now f wi ui Hbf Hnodir) as (cf & Hsrcf & Harch & Hhist).
  assert (destination now g = destination now f) as Hdst
      by (unfold destination; by rewrite Hname).
  assert (isdir (files_on_disk wj) (destination now g) = false) as Hnodir'.
  { rewrite Hdst.
    destruct (reached_keeps_later _ _ _ _ _ _ _ _ _ _ _ _ _ Hij Hf Hri Hrj Harch)
      as (y & Hy & Hkind).
    unfold isdir. rewrite Hy. destruct y; [reflexivity|].
    destruct Hkind as [Hk _]. by specialize (Hk eq_refl). }
  destruct (backed_up_archive now g wj uj Hbg Hnodir') as (cg & Hsrcg & Harch' & Hhist').
  rewrite Hdst in Harch'. rewrite Hname in Hhist'.
  exists cf, cg. eexists. repeat split; eassumption.
Qed.

Lemma same_name_same_tick_one_archive_witness :
  exists cf cg r,
    files_on_disk (env (after Samples.morning Samples.report
                              (Samples.world_of [Samples.report; Twins.report_again]) false))
      !! destination Samples.morning Samples.report = Some (File cf) /\
    files_on_disk (Samples.world_of [Samples.report; Twins.report_again])
      !! path Samples.report = Some (File cf) /\
    files_on_disk (env (after Samples.morning Samples.report
                              (Samples.world_of [Samples.report; Twins.report_again]) false))
      !! path Twins.report_again = Some (File cg) /\
    files_on_disk
      (env (after Samples.morning Twins.report_again
                  (env (after Samples.morning Samples.report
                              (Samples.world_of [Samples.report; Twins.report_again]) false))
                  true))
      !! destination Samples.morning Samples.report = Some (File cg) /\
    history_of (file (after Samples.morning Samples.report
                            (Samples.world_of [Samples.report; Twins.report_again]) false))
    = (history_of Samples.report ++ [r])%list /\
    history_of
      (file (after Samples.morning Twins.report_again
                   (env (after Samples.morning Samples.report
                               (Samples.world_of [Samples.report; Twins.report_again]) false))
                   true))
    = (history_of Twins.report_again ++ [r])%list.
Proof.
  apply (same_name_same_tick_one_archive
           Samples.morning (Samples.world_of [Samples.report; Twins.report_again])
           [Samples.report; Twins.report_again]
           0 1 Samples.report Twins.report_again
           (Samples.world_of [Samples.report; Twins.report_again])
           (env (after Samples.morning Samples.report
                       (Samples.world_of [Samples.report; Twins.report_again]) false))
           false true);
    try lia; vm_compute; reflexivity.
Defined.

End NameCollision.
